(** * Retail analytics dashboard: a shallow embedding and its specification

    The development follows the five Python modules of the application:
    [main.py] (credential store and session shell), [customer.py] (CLV
    prediction page), [clv.py] (CLV dashboard page), [marketbasket.py]
    (association miner) and [sentiment.py] (sentiment scorer).

    Conventions.
    - A pandas cell that may be null (NaN / NaT / None) is an [option].
    - Integer cells are [Z]; the cells of an integer column of a file lie
      in the int64 range.  A column without a null is an int64 column, a
      column with a null a float64 column ([Frame.dtypes]), and a result
      that pandas holds in an int64 column is reduced modulo 2^64
      ([wrap64]), as numpy does.
    - A quantity that the customer pages compute in floating point is an
      exact rational [Q]: [0.3] is the rational 3/10, [/] is exact division,
      and binary64 rounding is not part of that model.
    - The association miner is embedded twice.  [MarketBasket] has the
      supports, confidences and lifts as exact rationals, for properties
      of these measures as quantities.  [Binary64] computes and compares
      them as binary64 numbers, as the libraries do; which rules the page
      returns is stated on it, since a comparison with a threshold can
      come out differently there ([two_item_basket 6 0 9]).
    - A Python [dict] with string keys is a [gmap string _].
    - A Python exception that aborts a page is the [Raise] outcome of the
      [result] type. *)

From Stdlib Require Import ZArith QArith Qround List Ascii String Lia Bool.
From Stdlib Require PrimFloat Uint63.
From stdpp Require Import base option list gmap strings fin_maps.

Local Open Scope Z_scope.

(** ** Outcomes of a page run *)

Inductive result (A : Type) : Type :=
| Ok (a : A)
| Raise (msg : string).
Arguments Ok {A} a.
Arguments Raise {A} msg.

Definition rbind {A B} (r : result A) (k : A → result B) : result B :=
  match r with
  | Ok a => k a
  | Raise m => Raise m
  end.

Notation "x ←ᵣ r ; k" := (rbind r (fun x => k))
  (at level 100, r at next level, right associativity).

Fixpoint rmapM {A B} (f : A → result B) (l : list A) : result (list B) :=
  match l with
  | [] => Ok []
  | a :: t => b ←ᵣ f a; bs ←ᵣ rmapM f t; Ok (b :: bs)
  end.

(** ** main.py: credential store and session shell *)

Module Auth.

(** [str.isspace] on code points below 256. *)
Definition is_space (c : ascii) : bool :=
  let n := N_of_ascii c in
  ((9 <=? n) && (n <=? 13) || (28 <=? n) && (n <=? 32)
   || (n =? 133) || (n =? 160))%N.

Fixpoint lstrip (s : string) : string :=
  match s with
  | EmptyString => EmptyString
  | String c t => if is_space c then lstrip t else s
  end.

Fixpoint rstrip (s : string) : string :=
  match s with
  | EmptyString => EmptyString
  | String c t =>
      match rstrip t with
      | EmptyString => if is_space c then EmptyString else String c EmptyString
      | t' => String c t'
      end
  end.

(** [s.strip()] *)
Definition strip (s : string) : string := rstrip (lstrip s).

(** [s.strip() == ""] *)
Definition blank (s : string) : bool := String.eqb (strip s) "".

(** [st.session_state] *)
Record session := {
  authenticated : bool;
  username : string;
  selected_app : option string;
  auth_mode : string
}.

(** The persistent state between two runs of the script: the content of
    [users.json] ([None] when the file does not exist) and the session. *)
Record world := {
  user_file : option (gmap string string);
  sess : session
}.

Definition load_users (f : option (gmap string string)) : gmap string string :=
  match f with
  | Some users => users
  | None => ∅
  end.

Definition save_users (users : gmap string string) (w : world) : world :=
  {| user_file := Some users; sess := sess w |}.

Inductive feedback :=
| Warning (msg : string)
| Error (msg : string)
| Success (msg : string)
| Rerun.

Definition failed (fb : feedback) : bool :=
  match fb with
  | Warning _ | Error _ => true
  | Success _ | Rerun => false
  end.

(** [users[username] == password] guarded by [username in users] *)
Definition check_password (users : gmap string string) (u p : string) : bool :=
  match users !! u with
  | Some q => String.eqb q p
  | None => false
  end.

Definition mem (users : gmap string string) (u : string) : bool :=
  match users !! u with
  | Some _ => true
  | None => false
  end.

(** The "Login" button. *)
Definition login (u p : string) (w : world) : world * feedback :=
  let users := load_users (user_file w) in
  if blank u || blank p then
    (w, Warning "Please enter both username and password.")
  else if check_password users u p then
    ({| user_file := user_file w;
        sess := {| authenticated := true; username := u;
                   selected_app := selected_app (sess w);
                   auth_mode := auth_mode (sess w) |} |}, Rerun)
  else (w, Error "Invalid username or password.").

(** The "Create Account" button. *)
Definition sign_up (u p : string) (w : world) : world * feedback :=
  let users := load_users (user_file w) in
  if blank u || blank p then
    (w, Warning "Username and password cannot be empty.")
  else if mem users u then
    (w, Error "Username already exists.")
  else
    (save_users (<[u := p]> users) w,
     Success "Account created! Please login.").

(** The "Reset Password" button.  The "Password" field is on the screen in
    this mode too, but only "Username" and "New Password" are read. *)
Definition reset_password (username password new_password : string) (w : world)
  : world * feedback :=
  let users := load_users (user_file w) in
  if blank username || blank new_password then
    (w, Warning "Please enter both username and new password.")
  else if mem users username then
    (save_users (<[username := new_password]> users) w,
     Success "Password reset successfully.")
  else (w, Error "Username not found.").

Inductive auth_action :=
| Login (u p : string)
| SignUp (u p : string)
| ResetPassword (u p new_p : string).

(** The authentication UI is only rendered while the session is not
    authenticated. *)
Definition auth_ui (a : auth_action) (w : world) : world * option feedback :=
  if authenticated (sess w) then (w, None)
  else
    let '(w', fb) :=
      match a with
      | Login u p => login u p w
      | SignUp u p => sign_up u p w
      | ResetPassword u p new_p => reset_password u p new_p w
      end in
    (w', Some fb).

(** The "Logout" button. *)
Definition logout (w : world) : world :=
  if authenticated (sess w) then
    {| user_file := user_file w;
       sess := {| authenticated := false; username := "";
                  selected_app := None;
                  auth_mode := auth_mode (sess w) |} |}
  else w.

(** [[u for u in users if u != "admin"]] *)
Definition deletable_users (users : gmap string string) : list string :=
  List.filter (fun u => negb (String.eqb u "admin")) (map fst (map_to_list users)).

(** [st.selectbox(label, options)]: the widget returns one of its options;
    [i] is the position picked by the user (the first option by default). *)
Definition selectbox (options : list string) (i : nat) : string :=
  nth i options (hd "" options).

(** One press of "Delete User" in the admin panel, with position [i]
    selected in the drop-down. *)
Definition admin_delete (i : nat) (w : world) : world :=
  let users := load_users (user_file w) in
  if authenticated (sess w) && String.eqb (username (sess w)) "admin" then
    let deletable := deletable_users users in
    match deletable with
    | [] => w
    | _ :: _ =>
        let delete_user := selectbox deletable i in
        save_users (delete delete_user users) w
    end
  else w.

Definition admin_deletes (choices : list nat) (w : world) : world :=
  fold_left (fun w i => admin_delete i w) choices w.

End Auth.

(** ** Numbers *)

(** [numpy.rint]: nearest integer, ties to the even neighbour. *)
Definition rint (q : Q) : Z :=
  let f := Qfloor q in
  match (2 * (Qnum q - f * Zpos (Qden q))) ?= Zpos (Qden q) with
  | Lt => f
  | Gt => f + 1
  | Eq => if Z.even f then f else f + 1
  end.

(** [Series.round(2)]: scale by 100, round to the nearest integer, scale
    back.  The result is kept in lowest terms. *)
Definition round2 (q : Q) : Q := Qred (Qdiv (inject_Z (rint (Qmult q (100 # 1)))) (100 # 1)).

(** [DataFrame.sum(axis=1)]: nulls are skipped, so the sum is never null. *)
Definition sum_skipna (cells : list (option Z)) : Z :=
  fold_left (fun acc c => acc + default 0 c) cells 0.

(** An int64 result of numpy: the value modulo 2^64, in [-2^63, 2^63). *)
Definition wrap64 (z : Z) : Z := (z + 2 ^ 63) mod 2 ^ 64 - 2 ^ 63.

(** ** The customer table shared by customer.py and clv.py *)

Module Frame.

(** The text of a [Dt_Customer] cell as [pandas.to_datetime] sees it: an
    empty cell, a text that is not a date, or a date (nanoseconds since
    the epoch). *)
Inductive date_cell :=
| DateMissing
| DateInvalid (text : string)
| DateValid (t : Z).

Record raw_row := {
  ID : option Z;
  Year_Birth : option Z;
  Income : option Z;
  Kidhome : option Z;
  Teenhome : option Z;
  Dt_Customer : date_cell;
  Recency : option Z;
  MntWines : option Z;
  MntFruits : option Z;
  MntMeatProducts : option Z;
  MntFishProducts : option Z;
  MntSweetProducts : option Z;
  MntGoldProds : option Z;
  NumDealsPurchases : option Z;
  NumWebPurchases : option Z;
  NumCatalogPurchases : option Z;
  NumStorePurchases : option Z;
  AcceptedCmp1 : option Z;
  AcceptedCmp5 : option Z;
  Response : option Z;
  Gender : option string;
  Marital_Status : option string;
  Education : option string;
  (** the cells of every other column of the file *)
  extra : list (option string)
}.

(** A table: the names of the columns it has, and its rows.  The field of
    a row for a column that the table does not have is never read. *)
Record table := {
  columns : list string;
  rows : list raw_row
}.

(** [c in df.columns] *)
Definition has_column (cols : list string) (c : string) : bool :=
  existsb (String.eqb c) cols.

Definition is_null {A} (c : option A) : bool :=
  match c with
  | Some _ => false
  | None => true
  end.

Definition int_columns : list (string * (raw_row → option Z)) :=
  [ ("ID", ID); ("Year_Birth", Year_Birth); ("Income", Income);
    ("Kidhome", Kidhome); ("Teenhome", Teenhome); ("Recency", Recency);
    ("MntWines", MntWines); ("MntFruits", MntFruits);
    ("MntMeatProducts", MntMeatProducts);
    ("MntFishProducts", MntFishProducts);
    ("MntSweetProducts", MntSweetProducts);
    ("MntGoldProds", MntGoldProds);
    ("NumDealsPurchases", NumDealsPurchases);
    ("NumWebPurchases", NumWebPurchases);
    ("NumCatalogPurchases", NumCatalogPurchases);
    ("NumStorePurchases", NumStorePurchases);
    ("AcceptedCmp1", AcceptedCmp1); ("AcceptedCmp5", AcceptedCmp5);
    ("Response", Response) ]%string.

Definition text_columns : list (string * (raw_row → option string)) :=
  [ ("Gender", Gender); ("Marital_Status", Marital_Status);
    ("Education", Education) ]%string.

(** Does row [r] hold a null in one of the integer or text columns that
    the table has, or in one of its other columns? *)
Definition raw_has_null (cols : list string) (r : raw_row) : bool :=
  existsb (fun '(c, get) => has_column cols c && is_null (get r)) int_columns
  || existsb (fun '(c, get) => has_column cols c && is_null (get r)) text_columns
  || existsb is_null (extra r).

Definition spend_cols : list (string * (raw_row → option Z)) :=
  [ ("MntWines", MntWines); ("MntFruits", MntFruits);
    ("MntMeatProducts", MntMeatProducts);
    ("MntFishProducts", MntFishProducts);
    ("MntSweetProducts", MntSweetProducts);
    ("MntGoldProds", MntGoldProds) ]%string.

Definition purchase_cols : list (string * (raw_row → option Z)) :=
  [ ("NumDealsPurchases", NumDealsPurchases);
    ("NumWebPurchases", NumWebPurchases);
    ("NumCatalogPurchases", NumCatalogPurchases);
    ("NumStorePurchases", NumStorePurchases) ]%string.

(** The dtype of a block of integer columns: int64 when no cell of the
    block is null in any row of the table, float64 as soon as one is. *)
Definition int64_block (block : list (string * (raw_row → option Z)))
  (rows : list raw_row) : bool :=
  forallb (fun r => forallb (fun cg => negb (is_null (snd cg r))) block) rows.

(** What the derived columns need to know of the dtypes of the table. *)
Record dtypes := {
  birth_int64 : bool;
  spend_int64 : bool;
  purchase_int64 : bool
}.

Definition dtypes_of (rows : list raw_row) : dtypes :=
  {| birth_int64 := int64_block [("Year_Birth"%string, Year_Birth)] rows;
     spend_int64 := int64_block spend_cols rows;
     purchase_int64 := int64_block purchase_cols rows |}.

(** An integer result as a column of that dtype holds it: int64
    arithmetic wraps around, a float64 holds the number. *)
Definition as_dtype (int64 : bool) (z : Z) : Z :=
  if int64 then wrap64 z else z.

(** [df[block].sum(axis=1)] on the cells of one row. *)
Definition row_sum (int64 : bool) (cells : list (option Z)) : Z :=
  as_dtype int64 (sum_skipna cells).

Definition ns_per_day : Z := 86400 * 1000000000.

(** [(now - dt).days]: whole days, rounded towards minus infinity. *)
Definition days_between (now dt : Z) : Z := (now - dt) / ns_per_day.

(** The columns both pages add to the table. *)
Record derived_row := {
  raw : raw_row;
  Dt_Customer_ts : option Z;
  Age : option Z;
  Customer_Tenure : option Z;
  Tenure_Years : option Q;
  Total_Spending : Z;
  Purchase_Frequency : Z;
  Profit_Margin : Q;
  CLV : option Q
}.

End Frame.

(** ** customer.py: the CLV prediction page *)

Module Customer.

(** [pd.to_datetime(column)]: a text that is not a date raises. *)
Definition to_datetime (c : Frame.date_cell) : result (option Z) :=
  match c with
  | Frame.DateMissing => Ok None
  | Frame.DateInvalid text => Raise ("Unknown datetime string format: " ++ text)
  | Frame.DateValid t => Ok (Some t)
  end.

(** The columns that the feature engineering indexes by name. *)
Definition indexed_columns : list string :=
  ["Dt_Customer"; "Year_Birth"]%string
    ++ map fst Frame.spend_cols ++ map fst Frame.purchase_cols.

(** Lines 53-67 on one row of a table whose dtypes are [ty]; [year] is
    [datetime.now().year] and [now] is [datetime.now()]. *)
Definition feature_engineering (year now : Z) (ty : Frame.dtypes)
  (r : Frame.raw_row) : result Frame.derived_row :=
  dt ←ᵣ to_datetime (Frame.Dt_Customer r);
  let age := (fun y => Frame.as_dtype (Frame.birth_int64 ty) (year - y))
               <$> Frame.Year_Birth r in
  let customer_tenure := Frame.days_between now <$> dt in
  let tenure_years := (fun d => inject_Z d / 365)%Q <$> customer_tenure in
  let total_spending :=
    Frame.row_sum (Frame.spend_int64 ty)
      (map (fun cg => snd cg r) Frame.spend_cols) in
  let purchase_frequency :=
    Frame.row_sum (Frame.purchase_int64 ty)
      (map (fun cg => snd cg r) Frame.purchase_cols) in
  let profit_margin := (inject_Z total_spending * 0.3)%Q in
  let clv := (fun years => profit_margin * inject_Z purchase_frequency * years)%Q
               <$> tenure_years in
  Ok {| Frame.raw := r;
        Frame.Dt_Customer_ts := dt;
        Frame.Age := age;
        Frame.Customer_Tenure := customer_tenure;
        Frame.Tenure_Years := tenure_years;
        Frame.Total_Spending := total_spending;
        Frame.Purchase_Frequency := purchase_frequency;
        Frame.Profit_Margin := profit_margin;
        Frame.CLV := round2 <$> clv |}.

(** Does the row hold a null in any column of the table after the
    feature engineering? *)
Definition has_null (cols : list string) (d : Frame.derived_row) : bool :=
  Frame.raw_has_null cols (Frame.raw d)
  || Frame.is_null (Frame.Dt_Customer_ts d)
  || Frame.is_null (Frame.Age d)
  || Frame.is_null (Frame.Customer_Tenure d)
  || Frame.is_null (Frame.Tenure_Years d)
  || Frame.is_null (Frame.CLV d).

(** [df.dropna(inplace=True)] *)
Definition dropna (cols : list string) (ds : list Frame.derived_row)
  : list Frame.derived_row :=
  List.filter (fun d => negb (has_null cols d)) ds.

(** Lines 50-68 of [run_clv]: the table [df] the rest of the page uses. *)
Definition run_clv_df (year now : Z) (t : Frame.table)
  : result (list Frame.derived_row) :=
  if forallb (Frame.has_column (Frame.columns t)) indexed_columns then
    let ty := Frame.dtypes_of (Frame.rows t) in
    ds ←ᵣ rmapM (feature_engineering year now ty) (Frame.rows t);
    Ok (dropna (Frame.columns t) ds)
  else Raise "KeyError".

(** *** Model training and persistence *)

Definition features : list string :=
  [ "Age"; "Income"; "Kidhome"; "Teenhome"; "Recency"; "MntGoldProds";
    "NumDealsPurchases"; "AcceptedCmp1"; "AcceptedCmp5"; "Response";
    "NumCatalogPurchases"; "Customer_Tenure"; "Tenure_Years";
    "Total_Spending"; "Purchase_Frequency"; "Profit_Margin" ]%string.

Definition of_int (c : option Z) : option Q := inject_Z <$> c.

(** The numeric columns of [df], by name. *)
Definition numeric_columns : list (string * (Frame.derived_row → option Q)) :=
  map (fun cg => (fst cg, fun d => of_int (snd cg (Frame.raw d)))) Frame.int_columns
  ++ [ ("Age", fun d => of_int (Frame.Age d));
       ("Customer_Tenure", fun d => of_int (Frame.Customer_Tenure d));
       ("Tenure_Years", Frame.Tenure_Years);
       ("Total_Spending", fun d => Some (inject_Z (Frame.Total_Spending d)));
       ("Purchase_Frequency", fun d => Some (inject_Z (Frame.Purchase_Frequency d)));
       ("Profit_Margin", fun d => Some (Frame.Profit_Margin d));
       ("CLV", Frame.CLV) ]%string.

Fixpoint assoc {A} (k : string) (l : list (string * A)) : option A :=
  match l with
  | [] => None
  | (k', v) :: t => if String.eqb k k' then Some v else assoc k t
  end.

Definition cell (d : Frame.derived_row) (c : string) : option Q :=
  match assoc c numeric_columns with
  | Some get => get d
  | None => None
  end.

(** The columns that lines 55-67 add to the table. *)
Definition derived_columns : list string :=
  [ "Age"; "Customer_Tenure"; "Tenure_Years"; "Total_Spending";
    "Purchase_Frequency"; "Profit_Margin"; "CLV" ]%string.

(** [df[names]] for numeric columns, on the table that the feature
    engineering leaves of a file whose columns are [cols]: a name that is
    not a column of [df] is a [KeyError]. *)
Definition select (cols names : list string) (df : list Frame.derived_row)
  : result (list (list (option Q))) :=
  match List.find (fun c => negb (Frame.has_column (cols ++ derived_columns) c)) names with
  | Some c => Raise ("KeyError: " ++ c)
  | None => Ok (map (fun d => map (cell d) names) df)
  end.

(** The arguments of [XGBRegressor(...)]. *)
Record XGBRegressor := {
  n_estimators : Z;
  max_depth : Z;
  learning_rate : Q;
  random_state : Z
}.

(** The two artifact files; [None] when the file does not exist. *)
Record disk (Model : Type) := {
  xgb_model_pkl : option Model;
  features_pkl : option (list string)
}.
Arguments xgb_model_pkl {Model} _.
Arguments features_pkl {Model} _.

Section Training.

(** A fitted regressor of the library, and its [model.fit(X, y)], which
    may raise. *)
Variable Model : Type.
Variable fit : XGBRegressor → list (list (option Q)) → list (option Q)
               → result Model.

(** Lines 70-86.  The outcome comes with the artifact files as the
    call leaves them: an exception before the two [joblib.dump] leaves
    them as they were. *)
Definition train_model (cols : list string) (df : list Frame.derived_row)
  (fs : disk Model) : disk Model * result (Model * list string) :=
  match select cols features df with
  | Raise e => (fs, Raise e)
  | Ok X =>
      let y := map (fun d => cell d "CLV") df in
      let model := {| n_estimators := 100; max_depth := 5;
                      learning_rate := 0.1; random_state := 42 |} in
      match fit model X y with
      | Raise e => (fs, Raise e)
      | Ok model =>
          ({| xgb_model_pkl := Some model; features_pkl := Some features |},
           Ok (model, features))
      end
  end.

(** Lines 130-141: the "Retrain Model" button and the artifact check.
    The message is what [st.success] shows, if anything. *)
Definition load_or_train (retrain : bool) (cols : list string)
  (df : list Frame.derived_row) (fs : disk Model)
  : disk Model * result (Model * list string * option string) :=
  if retrain then
    let '(fs', trained) := train_model cols df fs in
    (fs', mf ←ᵣ trained; Ok (mf, Some "Model retrained and saved!"%string))
  else
    match xgb_model_pkl fs, features_pkl fs with
    | Some model, Some feats => (fs, Ok (model, feats, None))
    | _, _ =>
        let '(fs', trained) := train_model cols df fs in
        (fs', mf ←ᵣ trained; Ok (mf, Some "Model trained and saved!"%string))
    end.

End Training.

Arguments train_model {Model} fit cols df fs.
Arguments load_or_train {Model} fit retrain cols df fs.

(** *** The single-customer form *)

(** The values of the sidebar widgets. *)
Record form := {
  Age : Z;
  Income : Z;
  Kidhome : Z;
  Teenhome : Z;
  Recency : Z;
  MntGoldProds : Z;
  NumDealsPurchases : Z;
  AcceptedCmp1 : Z;
  AcceptedCmp5 : Z;
  Response : Z;
  NumCatalogPurchases : Z;
  Customer_Tenure : Z
}.

(** Lines 104-128 of [user_input]: the one-row table built from the
    widget values. *)
Definition user_input (f : form) : list (string * Q) :=
  let Tenure_Years := (inject_Z (Customer_Tenure f) / 365)%Q in
  let Total_Spending := MntGoldProds f in
  let Purchase_Frequency := NumDealsPurchases f + NumCatalogPurchases f in
  let Profit_Margin := (inject_Z Total_Spending * 0.3)%Q in
  [ ("Age", inject_Z (Age f));
    ("Income", inject_Z (Income f));
    ("Kidhome", inject_Z (Kidhome f));
    ("Teenhome", inject_Z (Teenhome f));
    ("Recency", inject_Z (Recency f));
    ("MntGoldProds", inject_Z (MntGoldProds f));
    ("NumDealsPurchases", inject_Z (NumDealsPurchases f));
    ("AcceptedCmp1", inject_Z (AcceptedCmp1 f));
    ("AcceptedCmp5", inject_Z (AcceptedCmp5 f));
    ("Response", inject_Z (Response f));
    ("NumCatalogPurchases", inject_Z (NumCatalogPurchases f));
    ("Customer_Tenure", inject_Z (Customer_Tenure f));
    ("Tenure_Years", Tenure_Years);
    ("Total_Spending", inject_Z Total_Spending);
    ("Purchase_Frequency", inject_Z Purchase_Frequency);
    ("Profit_Margin", Profit_Margin) ]%string.

(** Lines 154-157: the "Manual CLV (Formula)" metric of the
    "Predict CLV" button. *)
Definition manual_clv (input_df : list (string * Q)) : option Q :=
  profit ← assoc "Profit_Margin" input_df;
  freq ← assoc "Purchase_Frequency" input_df;
  tenure ← assoc "Tenure_Years" input_df;
  Some (profit * freq * tenure)%Q.

End Customer.

(** ** clv.py: the CLV dashboard page *)

Module Dashboard.

(** [pd.to_datetime(column, errors='coerce')]: a text that is not a date
    becomes null. *)
Definition to_datetime (c : Frame.date_cell) : option Z :=
  match c with
  | Frame.DateMissing => None
  | Frame.DateInvalid _ => None
  | Frame.DateValid t => Some t
  end.

(** [if col not in df.columns: df[col] = 0] *)
Definition fill (cols : list string) (c : string) (v : option Z) : option Z :=
  if Frame.has_column cols c then v else Some 0.

Definition fill_missing (cols : list string) (r : Frame.raw_row) : Frame.raw_row :=
  {| Frame.ID := Frame.ID r;
     Frame.Year_Birth := Frame.Year_Birth r;
     Frame.Income := Frame.Income r;
     Frame.Kidhome := Frame.Kidhome r;
     Frame.Teenhome := Frame.Teenhome r;
     Frame.Dt_Customer := Frame.Dt_Customer r;
     Frame.Recency := Frame.Recency r;
     Frame.MntWines := fill cols "MntWines" (Frame.MntWines r);
     Frame.MntFruits := fill cols "MntFruits" (Frame.MntFruits r);
     Frame.MntMeatProducts := fill cols "MntMeatProducts" (Frame.MntMeatProducts r);
     Frame.MntFishProducts := fill cols "MntFishProducts" (Frame.MntFishProducts r);
     Frame.MntSweetProducts := fill cols "MntSweetProducts" (Frame.MntSweetProducts r);
     Frame.MntGoldProds := fill cols "MntGoldProds" (Frame.MntGoldProds r);
     Frame.NumDealsPurchases := fill cols "NumDealsPurchases" (Frame.NumDealsPurchases r);
     Frame.NumWebPurchases := fill cols "NumWebPurchases" (Frame.NumWebPurchases r);
     Frame.NumCatalogPurchases := fill cols "NumCatalogPurchases" (Frame.NumCatalogPurchases r);
     Frame.NumStorePurchases := fill cols "NumStorePurchases" (Frame.NumStorePurchases r);
     Frame.AcceptedCmp1 := Frame.AcceptedCmp1 r;
     Frame.AcceptedCmp5 := Frame.AcceptedCmp5 r;
     Frame.Response := Frame.Response r;
     Frame.Gender := Frame.Gender r;
     Frame.Marital_Status := Frame.Marital_Status r;
     Frame.Education := Frame.Education r;
     Frame.extra := Frame.extra r |}.

(** The dtypes of the table once lines 64-66 and 70-72 have added the
    spend and purchase columns that the file lacks. *)
Definition dtypes (cols : list string) (rows : list Frame.raw_row) : Frame.dtypes :=
  Frame.dtypes_of (map (fill_missing cols) rows).

(** Lines 57-77 on one row of a table whose columns are [cols] and whose
    dtypes are [ty]. *)
Definition clv_row (year now : Z) (cols : list string) (ty : Frame.dtypes)
  (r : Frame.raw_row) : Frame.derived_row :=
  let dt := to_datetime (Frame.Dt_Customer r) in
  let age := if Frame.has_column cols "Year_Birth"
             then (fun y => Frame.as_dtype (Frame.birth_int64 ty) (year - y))
                    <$> Frame.Year_Birth r
             else None in
  let customer_tenure := Frame.days_between now <$> dt in
  let tenure_years := (fun d => inject_Z d / 365)%Q <$> customer_tenure in
  let r := fill_missing cols r in
  let total_spending :=
    Frame.row_sum (Frame.spend_int64 ty)
      (map (fun cg => snd cg r) Frame.spend_cols) in
  let purchase_frequency :=
    Frame.row_sum (Frame.purchase_int64 ty)
      (map (fun cg => snd cg r) Frame.purchase_cols) in
  let profit_margin := (inject_Z total_spending * 0.3)%Q in
  let clv := (fun years => profit_margin * inject_Z purchase_frequency * years)%Q
               <$> tenure_years in
  {| Frame.raw := r;
     Frame.Dt_Customer_ts := dt;
     Frame.Age := age;
     Frame.Customer_Tenure := customer_tenure;
     Frame.Tenure_Years := tenure_years;
     Frame.Total_Spending := total_spending;
     Frame.Purchase_Frequency := purchase_frequency;
     Frame.Profit_Margin := profit_margin;
     Frame.CLV := round2 <$> clv |}.

(** The selections of the three sidebar multiselects. *)
Record filters := {
  gender_filter : list string;
  marital_filter : list string;
  edu_filter : list string
}.

(** [df[c].dropna().unique().tolist()]: every value of the column once.
    Only membership in this list matters below, not its order. *)
Definition options (get : Frame.raw_row → option string)
  (df : list Frame.derived_row) : list string :=
  nodup string_dec (omap (fun d => get (Frame.raw d)) df).

(** [series.isin(selection)] on one cell: a null is never in. *)
Definition isin (selection : list string) (c : option string) : bool :=
  match c with
  | Some v => existsb (String.eqb v) selection
  | None => false
  end.

(** [if c in df.columns: df = df[df[c].isin(selection)]] *)
Definition apply_filter (cols : list string) (c : string)
  (get : Frame.raw_row → option string) (selection : list string)
  (df : list Frame.derived_row) : list Frame.derived_row :=
  if Frame.has_column cols c
  then List.filter (fun d => isin selection (get (Frame.raw d))) df
  else df.

(** Lines 48-94: the table behind the summary table, the download and
    the charts. *)
Definition run_clv_dashboard (year now : Z) (sel : filters) (t : Frame.table)
  : result (list Frame.derived_row) :=
  let cols := Frame.columns t in
  if Frame.has_column cols "Dt_Customer" then
    let ty := dtypes cols (Frame.rows t) in
    let df := map (clv_row year now cols ty) (Frame.rows t) in
    let df := apply_filter cols "Gender" Frame.Gender (gender_filter sel) df in
    let df := apply_filter cols "Marital_Status" Frame.Marital_Status (marital_filter sel) df in
    let df := apply_filter cols "Education" Frame.Education (edu_filter sel) df in
    Ok df
  else Raise "'Dt_Customer' column is required.".

(** The selections the multiselects start with: every option. *)
Definition default_filters (year now : Z) (t : Frame.table) : filters :=
  let ty := dtypes (Frame.columns t) (Frame.rows t) in
  let df := map (clv_row year now (Frame.columns t) ty) (Frame.rows t) in
  {| gender_filter := options Frame.Gender df;
     marital_filter := options Frame.Marital_Status df;
     edu_filter := options Frame.Education df |}.

End Dashboard.

(** ** marketbasket.py: the association miner *)

Module MarketBasket.

(** One line of the uploaded file: the invoice and product cells. *)
Record transaction := {
  invoice : option string;
  product : option string
}.

(** [df[product_col].value_counts()[i]]: how many lines name item [i]. *)
Definition value_counts (df : list transaction) (i : string) : nat :=
  length (List.filter (fun r => bool_decide (product r = Some i)) df).

(** [item_counts[item_counts > 50].index], as a membership test. *)
Definition common_items (df : list transaction) (i : string) : bool :=
  Nat.ltb 50 (value_counts df i).

(** [df[df[product_col].isin(common_items)]] *)
Definition filter_common (df : list transaction) : list transaction :=
  List.filter (fun r => match product r with
                        | Some i => common_items df i
                        | None => false
                        end) df.

(** The boolean invoice-by-item matrix. *)
Record basket := {
  items : list string;
  matrix : list (list bool)
}.

(** [groupby([invoice, product]).size().unstack(fill_value=0) > 0];
    lines with a null key are left out by [groupby].  The matrix has one
    row per invoice and one column per item, each listed once.  pandas
    lists both in sorted order; the order in which they are listed here is
    not meant to match it, and nothing below depends on that order. *)
Definition build_basket (df : list transaction) : basket :=
  let keyed := List.filter (fun r => negb (Frame.is_null (invoice r))
                                     && negb (Frame.is_null (product r))) df in
  let invoices := nodup string_dec (omap invoice keyed) in
  let cols := nodup string_dec (omap product keyed) in
  {| items := cols;
     matrix :=
       map (fun inv =>
              map (fun it =>
                     existsb (fun r => bool_decide (invoice r = Some inv)
                                       && bool_decide (product r = Some it)) keyed)
                  cols)
           invoices |}.

(** The items of one row of the matrix. *)
Definition row_items (cols : list string) (row : list bool) : list string :=
  map fst (List.filter snd (combine cols row)).

Definition contains (cols : list string) (X : list string) (row : list bool) : bool :=
  forallb (fun i => existsb (String.eqb i) (row_items cols row)) X.

Definition support_count (b : basket) (X : list string) : nat :=
  length (List.filter (contains (items b) X) (matrix b)).

(** The fraction of the rows that hold every item of [X]. *)
Definition support (b : basket) (X : list string) : Q :=
  (inject_Z (Z.of_nat (support_count b X))
   / inject_Z (Z.of_nat (length (matrix b))))%Q.

Fixpoint sublists (l : list string) : list (list string) :=
  match l with
  | [] => [[]]
  | x :: t => map (cons x) (sublists t) ++ sublists t
  end.

Definition nonempty (X : list string) : bool :=
  match X with
  | [] => false
  | _ :: _ => true
  end.

(** Every non-empty set of columns, each listed once, in column order. *)
Definition itemsets (cols : list string) : list (list string) :=
  List.filter nonempty (sublists cols).

(** [mlxtend.frequent_patterns.apriori(basket, min_support,
    use_colnames=True)], by its contract: the item sets whose support
    reaches [min_support], with their support. *)
Definition apriori (b : basket) (min_support : Q) : list (list string * Q) :=
  map (fun X => (X, support b X))
      (List.filter (fun X => Qle_bool min_support (support b X)) (itemsets (items b))).

Record rule := {
  antecedents : list string;
  consequents : list string;
  antecedent_support : Q;
  consequent_support : Q;
  rule_support : Q;
  confidence : Q;
  lift : Q
}.

(** The ways to cut [k] into an antecedent and a consequent. *)
Fixpoint splits (k : list string) : list (list string * list string) :=
  match k with
  | [] => [([], [])]
  | x :: t =>
      flat_map (fun ac => [(x :: fst ac, snd ac); (fst ac, x :: snd ac)]) (splits t)
  end.

Definition proper_splits (k : list string) : list (list string * list string) :=
  List.filter (fun ac => nonempty (fst ac) && nonempty (snd ac)) (splits k).

Fixpoint lookup_itemset (X : list string) (freq : list (list string * Q)) : option Q :=
  match freq with
  | [] => None
  | (Y, s) :: t => if bool_decide (X = Y) then Some s else lookup_itemset X t
  end.

Definition make_rule (A C : list string) (sAC sA sC : Q) : rule :=
  {| antecedents := A;
     consequents := C;
     antecedent_support := sA;
     consequent_support := sC;
     rule_support := sAC;
     confidence := (sAC / sA)%Q;
     lift := (sAC / sA / sC)%Q |}.

(** The candidate rules of one frequent item set; a side that is not in
    the table of frequent item sets is a [KeyError]. *)
Definition rules_of (freq : list (list string * Q)) (ks : list string * Q)
  : result (list rule) :=
  rmapM (fun ac =>
           match lookup_itemset (fst ac) freq, lookup_itemset (snd ac) freq with
           | Some sA, Some sC => Ok (make_rule (fst ac) (snd ac) (snd ks) sA sC)
           | _, _ => Raise "KeyError"
           end)
        (proper_splits (fst ks)).

(** [mlxtend.frequent_patterns.association_rules(freq,
    metric="confidence", min_threshold)], by its contract. *)
Definition association_rules (freq : list (list string * Q)) (min_threshold : Q)
  : result (list rule) :=
  match freq with
  | [] => Raise "The input DataFrame `df` containing the frequent itemsets is empty."
  | _ :: _ =>
      candidates ←ᵣ rmapM (rules_of freq) freq;
      Ok (List.filter (fun r => Qle_bool min_threshold (confidence r))
                      (concat candidates))
  end.

Definition len1 (X : list string) : bool := Nat.eqb (length X) 1.

(** The row filter of lines 30-36. *)
Definition keep (r : rule) : bool :=
  len1 (antecedents r) && len1 (consequents r)
  && Qle_bool 0.02 (rule_support r)
  && Qle_bool 0.4 (confidence r)
  && Qle_bool 1.0 (lift r).

Definition generate_rules (b : basket) : result (list rule) :=
  let freq_items := apriori b 0.02 in
  rules ←ᵣ association_rules freq_items 0.4;
  Ok (List.filter keep rules).

(** Lines 66-78 of [run_marketbasket]. *)
Definition run_marketbasket (df : list transaction) : result (list rule) :=
  generate_rules (build_basket (filter_common df)).

End MarketBasket.

(** ** marketbasket.py: the association miner in binary64 *)

Module Binary64.

Import PrimFloat.
#[local] Set Warnings "-inexact-float".

(** A count converted to float64. *)
Definition of_count (n : nat) : float :=
  PrimFloat.of_uint63 (Uint63.of_Z (Z.of_nat n)).

(** The support of [X] as [apriori] computes it: the number of rows that
    hold every item of [X] divided by the number of rows, in binary64. *)
Definition support (b : MarketBasket.basket) (X : list string) : float :=
  PrimFloat.div (of_count (MarketBasket.support_count b X))
                (of_count (length (MarketBasket.matrix b))).

(** [mlxtend.frequent_patterns.apriori(basket, min_support,
    use_colnames=True)], by its contract: the item sets whose support
    reaches [min_support], with their support. *)
Definition apriori (b : MarketBasket.basket) (min_support : float)
  : list (list string * float) :=
  map (fun X => (X, support b X))
      (List.filter (fun X => PrimFloat.leb min_support (support b X))
                   (MarketBasket.itemsets (MarketBasket.items b))).

Record rule := {
  antecedents : list string;
  consequents : list string;
  antecedent_support : float;
  consequent_support : float;
  rule_support : float;
  confidence : float;
  lift : float
}.

Fixpoint lookup_itemset (X : list string) (freq : list (list string * float))
  : option float :=
  match freq with
  | [] => None
  | (Y, s) :: t => if bool_decide (X = Y) then Some s else lookup_itemset X t
  end.

Definition make_rule (A C : list string) (sAC sA sC : float) : rule :=
  {| antecedents := A;
     consequents := C;
     antecedent_support := sA;
     consequent_support := sC;
     rule_support := sAC;
     confidence := PrimFloat.div sAC sA;
     lift := PrimFloat.div (PrimFloat.div sAC sA) sC |}.

(** The candidate rules of one frequent item set; a side that is not in
    the table of frequent item sets is a [KeyError]. *)
Definition rules_of (freq : list (list string * float)) (ks : list string * float)
  : result (list rule) :=
  rmapM (fun ac =>
           match lookup_itemset (fst ac) freq, lookup_itemset (snd ac) freq with
           | Some sA, Some sC => Ok (make_rule (fst ac) (snd ac) (snd ks) sA sC)
           | _, _ => Raise "KeyError"
           end)
        (MarketBasket.proper_splits (fst ks)).

(** [mlxtend.frequent_patterns.association_rules(freq,
    metric="confidence", min_threshold)], by its contract. *)
Definition association_rules (freq : list (list string * float))
  (min_threshold : float) : result (list rule) :=
  match freq with
  | [] => Raise "The input DataFrame `df` containing the frequent itemsets is empty."
  | _ :: _ =>
      candidates ←ᵣ rmapM (rules_of freq) freq;
      Ok (List.filter (fun r => PrimFloat.leb min_threshold (confidence r))
                      (concat candidates))
  end.

(** The row filter of lines 30-36. *)
Definition keep (r : rule) : bool :=
  MarketBasket.len1 (antecedents r) && MarketBasket.len1 (consequents r)
  && PrimFloat.leb 0.02 (rule_support r)
  && PrimFloat.leb 0.4 (confidence r)
  && PrimFloat.leb 1.0 (lift r).

(** Lines 27-37. *)
Definition generate_rules (b : MarketBasket.basket) : result (list rule) :=
  let freq_items := apriori b 0.02 in
  rules ←ᵣ association_rules freq_items 0.4;
  Ok (List.filter keep rules).

(** Lines 66-78 of [run_marketbasket]. *)
Definition run_marketbasket (df : list MarketBasket.transaction)
  : result (list rule) :=
  generate_rules (MarketBasket.build_basket (MarketBasket.filter_common df)).

End Binary64.

(** ** sentiment.py: the sentiment scorer *)

Module Sentiment.

Definition Qlt_bool (x y : Q) : bool := negb (Qle_bool y x).

Section Scorer.

(** [TextBlob(str(text)).sentiment.polarity] *)
Variable polarity : string → Q.

Definition get_sentiment (text : option string) : string :=
  match text with
  | None => "Neutral"
  | Some t =>
      let polarity := polarity t in
      if Qlt_bool 0.1 polarity then "Positive"
      else if Qlt_bool polarity (-0.1) then "Negative"
      else "Neutral"
  end.

End Scorer.

End Sentiment.

(** ** Vocabulary of the specification *)

(** [r] is [q] rounded to two decimals: [r] is the whole number of
    hundredths nearest to [q], the even one of the two when [q] lies
    half-way between them. *)
Definition rounded_2dp (q r : Q) : Prop :=
  ∃ n : Z, (r == inject_Z n / 100)%Q
           ∧ (q - (1 # 200) <= r)%Q ∧ (r <= q + (1 # 200))%Q
           ∧ ((r == q - (1 # 200))%Q ∨ (r == q + (1 # 200))%Q → Z.even n = true).

(** [z] fits in a signed 64-bit integer. *)
Definition in_int64 (z : Z) : Prop := - 2 ^ 63 ≤ z < 2 ^ 63.

Definition total (l : list Z) : Z := fold_right Z.add 0 l.

(** Row [r] holds the amounts [spend] in its six spend columns and the
    counts [purchase] in its four purchase-count columns, none of them
    null. *)
Definition inputs_present (r : Frame.raw_row) (spend purchase : list Z) : Prop :=
  map (fun cg => snd cg r) Frame.spend_cols = map Some spend
  ∧ map (fun cg => snd cg r) Frame.purchase_cols = map Some purchase.

(** The rules cut from an item set [k], with supports read off the
    basket. *)
Definition candidates (b : MarketBasket.basket) (k : list string)
  : list MarketBasket.rule :=
  map (fun ac => MarketBasket.make_rule (fst ac) (snd ac) (MarketBasket.support b k)
                   (MarketBasket.support b (fst ac))
                   (MarketBasket.support b (snd ac)))
      (MarketBasket.proper_splits k).

(** ** Sample inputs *)

Definition fresh_world : Auth.world :=
  {| Auth.user_file := None;
     Auth.sess := {| Auth.authenticated := false; Auth.username := "";
                     Auth.selected_app := None; Auth.auth_mode := "Sign Up" |} |}.

Definition day0 : Z := 1356998400 * 1000000000.

(** A complete customer record: spend 1000 in total, 5 purchases. *)
Definition sample_row : Frame.raw_row :=
  {| Frame.ID := Some 5524;
     Frame.Year_Birth := Some 1957;
     Frame.Income := Some 58138;
     Frame.Kidhome := Some 0;
     Frame.Teenhome := Some 0;
     Frame.Dt_Customer := Frame.DateValid day0;
     Frame.Recency := Some 58;
     Frame.MntWines := Some 400;
     Frame.MntFruits := Some 100;
     Frame.MntMeatProducts := Some 200;
     Frame.MntFishProducts := Some 100;
     Frame.MntSweetProducts := Some 100;
     Frame.MntGoldProds := Some 100;
     Frame.NumDealsPurchases := Some 1;
     Frame.NumWebPurchases := Some 2;
     Frame.NumCatalogPurchases := Some 1;
     Frame.NumStorePurchases := Some 1;
     Frame.AcceptedCmp1 := Some 0;
     Frame.AcceptedCmp5 := Some 0;
     Frame.Response := Some 1;
     Frame.Gender := None;
     Frame.Marital_Status := Some "Single"%string;
     Frame.Education := Some "Graduation"%string;
     Frame.extra := [Some "0"%string] |}.

(** The same record with another enrollment-date cell. *)
Definition with_date (c : Frame.date_cell) (r : Frame.raw_row) : Frame.raw_row :=
  {| Frame.ID := Frame.ID r;
     Frame.Year_Birth := Frame.Year_Birth r;
     Frame.Income := Frame.Income r;
     Frame.Kidhome := Frame.Kidhome r;
     Frame.Teenhome := Frame.Teenhome r;
     Frame.Dt_Customer := c;
     Frame.Recency := Frame.Recency r;
     Frame.MntWines := Frame.MntWines r;
     Frame.MntFruits := Frame.MntFruits r;
     Frame.MntMeatProducts := Frame.MntMeatProducts r;
     Frame.MntFishProducts := Frame.MntFishProducts r;
     Frame.MntSweetProducts := Frame.MntSweetProducts r;
     Frame.MntGoldProds := Frame.MntGoldProds r;
     Frame.NumDealsPurchases := Frame.NumDealsPurchases r;
     Frame.NumWebPurchases := Frame.NumWebPurchases r;
     Frame.NumCatalogPurchases := Frame.NumCatalogPurchases r;
     Frame.NumStorePurchases := Frame.NumStorePurchases r;
     Frame.AcceptedCmp1 := Frame.AcceptedCmp1 r;
     Frame.AcceptedCmp5 := Frame.AcceptedCmp5 r;
     Frame.Response := Frame.Response r;
     Frame.Gender := Frame.Gender r;
     Frame.Marital_Status := Frame.Marital_Status r;
     Frame.Education := Frame.Education r;
     Frame.extra := Frame.extra r |}.


(** The columns of the sample file (it has no "Gender" column). *)
Definition sample_columns : list string :=
  [ "ID"; "Year_Birth"; "Education"; "Marital_Status"; "Income"; "Kidhome";
    "Teenhome"; "Dt_Customer"; "Recency"; "MntWines"; "MntFruits";
    "MntMeatProducts"; "MntFishProducts"; "MntSweetProducts"; "MntGoldProds";
    "NumDealsPurchases"; "NumWebPurchases"; "NumCatalogPurchases";
    "NumStorePurchases"; "AcceptedCmp1"; "AcceptedCmp5"; "Complain";
    "Response" ]%string.

(** Two years (730 days) after [day0]. *)
Definition sample_now : Z := day0 + 730 * Frame.ns_per_day.

(** A file whose second line has a text that is not a date in its
    enrollment-date cell, and one whose second line has that cell empty. *)
Definition bad_date_table : Frame.table :=
  {| Frame.columns := sample_columns;
     Frame.rows := [sample_row;
                    with_date (Frame.DateInvalid "soon") sample_row] |}.

Definition empty_date_table : Frame.table :=
  {| Frame.columns := sample_columns;
     Frame.rows := [sample_row; with_date Frame.DateMissing sample_row] |}.


(** The sample file without its "Income" column. *)
Definition no_income_table : Frame.table :=
  {| Frame.columns :=
       List.filter (fun c => negb (String.eqb c "Income")) sample_columns;
     Frame.rows := [sample_row] |}.

(** The sidebar form filled in from [sample_row] on its enrollment day. *)
Definition sample_form : Customer.form :=
  {| Customer.Age := 58;
     Customer.Income := 58138;
     Customer.Kidhome := 0;
     Customer.Teenhome := 0;
     Customer.Recency := 58;
     Customer.MntGoldProds := 100;
     Customer.NumDealsPurchases := 1;
     Customer.AcceptedCmp1 := 0;
     Customer.AcceptedCmp5 := 0;
     Customer.Response := 1;
     Customer.NumCatalogPurchases := 1;
     Customer.Customer_Tenure := 0 |}.

(** The same form after 730 days. *)
Definition sample_form_730 : Customer.form :=
  {| Customer.Age := 58;
     Customer.Income := 58138;
     Customer.Kidhome := 0;
     Customer.Teenhome := 0;
     Customer.Recency := 58;
     Customer.MntGoldProds := 100;
     Customer.NumDealsPurchases := 1;
     Customer.AcceptedCmp1 := 0;
     Customer.AcceptedCmp5 := 0;
     Customer.Response := 1;
     Customer.NumCatalogPurchases := 1;
     Customer.Customer_Tenure := 730 |}.

(** A stand-in for the fit of the library: it refuses an empty table and
    otherwise returns the hyper-parameters and the data it was given. *)
Definition fitted : Type :=
  Customer.XGBRegressor * list (list (option Q)) * list (option Q).

Definition sample_fit (model : Customer.XGBRegressor) (X : list (list (option Q)))
  (y : list (option Q)) : result fitted :=
  match X with
  | [] => Raise "empty training data"
  | _ :: _ => Ok (model, X, y)
  end.

Definition no_artifacts : Customer.disk fitted :=
  {| Customer.xgb_model_pkl := None; Customer.features_pkl := None |}.

(** Artifacts of an earlier run of the page. *)
Definition old_artifacts : Customer.disk fitted :=
  {| Customer.xgb_model_pkl :=
       Some ({| Customer.n_estimators := 100; Customer.max_depth := 5;
                Customer.learning_rate := 0.1; Customer.random_state := 42 |},
             [[Some 1%Q]], [Some 2%Q]);
     Customer.features_pkl := Some ["Age"; "Education"]%string |}.

Definition line (inv item : string) : MarketBasket.transaction :=
  {| MarketBasket.invoice := Some inv; MarketBasket.product := Some item |}.

(** Fifty lines of bread and fifty-one of milk. *)
Definition bread_and_milk : list MarketBasket.transaction :=
  repeat (line "INV" "BREAD") 50 ++ repeat (line "INV" "MILK") 51.

(** 300 invoices over two items: [both] hold A and C, [only_a] hold A
    alone, [only_c] hold C alone. *)
Definition two_item_basket (both only_a only_c : nat) : MarketBasket.basket :=
  {| MarketBasket.items := ["A"; "C"]%string;
     MarketBasket.matrix :=
       repeat [true; true] both ++ repeat [true; false] only_a
       ++ repeat [false; true] only_c
       ++ repeat [false; false] (300 - both - only_a - only_c) |}.

(** Support 6/300 = 0.02, confidence 6/12 = 0.5, lift 0.5/(125/300) = 1.2. *)
Definition basket_kept : MarketBasket.basket := two_item_basket 6 6 119.


(** A stand-in for the polarity of the library on four texts. *)
Definition sample_polarity (t : string) : Q :=
  if String.eqb t "fine" then 0.1
  else if String.eqb t "poor" then -0.1
  else if String.eqb t "great" then 0.8
  else if String.eqb t "awful" then -1
  else 0.


(** ** main.py: runs of the authentication screen *)

Module Session.

(** A series of button presses on the authentication screen, one per run
    of the script. *)
Definition run_auth (actions : list Auth.auth_action) (w : Auth.world) : Auth.world :=
  fold_left (fun w a => fst (Auth.auth_ui a w)) actions w.

(** The session of the administrator, as lines 116 and 131 test it. *)
Definition is_admin (w : Auth.world) : bool :=
  Auth.authenticated (Auth.sess w) && String.eqb (Auth.username (Auth.sess w)) "admin".

End Session.

(** Three accounts, the administrator logged in. *)
Definition admin_world : Auth.world :=
  {| Auth.user_file :=
       Some (<["admin"%string := "root"%string]>
               (<["bob"%string := "builder"%string]>
                  (<["carol"%string := "singer"%string]> ∅)));
     Auth.sess := {| Auth.authenticated := true; Auth.username := "admin";
                     Auth.selected_app := None; Auth.auth_mode := "Login" |} |}.

(** ** customer.py: the "Predict CLV" button *)

Module Predict.

(** [input_df[features]] on the one-row table: a name that is not a column
    is a [KeyError]. *)
Definition select_row (names : list string) (input_df : list (string * Q))
  : result (list Q) :=
  rmapM (fun c => match Customer.assoc c input_df with
                  | Some v => Ok v
                  | None => Raise ("KeyError: " ++ c)
                  end) names.

(** Line 158, [profit * (freq / tenure)] on numpy scalars: a division by
    zero does not raise, it gives an infinity or a NaN, here [None]. *)
Definition annualized_clv (input_df : list (string * Q)) : option (option Q) :=
  profit ← Customer.assoc "Profit_Margin" input_df;
  freq ← Customer.assoc "Purchase_Frequency" input_df;
  tenure ← Customer.assoc "Tenure_Years" input_df;
  Some (if Qeq_bool tenure 0 then None else Some (profit * (freq / tenure))%Q).

End Predict.

(** The sidebar form with all values 0 but the ones given. *)
Definition form_of (gold deals catalog tenure : Z) : Customer.form :=
  {| Customer.Age := 0; Customer.Income := 0; Customer.Kidhome := 0;
     Customer.Teenhome := 0; Customer.Recency := 0;
     Customer.MntGoldProds := gold; Customer.NumDealsPurchases := deals;
     Customer.AcceptedCmp1 := 0; Customer.AcceptedCmp5 := 0;
     Customer.Response := 0; Customer.NumCatalogPurchases := catalog;
     Customer.Customer_Tenure := tenure |}.

(** ** clv.py: the pie chart by age group *)

Module Charts.

(** [pd.cut(x, bins, labels=labels)] on one value: the label of the first
    interval (lo, hi] of consecutive bin edges that holds [x], null when no
    interval does. *)
Fixpoint cut (bins : list Z) (labels : list string) (x : Z) : option string :=
  match bins with
  | [] => None
  | lo :: rest =>
      match rest, labels with
      | hi :: _, l :: ls =>
          if (lo <? x) && (x <=? hi) then Some l else cut rest ls x
      | _, _ => None
      end
  end.

Definition bins : list Z := [0; 30; 40; 50; 60; 100].

Definition labels : list string := ["<30"; "30-40"; "40-50"; "50-60"; "60+"].

(** [df["AgeGroup"]] on one row of a table that has an age column; a null
    age gets a null group. *)
Definition AgeGroup (d : Frame.derived_row) : option string :=
  Frame.Age d ≫= cut bins labels.

Definition Qsum (l : list Q) : Q := fold_right Qplus 0%Q l.

(** [df.groupby("AgeGroup")["CLV"].sum()] at one label: the CLV of the rows
    of that group, nulls skipped. *)
Definition clv_by_age (df : list Frame.derived_row) (label : string) : Q :=
  Qsum (map (fun d => default 0%Q (Frame.CLV d))
            (List.filter (fun d => bool_decide (AgeGroup d = Some label)) df)).

End Charts.

(** ** marketbasket.py: finding the invoice and item columns *)

Module Columns.

(** [str.lower] on one code point below 256. *)
Definition lower (c : ascii) : ascii :=
  let n := N_of_ascii c in
  if ((65 <=? n) && (n <=? 90)
      || (192 <=? n) && (n <=? 222) && negb (n =? 215))%N
  then ascii_of_N (n + 32) else c.

Fixpoint map_chars (f : ascii → ascii) (s : string) : string :=
  match s with
  | EmptyString => EmptyString
  | String c t => String (f c) (map_chars f t)
  end.

(** [s.lower().replace("_", " ").replace("-", " ")] *)
Definition normalize (s : string) : string :=
  map_chars (fun c => if Ascii.eqb c "-" then " "%char else c)
    (map_chars (fun c => if Ascii.eqb c "_" then " "%char else c)
       (map_chars lower s)).

(** [p in s] on strings *)
Fixpoint infix (p s : string) : bool :=
  String.prefix p s
  || match s with
     | EmptyString => false
     | String _ t => infix p t
     end.

(** [norm_kw in norm_col] for some keyword *)
Definition matches (keywords : list string) (col : string) : bool :=
  existsb (fun kw => infix (normalize kw) (normalize col)) keywords.

Fixpoint find_column (cols keywords : list string) : option string :=
  match cols with
  | [] => None
  | col :: rest =>
      if matches keywords col then Some col else find_column rest keywords
  end.

Definition invoice_keywords : list string :=
  ["bill no"; "billno"; "invoice"; "invoice no"; "transaction id"].

Definition product_keywords : list string :=
  ["item name"; "item"; "product"; "product name"].

(** Lines 59-64: the two columns, or the error that stops the page. *)
Definition find_columns (cols : list string) : result (string * string) :=
  match find_column cols invoice_keywords, find_column cols product_keywords with
  | Some invoice_col, Some product_col => Ok (invoice_col, product_col)
  | _, _ => Raise "CSV must contain columns like 'Bill No' and 'Item Name'."
  end.

End Columns.

(** Fifty-one invoices, each with the items A and C. *)
Definition paired_lines : list MarketBasket.transaction :=
  flat_map (fun n => let inv := String (ascii_of_nat (48 + n)) EmptyString in
                     [line inv "A"; line inv "C"])
           (seq 0 51).

(** ** sentiment.py: ages *)

Module Ages.

Definition is_digit (c : ascii) : bool :=
  let n := N_of_ascii c in ((48 <=? n) && (n <=? 57))%N.

Definition digit_value (c : ascii) : Z := Z.of_N (N_of_ascii c) - 48.

(** The digits after a first digit; [acc] is the value read so far.  One
    underscore may stand between two digits. *)
Fixpoint digits (acc : Z) (s : string) : option Z :=
  match s with
  | EmptyString => Some acc
  | String c t =>
      if is_digit c then digits (10 * acc + digit_value c) t
      else if Ascii.eqb c "_" then
        match t with
        | String d t' =>
            if is_digit d then digits (10 * acc + digit_value d) t' else None
        | EmptyString => None
        end
      else None
  end.

Definition unsigned (s : string) : option Z :=
  match s with
  | String c t => if is_digit c then digits (digit_value c) t else None
  | EmptyString => None
  end.

(** [int(s)] on a string of code points below 256: blanks around the
    number are dropped, a sign may come first; [None] is a [ValueError].
    The interpreter also refuses a text of more than 4300 digits; that
    limit is left out, so the model stands for texts within it. *)
Definition int (s : string) : option Z :=
  match Auth.strip s with
  | String c t =>
      if Ascii.eqb c "+" then unsigned t
      else if Ascii.eqb c "-" then Z.opp <$> unsigned t
      else unsigned (String c t)
  | EmptyString => None
  end.

(** [s.split('-', 1)] when ['-' in s]: the text before the first dash and
    the text after it. *)
Fixpoint split_dash (s : string) : option (string * string) :=
  match s with
  | EmptyString => None
  | String c t =>
      if Ascii.eqb c "-" then Some (EmptyString, t)
      else match split_dash t with
           | Some (a, b) => Some (String c a, b)
           | None => None
           end
  end.

(** Lines 73-85; the argument is [str(age_range)], and [None] is what the
    bare [except] returns. *)
Definition age_to_midpoint (age_range : string) : option Z :=
  let s := Auth.strip age_range in
  match split_dash s with
  | Some (p0, p1) =>
      start ← int (Auth.strip p0);
      end_ ← int (Auth.strip p1);
      Some ((start + end_) / 2)
  | None => int s
  end.

End Ages.

(** A non-empty run of decimal digits. *)
Fixpoint all_digits (s : string) : bool :=
  match s with
  | EmptyString => true
  | String c t => Ages.is_digit c && all_digits t
  end.

Definition number_text (s : string) : Prop :=
  all_digits s = true ∧ s ≠ EmptyString.

(** The longest run of digits [int] converts. *)
Definition int_max_str_digits : nat := 4300.

Fixpoint has_char (c : ascii) (s : string) : bool :=
  match s with
  | EmptyString => false
  | String d t => Ascii.eqb d c || has_char c t
  end.

(** ** clv.py: the address of a published sheet *)

Module Upload.

(** [s.replace(old, new)] for a non-empty [old]: the occurrences are taken
    from left to right and do not overlap.  [skip] counts the characters of
    the occurrence just replaced that are still to be passed over. *)
Fixpoint replace_from (skip : nat) (old new s : string) : string :=
  match s with
  | EmptyString => EmptyString
  | String c t =>
      match skip with
      | S k => replace_from k old new t
      | O =>
          if String.prefix old s
          then String.append new (replace_from (String.length old - 1) old new t)
          else String c (replace_from 0 old new t)
      end
  end.

Definition replace (old new s : string) : string := replace_from 0 old new s.

(** Lines 37-40. *)
Definition csv_export_url (sheet_url : string) : string :=
  if Columns.infix "/edit" sheet_url then
    replace "/edit" "/export?format=csv" sheet_url
  else if Columns.infix "?usp=sharing" sheet_url then
    replace "?usp=sharing" "/export?format=csv" sheet_url
  else sheet_url.

End Upload.

(** * Properties *)

(** ** main.py *)

Lemma mem_true (users : gmap string string) (u : string) :
  Auth.mem users u = true ↔ is_Some (users !! u).
Proof.
  unfold Auth.mem. destruct (users !! u) as [q|] eqn:E.
  - split; [eauto | done].
  - split; [done | intros [q Hq]; discriminate].
Qed.

Lemma mem_false (users : gmap string string) (u : string) :
  Auth.mem users u = false ↔ users !! u = None.
Proof.
  unfold Auth.mem. destruct (users !! u); split; congruence.
Qed.

Lemma deletable_users_spec (users : gmap string string) (u : string) :
  In u (Auth.deletable_users users) ↔ is_Some (users !! u) ∧ u ≠ "admin"%string.
Proof.
  unfold Auth.deletable_users. rewrite filter_In, in_map_iff, negb_true_iff.
  rewrite String.eqb_neq. split.
  - intros [[[k v] [Hk Hin]] Hne]. simpl in Hk. subst k. split; [|done].
    apply list_elem_of_In, elem_of_map_to_list in Hin. eauto.
  - intros [[v Hv] Hne]. split; [|done].
    exists (u, v). split; [done|]. by apply list_elem_of_In, elem_of_map_to_list.
Qed.

Lemma selectbox_In (options : list string) (i : nat) :
  options ≠ [] → In (Auth.selectbox options i) options.
Proof.
  intros Hne. unfold Auth.selectbox.
  destruct (nth_in_or_default i options (hd ""%string options)) as [Hin | ->]; [done|].
  destruct options; [done | by left].
Qed.

Lemma admin_delete_cases (i : nat) (w : Auth.world) :
  let users := Auth.load_users (Auth.user_file w) in
  Auth.admin_delete i w = w
  ∨ ∃ u, is_Some (users !! u) ∧ u ≠ "admin"%string
         ∧ Auth.admin_delete i w = Auth.save_users (delete u users) w.
Proof.
  intros users. unfold Auth.admin_delete. fold users.
  destruct (_ && _); [|by left].
  destruct (Auth.deletable_users users) as [|x opts] eqn:E; [by left|].
  right. exists (Auth.selectbox (x :: opts) i).
  assert (In (Auth.selectbox (x :: opts) i) (Auth.deletable_users users)) as Hin
    by (rewrite E; by apply selectbox_In).
  apply deletable_users_spec in Hin as [Hs Hne]. done.
Qed.

Lemma admin_delete_admin (i : nat) (w : Auth.world) :
  Auth.load_users (Auth.user_file (Auth.admin_delete i w)) !! "admin"%string
  = Auth.load_users (Auth.user_file w) !! "admin"%string.
Proof.
  destruct (admin_delete_cases i w) as [-> | (u & _ & Hne & ->)]; [done|].
  simpl. by rewrite lookup_delete_ne.
Qed.

Lemma sign_up_fresh (w : Auth.world) (u p : string) :
  Auth.blank u = false → Auth.blank p = false →
  Auth.load_users (Auth.user_file w) !! u = None →
  Auth.sign_up u p w
  = (Auth.save_users (<[u := p]> (Auth.load_users (Auth.user_file w))) w,
     Auth.Success "Account created! Please login.").
Proof.
  intros Hu Hp Hn. unfold Auth.sign_up. rewrite Hu, Hp. simpl.
  apply mem_false in Hn. by rewrite Hn.
Qed.

Lemma sign_up_taken (w : Auth.world) (u p : string) :
  Auth.blank u = false → Auth.blank p = false →
  is_Some (Auth.load_users (Auth.user_file w) !! u) →
  Auth.sign_up u p w = (w, Auth.Error "Username already exists.").
Proof.
  intros Hu Hp Hs. unfold Auth.sign_up. rewrite Hu, Hp. simpl.
  apply mem_true in Hs. by rewrite Hs.
Qed.

(** C6.  Sign-up fails exactly when the username is already in the store or
    one of its two fields is blank; reset fails exactly when the username
    is not in the store or one of the two fields it reads (username, new
    password) is blank; a failed sign-up, reset or login returns the world
    (credential file and session) it was given; and a first sign-up for
    "alice" with a non-blank password succeeds and adds the mapping, after
    which a second one is turned down as a duplicate and leaves the world
    as it was. *)
Theorem auth_failures_leave_state (w : Auth.world) (u p new_p : string) :
  let users := Auth.load_users (Auth.user_file w) in
  (Auth.failed (snd (Auth.sign_up u p w)) = true
   ↔ is_Some (users !! u) ∨ Auth.blank u = true ∨ Auth.blank p = true)
  ∧ (Auth.failed (snd (Auth.reset_password u p new_p w)) = true
     ↔ users !! u = None ∨ Auth.blank u = true ∨ Auth.blank new_p = true)
  ∧ (Auth.failed (snd (Auth.sign_up u p w)) = true → fst (Auth.sign_up u p w) = w)
  ∧ (Auth.failed (snd (Auth.reset_password u p new_p w)) = true
     → fst (Auth.reset_password u p new_p w) = w)
  ∧ (Auth.failed (snd (Auth.login u p w)) = true → fst (Auth.login u p w) = w)
  ∧ (∀ q : string,
       users !! "alice"%string = None → Auth.blank p = false → Auth.blank q = false →
       let w1 := fst (Auth.sign_up "alice" p w) in
       Auth.failed (snd (Auth.sign_up "alice" p w)) = false
       ∧ Auth.load_users (Auth.user_file w1) = <["alice"%string := p]> users
       ∧ Auth.sess w1 = Auth.sess w
       ∧ Auth.sign_up "alice" q w1 = (w1, Auth.Error "Username already exists.")).
Proof.
  intros users.
  pose proof (mem_true users u) as Ht. pose proof (mem_false users u) as Hf.
  split; [|split; [|split; [|split; [|split]]]].
  - unfold Auth.sign_up. fold users. split.
    + destruct (Auth.blank u), (Auth.blank p); simpl; auto.
      destruct (Auth.mem users u); simpl; [intros _; left; by apply Ht | done].
    + intros [Hs | [Hb | Hb]].
      * apply Ht in Hs. rewrite Hs. by destruct (_ || _).
      * by rewrite Hb.
      * rewrite Hb. by rewrite orb_true_r.
  - unfold Auth.reset_password. fold users. split.
    + destruct (Auth.blank u), (Auth.blank new_p); simpl; auto.
      destruct (Auth.mem users u) eqn:E; simpl; [done | intros _; left; by apply Hf].
    + intros [Hn | [Hb | Hb]].
      * apply Hf in Hn. rewrite Hn. by destruct (_ || _).
      * by rewrite Hb.
      * rewrite Hb. by rewrite orb_true_r.
  - unfold Auth.sign_up. fold users.
    destruct (_ || _); [done|]. by destruct (Auth.mem users u).
  - unfold Auth.reset_password. fold users.
    destruct (_ || _); [done|]. by destruct (Auth.mem users u).
  - unfold Auth.login. fold users.
    destruct (_ || _); [done|]. by destruct (Auth.check_password users u p).
  - intros q Hfree Hp Hq w1. subst w1.
    rewrite (sign_up_fresh w "alice" p) by done. simpl.
    do 3 (split; [done|]).
    apply sign_up_taken; [done..|]. simpl. rewrite lookup_insert_eq. eauto.
Qed.

Lemma auth_failures_leave_state_witness :
  let w1 := fst (Auth.sign_up "alice" "wonderland" fresh_world) in
  Auth.load_users (Auth.user_file w1) = {[ "alice"%string := "wonderland"%string ]}
  ∧ Auth.sign_up "alice" "looking glass" w1
    = (w1, Auth.Error "Username already exists.").
Proof.
  pose proof (auth_failures_leave_state fresh_world "alice" "wonderland" "") as H.
  simpl in H. destruct H as (_ & _ & _ & _ & _ & H).
  destruct (H "looking glass"%string) as (_ & Hstore & _ & Hdup);
    [reflexivity | reflexivity | reflexivity |].
  split; [exact Hstore | exact Hdup].
Defined.

(** C10.  One press of "Delete User" either changes nothing or deletes a
    stored user other than "admin"; hence the entry of "admin" (present or
    not, and its password) is the same after any sequence of presses. *)
Theorem admin_never_deleted (choices : list nat) (w : Auth.world) :
  (∀ i : nat,
     let users := Auth.load_users (Auth.user_file w) in
     Auth.admin_delete i w = w
     ∨ ∃ u, is_Some (users !! u) ∧ u ≠ "admin"%string
            ∧ Auth.admin_delete i w = Auth.save_users (delete u users) w)
  ∧ Auth.load_users (Auth.user_file (Auth.admin_deletes choices w)) !! "admin"%string
    = Auth.load_users (Auth.user_file w) !! "admin"%string.
Proof.
  split; [intros i; apply admin_delete_cases|].
  unfold Auth.admin_deletes. revert w.
  induction choices as [|i choices IH]; intros w; simpl; [done|].
  rewrite IH. apply admin_delete_admin.
Qed.

(** ** customer.py and clv.py: feature derivation *)

Lemma sum_skipna_acc (cells : list (option Z)) (a : Z) :
  fold_left (fun acc c => acc + default 0 c) cells a = a + sum_skipna cells.
Proof.
  unfold sum_skipna. revert a.
  induction cells as [|c cells IH]; intros a; simpl; [lia|].
  rewrite IH, (IH (0 + default 0 c)). lia.
Qed.


Lemma wrap64_in_int64 (z : Z) : in_int64 z → wrap64 z = z.
Proof.
  unfold in_int64, wrap64.
  change (2 ^ 64) with 18446744073709551616.
  change (2 ^ 63) with 9223372036854775808.
  intros H. rewrite Z.mod_small; lia.
Qed.

Lemma as_dtype_in_int64 (int64 : bool) (z : Z) :
  in_int64 z → Frame.as_dtype int64 z = z.
Proof. destruct int64; simpl; [apply wrap64_in_int64 | done]. Qed.



(** *** Rounding to two decimals *)

Lemma rint_close (q : Q) :
  (inject_Z (rint q) - q <= 1 # 2)%Q ∧ (q - inject_Z (rint q) <= 1 # 2)%Q.
Proof.
  destruct q as [n d]. unfold rint, Qfloor. cbn [Qnum Qden].
  pose proof (Z.div_mod n (Zpos d) ltac:(done)) as Hdm.
  pose proof (Z.mod_pos_bound n (Zpos d) ltac:(done)) as Hb.
  set (f := n / Zpos d) in *.
  assert (n - f * Zpos d = n mod Zpos d) as Hr by lia.
  rewrite Hr.
  destruct (Z.compare_spec (2 * (n mod Zpos d)) (Zpos d)) as [He|Hl|Hg];
    [destruct (Z.even f)|..];
    unfold Qle, Qminus, Qplus, Qopp, inject_Z; cbn [Qnum Qden]; split; nia.
Qed.

Lemma rint_sign (q : Q) :
  ((0 <= q)%Q → 0 ≤ rint q) ∧ ((q <= 0)%Q → rint q ≤ 0).
Proof.
  destruct q as [n d]. unfold rint, Qfloor, Qle. cbn [Qnum Qden].
  pose proof (Z.div_mod n (Zpos d) ltac:(done)) as Hdm.
  pose proof (Z.mod_pos_bound n (Zpos d) ltac:(done)) as Hb.
  set (f := n / Zpos d) in *.
  assert (n - f * Zpos d = n mod Zpos d) as Hr by lia.
  rewrite Hr.
  destruct (Z.compare_spec (2 * (n mod Zpos d)) (Zpos d)) as [He|Hl|Hg];
    [destruct (Z.even f)|..]; split; intros H; nia.
Qed.


Lemma round2_rint (q : Q) : (round2 q == inject_Z (rint (q * 100)) / 100)%Q.
Proof. unfold round2. apply Qred_correct. Qed.

Lemma round2_close (q : Q) :
  (round2 q - q <= 1 # 200)%Q ∧ (q - round2 q <= 1 # 200)%Q.
Proof.
  rewrite round2_rint. destruct (rint_close (q * 100)) as [H1 H2].
  set (k := rint (q * 100)) in *. clearbody k. destruct q as [n d].
  revert H1 H2.
  unfold Qle, Qminus, Qplus, Qopp, Qdiv, Qmult, Qinv, inject_Z; cbn [Qnum Qden].
  intros H1 H2. split; lia.
Qed.

Lemma round2_sign (q : Q) :
  ((0 <= q)%Q → (0 <= round2 q)%Q) ∧ ((q <= 0)%Q → (round2 q <= 0)%Q).
Proof.
  destruct (rint_sign (q * 100)) as [Hp Hn].
  split; intros H; rewrite round2_rint.
  - assert (0 ≤ rint (q * 100)) as Hr.
    { apply Hp. revert H. destruct q as [n d]. unfold Qle, Qmult. simpl. lia. }
    set (k := rint (q * 100)) in *. clearbody k.
    unfold Qle, Qdiv, Qmult, Qinv, inject_Z. simpl. lia.
  - assert (rint (q * 100) ≤ 0) as Hr.
    { apply Hn. revert H. destruct q as [n d]. unfold Qle, Qmult. simpl. lia. }
    set (k := rint (q * 100)) in *. clearbody k.
    unfold Qle, Qdiv, Qmult, Qinv, inject_Z. simpl. lia.
Qed.


(** Rounding to two decimals gives one value. *)
Lemma rounded_2dp_unique (q r r' : Q) :
  rounded_2dp q r → rounded_2dp q r' → (r == r')%Q.
Proof.
  intros (n & Hn & Hlo & Hhi & He) (n' & Hn' & Hlo' & Hhi' & He').
  assert (n = n') as ->; [|by rewrite Hn, Hn'].
  rewrite Hn in Hlo, Hhi, He. rewrite Hn' in Hlo', Hhi', He'.
  clear Hn Hn'. destruct q as [a d].
  revert Hlo Hhi He Hlo' Hhi' He'.
  unfold Qle, Qeq, Qminus, Qplus, Qopp, Qdiv, Qmult, Qinv, inject_Z;
    cbn [Qnum Qden].
  rewrite !Pos2Z.inj_mul.
  assert (0 < Z.pos d) as HD by lia.
  set (D := Z.pos d) in *. clearbody D.
  intros Hlo Hhi He Hlo' Hhi' He'.
  assert ((n' - n) * D ≤ 1 * D) as H1 by lia.
  assert ((n - n') * D ≤ 1 * D) as H2 by lia.
  apply Z.mul_le_mono_pos_r in H1, H2; try done.
  destruct (Z.lt_trichotomy n n') as [Hlt | [-> | Hgt]]; [|done|]; exfalso.
  - assert (n' = n + 1) as -> by lia.
    assert (Z.even n = true) as E1 by (apply He; left; lia).
    assert (Z.even (n + 1) = true) as E2 by (apply He'; right; lia).
    replace (n + 1) with (Z.succ n) in E2 by lia.
    rewrite Z.even_succ, <- Z.negb_even, E1 in E2. done.
  - assert (n = n' + 1) as -> by lia.
    assert (Z.even n' = true) as E1 by (apply He'; left; lia).
    assert (Z.even (n' + 1) = true) as E2 by (apply He; right; lia).
    replace (n' + 1) with (Z.succ n') in E2 by lia.
    rewrite Z.even_succ, <- Z.negb_even, E1 in E2. done.
Qed.






(** C7.  In both pages the tenure in years of a row is its tenure in days
    divided by 365 (null when the tenure in days is null), and the tenure
    in days is the number of whole days from the enrollment date to the
    reference date.  The prediction page raises only for a text that is not
    a date. *)
Theorem tenure_years_is_days_over_365 (year now : Z) (cols : list string)
  (ty : Frame.dtypes) (r : Frame.raw_row) :
  let over_365 (days : option Z) := (fun d => inject_Z d / 365)%Q <$> days in
  match Customer.feature_engineering year now ty r with
  | Ok d =>
      Frame.Tenure_Years d = over_365 (Frame.Customer_Tenure d)
      ∧ Frame.Customer_Tenure d
        = Frame.days_between now <$> Dashboard.to_datetime (Frame.Dt_Customer r)
  | Raise _ => ∃ text, Frame.Dt_Customer r = Frame.DateInvalid text
  end
  ∧ let d := Dashboard.clv_row year now cols ty r in
    Frame.Tenure_Years d = over_365 (Frame.Customer_Tenure d)
    ∧ Frame.Customer_Tenure d
      = Frame.days_between now <$> Dashboard.to_datetime (Frame.Dt_Customer r).
Proof.
  intros over_365. split; [|done].
  unfold Customer.feature_engineering.
  destruct (Frame.Dt_Customer r) as [|text|t]; simpl; eauto.
Qed.

Lemma rmapM_Ok {A B} (f : A → result B) (l : list A) (l' : list B) :
  rmapM f l = Ok l' → Forall2 (fun a b => f a = Ok b) l l'.
Proof.
  revert l'. induction l as [|a l IH]; intros l'; simpl.
  - intros [= <-]. constructor.
  - destruct (f a) as [b|m] eqn:Ea; simpl; [|done].
    destruct (rmapM f l) as [bs|m]; simpl; [|done].
    intros [= <-]. constructor; [done | by apply IH].
Qed.

Lemma rmapM_Raise {A B} (f : A → result B) (l : list A) (m : string) :
  rmapM f l = Raise m → ∃ a, In a l ∧ f a = Raise m.
Proof.
  induction l as [|a l IH]; simpl; [done|].
  destruct (f a) as [b|m'] eqn:Ea; simpl.
  - destruct (rmapM f l) as [bs|m']; simpl; [done|].
    intros [= ->]. destruct IH as (a' & Hin & Ha'); [done|]. eauto.
  - intros [= ->]. eauto.
Qed.

Lemma Forall2_In_r {A B} (P : A → B → Prop) (l : list A) (l' : list B) (b : B) :
  Forall2 P l l' → In b l' → ∃ a, In a l ∧ P a b.
Proof.
  induction 1 as [|a' b' l l' HP HF IH]; simpl; [done|].
  intros [<- | Hin]; [eauto|]. destruct (IH Hin) as (a & Ha & HPa). eauto.
Qed.

Lemma Forall2_In_l {A B} (P : A → B → Prop) (l : list A) (l' : list B) (a : A) :
  Forall2 P l l' → In a l → ∃ b, In b l' ∧ P a b.
Proof.
  induction 1 as [|a' b' l l' HP HF IH]; simpl; [done|].
  intros [<- | Hin]; [eauto|]. destruct (IH Hin) as (b & Hb & HPb). eauto.
Qed.

Lemma is_null_false {A} (c : option A) : Frame.is_null c = false ↔ is_Some c.
Proof.
  destruct c; simpl; split; try done; eauto.
Qed.

Lemma has_null_false (cols : list string) (d : Frame.derived_row) :
  Customer.has_null cols d = false →
  is_Some (Frame.CLV d) ∧ is_Some (Frame.Tenure_Years d)
  ∧ is_Some (Frame.Customer_Tenure d) ∧ is_Some (Frame.Age d)
  ∧ is_Some (Frame.Dt_Customer_ts d)
  ∧ (∀ c get, In (c, get) Frame.int_columns →
              Frame.has_column cols c = true → is_Some (get (Frame.raw d)))
  ∧ (∀ c get, In (c, get) Frame.text_columns →
              Frame.has_column cols c = true → is_Some (get (Frame.raw d)))
  ∧ Forall is_Some (Frame.extra (Frame.raw d)).
Proof.
  unfold Customer.has_null, Frame.raw_has_null.
  rewrite !orb_false_iff, !is_null_false.
  intros (((((((Hint & Htext) & Hextra) & Hdt) & Hage) & Hten) & Hty) & Hclv).
  do 5 (split; [done|]). repeat split.
  - intros c get Hin Hc. apply is_null_false.
    destruct (Frame.is_null (get (Frame.raw d))) eqn:E; [|done].
    assert (existsb (fun '(c, get) => Frame.has_column cols c
                                       && Frame.is_null (get (Frame.raw d)))
                    Frame.int_columns = true) as Hex; [|congruence].
    apply existsb_exists. exists (c, get). by rewrite Hc, E.
  - intros c get Hin Hc. apply is_null_false.
    destruct (Frame.is_null (get (Frame.raw d))) eqn:E; [|done].
    assert (existsb (fun '(c, get) => Frame.has_column cols c
                                       && Frame.is_null (get (Frame.raw d)))
                    Frame.text_columns = true) as Hex; [|congruence].
    apply existsb_exists. exists (c, get). by rewrite Hc, E.
  - apply List.Forall_forall. intros c Hin. apply is_null_false.
    destruct (Frame.is_null c) eqn:E; [|done].
    assert (existsb Frame.is_null (Frame.extra (Frame.raw d)) = true) as Hex;
      [|congruence].
    apply existsb_exists. eauto.
Qed.

Lemma indexed_columns_missing (cols : list string) :
  forallb (Frame.has_column cols) Customer.indexed_columns = false →
  ∃ c, In c Customer.indexed_columns ∧ Frame.has_column cols c = false.
Proof.
  intros H.
  induction Customer.indexed_columns as [|c l IH]; simpl in *; [done|].
  destruct (Frame.has_column cols c) eqn:E.
  - destruct (IH H) as (c' & Hin & Hc'). eauto.
  - eauto.
Qed.

(** C2 as the specification states it, at the dashboard page: the table of
    the page would hold no row with a null CLV.  The file [bad_date_table]
    refutes it: its second line, whose enrollment date is not a date, is in
    the table of the dashboard with a null tenure and a null CLV. *)
Lemma dashboard_keeps_rows_with_nulls :
  let sel := Dashboard.default_filters 2015 sample_now bad_date_table in
  let d := Dashboard.clv_row 2015 sample_now sample_columns
             (Dashboard.dtypes sample_columns (Frame.rows bad_date_table))
             (with_date (Frame.DateInvalid "soon") sample_row) in
  (∃ df, Dashboard.run_clv_dashboard 2015 sample_now sel bad_date_table = Ok df
         ∧ In d df)
  ∧ Frame.Tenure_Years d = None
  ∧ Frame.CLV d = None
  ∧ Customer.run_clv_df 2015 sample_now bad_date_table
    = Raise "Unknown datetime string format: soon".
Proof.
  intros sel d. split; [|by vm_compute].
  exists [Dashboard.clv_row 2015 sample_now sample_columns
            (Dashboard.dtypes sample_columns (Frame.rows bad_date_table))
            sample_row; d].
  split; [by vm_compute | right; by left].
Qed.

(** C2, amended.  Prediction page: when the feature engineering completes,
    the table it leaves holds exactly the derived rows without a null in
    any column of the table, so that no row of it has a null in a derived
    field (CLV, tenure in years and days, age, enrollment date) or in a
    column of the file; it raises when an indexed column is missing or some
    enrollment date is a text that is not a date.  Dashboard page: no row is
    dropped for a null; the table holds the derived row of every line of the
    file that passes the three category filters. *)
Theorem prediction_page_drops_null_rows (year now : Z) (t : Frame.table) :
  match Customer.run_clv_df year now t with
  | Ok df =>
      (∀ d, In d df ↔
            ∃ r, In r (Frame.rows t)
                 ∧ Customer.feature_engineering year now
                     (Frame.dtypes_of (Frame.rows t)) r = Ok d
                 ∧ Customer.has_null (Frame.columns t) d = false)
      ∧ (∀ d, In d df →
              is_Some (Frame.CLV d) ∧ is_Some (Frame.Tenure_Years d)
              ∧ is_Some (Frame.Customer_Tenure d) ∧ is_Some (Frame.Age d)
              ∧ is_Some (Frame.Dt_Customer_ts d)
              ∧ (∀ c get, In (c, get) Frame.int_columns →
                          Frame.has_column (Frame.columns t) c = true →
                          is_Some (get (Frame.raw d)))
              ∧ (∀ c get, In (c, get) Frame.text_columns →
                          Frame.has_column (Frame.columns t) c = true →
                          is_Some (get (Frame.raw d)))
              ∧ Forall is_Some (Frame.extra (Frame.raw d)))
  | Raise _ =>
      (∃ c, In c Customer.indexed_columns
            ∧ Frame.has_column (Frame.columns t) c = false)
      ∨ (∃ r text, In r (Frame.rows t)
                   ∧ Frame.Dt_Customer r = Frame.DateInvalid text)
  end
  ∧ (∀ sel : Dashboard.filters,
       Frame.has_column (Frame.columns t) "Dt_Customer" = true →
       ∃ df, Dashboard.run_clv_dashboard year now sel t = Ok df
             ∧ ∀ d, In d df ↔
                    ∃ r, In r (Frame.rows t)
                         ∧ d = Dashboard.clv_row year now (Frame.columns t)
                                 (Dashboard.dtypes (Frame.columns t) (Frame.rows t)) r
                         ∧ (Frame.has_column (Frame.columns t) "Gender" = true →
                            Dashboard.isin (Dashboard.gender_filter sel)
                              (Frame.Gender r) = true)
                         ∧ (Frame.has_column (Frame.columns t) "Marital_Status" = true →
                            Dashboard.isin (Dashboard.marital_filter sel)
                              (Frame.Marital_Status r) = true)
                         ∧ (Frame.has_column (Frame.columns t) "Education" = true →
                            Dashboard.isin (Dashboard.edu_filter sel)
                              (Frame.Education r) = true)).
Proof.
  split.
  - unfold Customer.run_clv_df.
    destruct (forallb _ _) eqn:Ecols.
    + destruct (rmapM _ _) as [ds|m] eqn:Emap; simpl.
      * apply rmapM_Ok in Emap. split.
        -- intros d. unfold Customer.dropna. rewrite filter_In, negb_true_iff.
           split.
           ++ intros [Hin Hnull].
              destruct (Forall2_In_r _ _ _ _ Emap Hin) as (r & Hr & Hf). eauto.
           ++ intros (r & Hr & Hf & Hnull). split; [|done].
              destruct (Forall2_In_l _ _ _ _ Emap Hr) as (d' & Hd' & Hf').
              congruence.
        -- intros d. unfold Customer.dropna. rewrite filter_In, negb_true_iff.
           intros [_ Hnull]. by apply has_null_false.
      * right. apply rmapM_Raise in Emap as (r & Hr & Hf). exists r.
        unfold Customer.feature_engineering in Hf.
        destruct (Frame.Dt_Customer r) as [|text|ts] eqn:Ed; simpl in Hf;
          try done. eauto.
    + left. by apply indexed_columns_missing.
  - intros sel Hdt. unfold Dashboard.run_clv_dashboard. rewrite Hdt.
    eexists. split; [done|]. intros d.
    unfold Dashboard.apply_filter.
    destruct (Frame.has_column _ "Gender"),
             (Frame.has_column _ "Marital_Status"),
             (Frame.has_column _ "Education");
      rewrite ?filter_In, in_map_iff; split.
    all: try (intros (((r & <- & Hr) & Hg) & Hm); exists r; by repeat split).
    all: try (intros ((((r & <- & Hr) & Hg) & Hm) & He); exists r; by repeat split).
    all: try (intros ((r & <- & Hr) & Hg); exists r; by repeat split).
    all: try (intros (r & <- & Hr); exists r; by repeat split).
    all: intros (r & Hr & -> & Hg & Hm & He); repeat split; eauto.
Qed.

Lemma prediction_page_drops_null_rows_witness :
  ∃ d, Customer.run_clv_df 2015 sample_now empty_date_table = Ok [d]
       ∧ Frame.raw d = sample_row ∧ is_Some (Frame.CLV d).
Proof.
  pose proof (prediction_page_drops_null_rows 2015 sample_now empty_date_table)
    as [H _].
  destruct (Customer.run_clv_df 2015 sample_now empty_date_table) as [df|m] eqn:E;
    vm_compute in E; [|discriminate].
  injection E as <-. eexists. split; [reflexivity|]. split; [reflexivity|].
  destruct H as [_ H]. apply H. by left.
Defined.

(** ** customer.py: model artifacts *)

Lemma select_cases (cols names : list string) (df : list Frame.derived_row) :
  match Customer.select cols names df with
  | Ok X =>
      X = map (fun d => map (Customer.cell d) names) df
      ∧ ∀ c, In c names →
             Frame.has_column (cols ++ Customer.derived_columns) c = true
  | Raise m =>
      ∃ c, In c names
           ∧ Frame.has_column (cols ++ Customer.derived_columns) c = false
           ∧ m = String.append "KeyError: " c
  end.
Proof.
  unfold Customer.select.
  destruct (List.find _ names) as [c|] eqn:E.
  - apply find_some in E as [Hin Hc]. apply negb_true_iff in Hc. eauto.
  - split; [done|]. intros c Hin.
    apply (find_none _ _ E) in Hin. by apply negb_false_iff in Hin.
Qed.

Lemma train_model_cases {Model : Type}
  (fit : Customer.XGBRegressor → list (list (option Q)) → list (option Q)
         → result Model)
  (cols : list string) (df : list Frame.derived_row) (fs : Customer.disk Model) :
  let X := map (fun d => map (Customer.cell d) Customer.features) df in
  let y := map Frame.CLV df in
  let model := {| Customer.n_estimators := 100; Customer.max_depth := 5;
                  Customer.learning_rate := 0.1; Customer.random_state := 42 |} in
  ((∃ c, In c Customer.features
         ∧ Frame.has_column (cols ++ Customer.derived_columns) c = false
         ∧ Customer.train_model fit cols df fs
           = (fs, Raise (String.append "KeyError: " c)))
   ∧ Customer.select cols Customer.features df
     ≠ Ok X)
  ∨ ((∀ c, In c Customer.features →
           Frame.has_column (cols ++ Customer.derived_columns) c = true)
     ∧ Customer.select cols Customer.features df = Ok X
     ∧ Customer.train_model fit cols df fs
       = match fit model X y with
         | Ok m =>
             ({| Customer.xgb_model_pkl := Some m;
                 Customer.features_pkl := Some Customer.features |},
              Ok (m, Customer.features))
         | Raise e => (fs, Raise e)
         end).
Proof.
  intros X y model. unfold Customer.train_model.
  pose proof (select_cases cols Customer.features df) as Hsel.
  destruct (Customer.select cols Customer.features df) as [X'|m].
  - destruct Hsel as [-> Hcols]. right. do 2 (split; [done|]).
    fold X. change (map (fun d => Customer.cell d "CLV") df) with y.
    fold model. by destruct (fit model X y).
  - destruct Hsel as (c & Hin & Hc & ->). left. split; [|done]. eauto.
Qed.

(** C5 as the specification states it: whenever retraining is requested
    or an artifact is absent, the regressor would be fitted and both
    artifacts overwritten.  The file [no_income_table] refutes it: it has
    every column that the feature engineering indexes, so the page reaches
    the model step, but it has no "Income" column.  With the "Retrain
    Model" button pressed, and likewise without artifacts, selecting the 16
    feature columns raises a [KeyError] whatever the regressor would do:
    nothing is fitted and the artifact files stay as they were. *)
Lemma training_needs_the_feature_columns :
  ∃ d, Customer.run_clv_df 2015 sample_now no_income_table = Ok [d]
       ∧ (∀ (Model : Type)
            (fit : Customer.XGBRegressor → list (list (option Q))
                   → list (option Q) → result Model)
            (fs : Customer.disk Model),
            Customer.load_or_train fit true (Frame.columns no_income_table) [d] fs
            = (fs, Raise "KeyError: Income"))
       ∧ Customer.load_or_train sample_fit false (Frame.columns no_income_table)
           [d] no_artifacts
         = (no_artifacts, Raise "KeyError: Income")
       ∧ Customer.load_or_train sample_fit true (Frame.columns no_income_table)
           [d] old_artifacts
         = (old_artifacts, Raise "KeyError: Income").
Proof.
  eexists. split; [vm_compute; reflexivity|]. split; [|split]; reflexivity.
Qed.

(** C5, amended.  The page returns the content of the two artifact files,
    leaving them as they are and showing no training message, exactly when
    retraining was not requested and both files exist.  Otherwise it
    trains: if the table lacks one of the 16 listed feature columns, the
    selection raises a [KeyError] and the files stay as they were;
    otherwise it fits a regressor with 100 trees, depth 5, learning rate
    0.1 and seed 42 on the 16 feature columns of the table against its CLV
    column, and when the fit succeeds both files hold the new model and the
    feature list, while a fit that raises leaves them as they were. *)
Theorem artifacts_loaded_or_trained {Model : Type}
  (fit : Customer.XGBRegressor → list (list (option Q)) → list (option Q)
         → result Model)
  (retrain : bool) (cols : list string) (df : list Frame.derived_row)
  (fs : Customer.disk Model) :
  let X :=
    map (fun d =>
           [ inject_Z <$> Frame.Age d;
             inject_Z <$> Frame.Income (Frame.raw d);
             inject_Z <$> Frame.Kidhome (Frame.raw d);
             inject_Z <$> Frame.Teenhome (Frame.raw d);
             inject_Z <$> Frame.Recency (Frame.raw d);
             inject_Z <$> Frame.MntGoldProds (Frame.raw d);
             inject_Z <$> Frame.NumDealsPurchases (Frame.raw d);
             inject_Z <$> Frame.AcceptedCmp1 (Frame.raw d);
             inject_Z <$> Frame.AcceptedCmp5 (Frame.raw d);
             inject_Z <$> Frame.Response (Frame.raw d);
             inject_Z <$> Frame.NumCatalogPurchases (Frame.raw d);
             inject_Z <$> Frame.Customer_Tenure d;
             Frame.Tenure_Years d;
             Some (inject_Z (Frame.Total_Spending d));
             Some (inject_Z (Frame.Purchase_Frequency d));
             Some (Frame.Profit_Margin d) ]) df in
  let y := map Frame.CLV df in
  let model := {| Customer.n_estimators := 100; Customer.max_depth := 5;
                  Customer.learning_rate := 0.1; Customer.random_state := 42 |} in
  let stored := retrain = false ∧ is_Some (Customer.xgb_model_pkl fs)
                ∧ is_Some (Customer.features_pkl fs) in
  let missing (c : string) :=
    In c Customer.features
    ∧ Frame.has_column (cols ++ Customer.derived_columns) c = false in
  let '(fs', outcome) := Customer.load_or_train fit retrain cols df fs in
  ((∃ m feats, outcome = Ok (m, feats, None)) ↔ stored)
  ∧ (stored →
     fs' = fs
     ∧ ∃ m feats, outcome = Ok (m, feats, None)
                  ∧ Customer.xgb_model_pkl fs = Some m
                  ∧ Customer.features_pkl fs = Some feats)
  ∧ (¬ stored → (∃ c, missing c) →
     fs' = fs ∧ ∃ c, missing c ∧ outcome = Raise (String.append "KeyError: " c))
  ∧ (¬ stored → (∀ c, ¬ missing c) →
     match fit model X y with
     | Ok m =>
         fs' = {| Customer.xgb_model_pkl := Some m;
                  Customer.features_pkl := Some Customer.features |}
         ∧ ∃ msg, outcome = Ok (m, Customer.features, Some msg)
     | Raise e => fs' = fs ∧ outcome = Raise e
     end)
  ∧ length Customer.features = 16%nat.
Proof.
  intros X y model stored missing.
  assert (∀ fs0 : Customer.disk Model,
            let '(fs', trained) := Customer.train_model fit cols df fs0 in
            ((∃ c, missing c) →
             fs' = fs0 ∧ ∃ c, missing c ∧ trained = Raise (String.append "KeyError: " c))
            ∧ ((∀ c, ¬ missing c) →
               match fit model X y with
               | Ok m =>
                   fs' = {| Customer.xgb_model_pkl := Some m;
                            Customer.features_pkl := Some Customer.features |}
                   ∧ trained = Ok (m, Customer.features)
               | Raise e => fs' = fs0 ∧ trained = Raise e
               end)) as Htrain.
  { intros fs0.
    destruct (train_model_cases fit cols df fs0)
      as [[(c & Hin & Hc & ->) _] | (Hcols & _ & ->)].
    - cbv beta iota. split.
      + intros _. split; [done|]. exists c. by repeat split.
      + intros Hno. destruct (Hno c). by split.
    - change (map (fun d => map (Customer.cell d) Customer.features) df) with X.
      fold y model. destruct (fit model X y) as [m|e]; cbv beta iota; split.
      all: try (intros (c & Hin & Hc); rewrite Hcols in Hc by done; done).
      all: done. }
  unfold Customer.load_or_train.
  destruct retrain.
  - specialize (Htrain fs).
    destruct (Customer.train_model fit cols df fs) as [fs' trained].
    destruct Htrain as [Hmiss Hfit].
    assert (¬ stored) as Hns by (by intros [? _]).
    split; [|split; [|split; [|split]]]; try done.
    + split; [|done]. intros (m & feats & Heq).
      destruct trained as [[m' f']|e]; simpl in Heq; done.
    + intros _ Hex. destruct (Hmiss Hex) as (-> & c & Hc & ->). eauto.
    + intros _ Hno. specialize (Hfit Hno).
      destruct (fit model X y) as [m|e]; destruct Hfit as [-> ->];
        simpl; eauto.
  - destruct (Customer.xgb_model_pkl fs) as [m0|] eqn:Em;
      [destruct (Customer.features_pkl fs) as [f0|] eqn:Ef|].
    + assert stored as Hs by (split; [done|]; split; by eexists).
      split; [|split; [|split; [|split]]]; try done.
      * split; [done|]. intros _. by eexists _, _.
      * intros _. split; [done|]. by eexists _, _.
    + specialize (Htrain fs).
      destruct (Customer.train_model fit cols df fs) as [fs' trained].
      destruct Htrain as [Hmiss Hfit].
      assert (¬ stored) as Hns by (intros (_ & _ & [? ?]); done).
      split; [|split; [|split; [|split]]]; try done.
      * split; [|done]. intros (m & feats & Heq).
        destruct trained as [[m' f']|e]; simpl in Heq; done.
      * intros _ Hex. destruct (Hmiss Hex) as (-> & c & Hc & ->). eauto.
      * intros _ Hno. specialize (Hfit Hno).
        destruct (fit model X y) as [m|e]; destruct Hfit as [-> ->];
          simpl; eauto.
    + specialize (Htrain fs).
      destruct (Customer.train_model fit cols df fs) as [fs' trained].
      destruct Htrain as [Hmiss Hfit].
      assert (¬ stored) as Hns by (intros (_ & [? ?] & _); done).
      split; [|split; [|split; [|split]]]; try done.
      * split; [|done]. intros (m & feats & Heq).
        destruct trained as [[m' f']|e]; simpl in Heq; done.
      * intros _ Hex. destruct (Hmiss Hex) as (-> & c & Hc & ->). eauto.
      * intros _ Hno. specialize (Hfit Hno).
        destruct (fit model X y) as [m|e]; destruct Hfit as [-> ->];
          simpl; eauto.
Qed.

Lemma artifacts_loaded_or_trained_witness :
  ∃ d model,
    Customer.run_clv_df 2015 sample_now empty_date_table = Ok [d]
    ∧ Customer.load_or_train sample_fit false sample_columns [d] no_artifacts
      = ({| Customer.xgb_model_pkl := Some model;
            Customer.features_pkl := Some Customer.features |},
         Ok (model, Customer.features, Some "Model trained and saved!"%string))
    ∧ fst (fst model)
      = {| Customer.n_estimators := 100; Customer.max_depth := 5;
           Customer.learning_rate := 0.1; Customer.random_state := 42 |}
    ∧ snd model = [Frame.CLV d].
Proof.
  destruct (Customer.run_clv_df 2015 sample_now empty_date_table) as [df|m] eqn:E;
    vm_compute in E; [|discriminate E].
  injection E as <-. eexists. 
  match goal with |- ∃ model, Ok [?d] = _ ∧ _ => set (d0 := d) end.
  pose proof (artifacts_loaded_or_trained sample_fit false sample_columns [d0]
                no_artifacts) as H.
  cbv zeta in H.
  destruct (Customer.load_or_train sample_fit false sample_columns [d0] no_artifacts)
    as [fs' outcome] eqn:El.
  destruct H as (_ & _ & _ & H & _).
  assert (¬ (false = false ∧ is_Some (Customer.xgb_model_pkl no_artifacts)
             ∧ is_Some (Customer.features_pkl no_artifacts))) as Hns.
  { intros (_ & [? ?] & _). done. }
  assert (∀ c, ¬ (In c Customer.features
                  ∧ Frame.has_column (sample_columns ++ Customer.derived_columns) c
                    = false)) as Hno.
  { intros c [Hin Hc]. revert Hc.
    repeat (destruct Hin as [<- | Hin]; [by vm_compute|]). done. }
  specialize (H Hns Hno).
  match type of H with
  | match ?f with _ => _ end => destruct f as [model|e] eqn:Ef
  end; [|vm_compute in Ef; discriminate Ef].
  destruct H as [-> (msg & ->)].
  vm_compute in Ef. injection Ef as <-.
  eexists. split; [reflexivity|]. split; [vm_compute; reflexivity|].
  split; reflexivity.
Defined.

(** ** customer.py: the single-customer form *)

(** C9 as the specification states it: the manual CLV of the form would
    differ from the formula on the full column set whenever the customer
    has spend in other categories or purchases in other channels.  Three
    kinds of customer refute it.  The record [sample_row] has both (900 of its 1000
    outside gold products, 3 of its 5 purchases outside deals and
    catalogue), but on the day of its enrollment (tenure 0) the formula and
    the manual CLV of the form filled in from it are both 0.  A customer
    with 73 spent on gold products, 1 on wines and one deal purchase has,
    at every tenure from 1 to 6 days, a manual CLV of 0.06 per day, which
    is also what the formula on the full columns rounds to.  A customer
    without any spend, with one deal purchase and one web purchase, and a
    customer without any purchase, with 10 spent on gold products and 5 on
    wines, have both at 0 after two years. *)
Lemma manual_clv_can_agree :
  (inputs_present sample_row [400; 100; 200; 100; 100; 100] [1; 2; 1; 1]
   ∧ Frame.MntGoldProds sample_row = Some (Customer.MntGoldProds sample_form)
   ∧ Frame.NumDealsPurchases sample_row = Some (Customer.NumDealsPurchases sample_form)
   ∧ Frame.NumCatalogPurchases sample_row = Some (Customer.NumCatalogPurchases sample_form)
   ∧ Frame.days_between day0 day0 = Customer.Customer_Tenure sample_form
   ∧ ∃ d clv q,
       Customer.feature_engineering 2015 day0 (Frame.dtypes_of [sample_row])
         sample_row = Ok d
       ∧ Frame.CLV d = Some clv
       ∧ rounded_2dp (0.3 * 1000 * 5 * (inject_Z 0 / 365)) clv
       ∧ Customer.manual_clv (Customer.user_input sample_form) = Some q
       ∧ (q == clv)%Q)
  ∧ Forall (fun days =>
              ∃ q, Customer.manual_clv (Customer.user_input (form_of 73 1 0 days))
                   = Some q
                   ∧ (q == (6 # 100) * inject_Z days)%Q
                   ∧ rounded_2dp (0.3 * inject_Z (total [1; 0; 0; 0; 0; 73])
                                  * inject_Z (total [1; 0; 0; 0])
                                  * (inject_Z days / 365)) q)
      [1; 2; 3; 4; 5; 6]
  ∧ (∃ q, Customer.manual_clv (Customer.user_input (form_of 0 1 0 730)) = Some q
          ∧ rounded_2dp (0.3 * inject_Z (total [0; 0; 0; 0; 0; 0])
                         * inject_Z (total [1; 1; 0; 0])
                         * (inject_Z 730 / 365)) q)
  ∧ ∃ q, Customer.manual_clv (Customer.user_input (form_of 10 0 0 730)) = Some q
         ∧ rounded_2dp (0.3 * inject_Z (total [5; 0; 0; 0; 0; 10])
                        * inject_Z (total [0; 0; 0; 0])
                        * (inject_Z 730 / 365)) q.
Proof.
  split; [|split; [|split]].
  - do 5 (split; [by vm_compute|]). eexists _, _, _.
    split; [reflexivity|]. split; [reflexivity|].
    split; [|split; [reflexivity | by vm_compute]].
    exists 0. by vm_compute.
  - repeat (apply Forall_cons; split); [..|apply List.Forall_nil].
    all: eexists; split; [reflexivity|]; split; [by vm_compute|].
    + exists 6. by vm_compute.
    + exists 12. by vm_compute.
    + exists 18. by vm_compute.
    + exists 24. by vm_compute.
    + exists 30. by vm_compute.
    + exists 36. by vm_compute.
  - eexists. split; [reflexivity|]. exists 0. by vm_compute.
  - eexists. split; [reflexivity|]. exists 0. by vm_compute.
Qed.

Lemma reduced_product_gap (g f' S F T : Z) :
  0 ≤ g → 0 ≤ f' → g ≤ S → f' ≤ F → 0 < S → 0 < F → 7 ≤ T →
  S ≠ g ∨ F ≠ f' →
  (inject_Z g * 0.3 * inject_Z f' * (inject_Z T / 365)
   < 0.3 * inject_Z S * inject_Z F * (inject_Z T / 365) - (1 # 200))%Q.
Proof.
  intros Hg Hf HgS HfF HS HF HT Hne.
  assert (g * f' + 1 ≤ S * F) as Hlt by (destruct Hne; nia).
  assert (7 * (g * f') + 7 ≤ T * (S * F - g * f') + 7 * (g * f')) as Hgap by nia.
  unfold Qlt, Qminus, Qplus, Qopp, Qmult, Qdiv, Qinv, inject_Z. simpl. nia.
Qed.

Lemma reduced_product_gap_shown (g f' S F T : Z) :
  0 ≤ g → 0 ≤ f' → g ≤ S → f' ≤ F → 0 < S → 0 < F → 13 ≤ T →
  S ≠ g ∨ F ≠ f' →
  (inject_Z g * 0.3 * inject_Z f' * (inject_Z T / 365) + (1 # 200)
   < 0.3 * inject_Z S * inject_Z F * (inject_Z T / 365) - (1 # 200))%Q.
Proof.
  intros Hg Hf HgS HfF HS HF HT Hne.
  assert (g * f' + 1 ≤ S * F) as Hlt by (destruct Hne; nia).
  assert (13 * (g * f') + 13 ≤ T * (S * F - g * f') + 13 * (g * f')) as Hgap by nia.
  unfold Qlt, Qminus, Qplus, Qopp, Qmult, Qdiv, Qinv, inject_Z. simpl. nia.
Qed.

(** C9, amended.  The one-row table of the form has Total_Spending equal to
    the gold-products amount, Purchase_Frequency equal to deal purchases
    plus catalogue purchases, Profit_Margin equal to 0.3 times that
    Total_Spending and Tenure_Years equal to the tenure in days over 365;
    the manual CLV is the product of these reduced values.  For a customer
    with non-negative amounts and counts, spend outside gold products or
    purchases outside deals and catalogue, a positive total spend and
    purchase frequency, and a tenure of at least 7 days, the manual CLV
    differs from round(0.3 x total spend x purchase frequency x tenure in
    years, 2) over the full column set; from 13 days of tenure on, so does
    the manual CLV rounded to the two decimals that the page prints. *)
Theorem form_uses_reduced_columns (f : Customer.form)
  (wines fruits meat fish sweet web store : Z) :
  let input_df := Customer.user_input f in
  let gold := Customer.MntGoldProds f in
  let reduced_frequency :=
    Customer.NumDealsPurchases f + Customer.NumCatalogPurchases f in
  let TY := (inject_Z (Customer.Customer_Tenure f) / 365)%Q in
  let S := total [wines; fruits; meat; fish; sweet; gold] in
  let F := total [Customer.NumDealsPurchases f; web;
                  Customer.NumCatalogPurchases f; store] in
  Customer.assoc "Total_Spending" input_df = Some (inject_Z gold)
  ∧ Customer.assoc "Purchase_Frequency" input_df = Some (inject_Z reduced_frequency)
  ∧ Customer.assoc "Profit_Margin" input_df = Some (inject_Z gold * 0.3)%Q
  ∧ Customer.assoc "Tenure_Years" input_df = Some TY
  ∧ Customer.manual_clv input_df
    = Some (inject_Z gold * 0.3 * inject_Z reduced_frequency * TY)%Q
  ∧ (Forall (Z.le 0) [wines; fruits; meat; fish; sweet; gold; web; store;
                      Customer.NumDealsPurchases f;
                      Customer.NumCatalogPurchases f] →
     7 ≤ Customer.Customer_Tenure f → 0 < S → 0 < F →
     S ≠ gold ∨ F ≠ reduced_frequency →
     ∃ q, Customer.manual_clv input_df = Some q
          ∧ ∀ clv, rounded_2dp (0.3 * inject_Z S * inject_Z F * TY) clv →
                   ¬ (q == clv)%Q
                   ∧ (13 ≤ Customer.Customer_Tenure f →
                      ∀ shown, rounded_2dp q shown → ¬ (shown == clv)%Q)).
Proof.
  intros input_df gold reduced_frequency TY S F.
  do 5 (split; [reflexivity|]).
  intros Hnn HT HS HF Hne. eexists. split; [reflexivity|].
  intros clv (n & _ & Hlo & _).
  repeat match goal with
         | H : Forall _ (_ :: _) |- _ => apply Forall_cons_1 in H as [? H]
         end.
  split.
  - apply Qlt_not_eq. eapply Qlt_le_trans; [|exact Hlo].
    subst S F TY. unfold total in *. simpl in *.
    apply reduced_product_gap; try lia.
  - intros HT' shown (n' & _ & _ & Hhi & _).
    apply Qlt_not_eq. eapply Qle_lt_trans; [exact Hhi|].
    eapply Qlt_le_trans; [|exact Hlo].
    subst S F TY. unfold total in *. simpl in *.
    apply reduced_product_gap_shown; try lia.
Qed.

Lemma form_uses_reduced_columns_witness :
  ∃ q, Customer.manual_clv (Customer.user_input sample_form_730) = Some q
       ∧ (q == 120)%Q
       ∧ rounded_2dp (0.3 * 1000 * 5 * (730 / 365)) 3000
       ∧ ¬ (q == 3000)%Q
       ∧ rounded_2dp q 120
       ∧ ¬ (120 == 3000)%Q.
Proof.
  destruct (form_uses_reduced_columns sample_form_730 400 100 200 100 100 2 1)
    as (_ & _ & _ & _ & Hm & Hne).
  assert (rounded_2dp (0.3 * 1000 * 5 * (730 / 365)) 3000) as Hr.
  { exists 300000. by vm_compute. }
  destruct Hne as (q & Hq & Hdiff).
  - repeat constructor; done.
  - done.
  - done.
  - done.
  - left. done.
  - assert (rounded_2dp q 120) as Hshown.
    { rewrite Hm in Hq. injection Hq as <-. exists 12000. by vm_compute. }
    destruct (Hdiff 3000%Q Hr) as [Hval Hprint].
    exists q. split; [exact Hq|]. split; [|split; [exact Hr|]].
    + rewrite Hm in Hq. injection Hq as <-. reflexivity.
    + split; [exact Hval|]. split; [exact Hshown|].
      apply Hprint; [done | exact Hshown].
Defined.

(** ** marketbasket.py: the item filter *)

Lemma value_counts_app (l1 l2 : list MarketBasket.transaction) (i : string) :
  MarketBasket.value_counts (l1 ++ l2) i
  = (MarketBasket.value_counts l1 i + MarketBasket.value_counts l2 i)%nat.
Proof.
  unfold MarketBasket.value_counts. by rewrite List.filter_app, length_app.
Qed.

Lemma value_counts_repeat (r : MarketBasket.transaction) (n : nat) (i : string) :
  MarketBasket.value_counts (repeat r n) i
  = if bool_decide (MarketBasket.product r = Some i) then n else 0%nat.
Proof.
  unfold MarketBasket.value_counts.
  induction n as [|n IH]; simpl; [by case_bool_decide|].
  case_bool_decide; simpl; by rewrite IH.
Qed.

(** C8.  A line is kept by the item filter exactly when its item name
    occurs more than 50 times in the file; a line whose item occurs exactly
    50 times is removed and a line whose item occurs 51 times is kept.  The
    basket matrix is built from the filtered lines. *)
Theorem rare_items_removed (df : list MarketBasket.transaction)
  (r : MarketBasket.transaction) :
  (In r (MarketBasket.filter_common df) ↔
   In r df ∧ ∃ i, MarketBasket.product r = Some i
                  ∧ (50 < MarketBasket.value_counts df i)%nat)
  ∧ (∀ i, MarketBasket.product r = Some i →
          MarketBasket.value_counts df i = 50%nat →
          ¬ In r (MarketBasket.filter_common df))
  ∧ (∀ i, In r df → MarketBasket.product r = Some i →
          MarketBasket.value_counts df i = 51%nat →
          In r (MarketBasket.filter_common df))
  ∧ MarketBasket.run_marketbasket df
    = MarketBasket.generate_rules
        (MarketBasket.build_basket (MarketBasket.filter_common df)).
Proof.
  assert (In r (MarketBasket.filter_common df) ↔
          In r df ∧ ∃ i, MarketBasket.product r = Some i
                         ∧ (50 < MarketBasket.value_counts df i)%nat) as Hiff.
  { unfold MarketBasket.filter_common, MarketBasket.common_items.
    rewrite filter_In. split.
    - intros [Hin Hc]. split; [done|].
      destruct (MarketBasket.product r) as [i|]; [|done].
      exists i. split; [done|]. by apply Nat.ltb_lt.
    - intros [Hin (i & -> & Hc)]. split; [done|]. by apply Nat.ltb_lt. }
  split; [exact Hiff|]. repeat split.
  - intros i Hi Hc Hin. apply Hiff in Hin as [_ (j & Hj & Hlt)].
    rewrite Hi in Hj. injection Hj as <-. lia.
  - intros i Hin Hi Hc. apply Hiff. split; [done|]. exists i. split; [done|lia].
Qed.

Lemma rare_items_removed_witness :
  ¬ In (line "INV" "BREAD") (MarketBasket.filter_common bread_and_milk)
  ∧ In (line "INV" "MILK") (MarketBasket.filter_common bread_and_milk).
Proof.
  assert (MarketBasket.value_counts bread_and_milk "BREAD" = 50%nat) as Hbread.
  { unfold bread_and_milk. rewrite value_counts_app, !value_counts_repeat.
    reflexivity. }
  assert (MarketBasket.value_counts bread_and_milk "MILK" = 51%nat) as Hmilk.
  { unfold bread_and_milk. rewrite value_counts_app, !value_counts_repeat.
    reflexivity. }
  assert (In (line "INV" "MILK") bread_and_milk) as Hin.
  { unfold bread_and_milk. apply in_or_app. right. by left. }
  split.
  - pose proof (rare_items_removed bread_and_milk (line "INV" "BREAD"))
      as (_ & H50 & _).
    exact (H50 "BREAD"%string eq_refl Hbread).
  - pose proof (rare_items_removed bread_and_milk (line "INV" "MILK"))
      as (_ & _ & H51 & _).
    exact (H51 "MILK"%string Hin eq_refl Hmilk).
Defined.

(** ** sentiment.py *)

Lemma Qlt_bool_true (x y : Q) : Sentiment.Qlt_bool x y = true ↔ (x < y)%Q.
Proof.
  unfold Sentiment.Qlt_bool. rewrite negb_true_iff. split.
  - intros H. apply Qnot_le_lt. intros Hle. apply Qle_bool_iff in Hle. congruence.
  - intros H. destruct (Qle_bool y x) eqn:E; [|done].
    apply Qle_bool_iff in E. by apply Qlt_not_le in H.
Qed.

Lemma Qlt_bool_false (x y : Q) : Sentiment.Qlt_bool x y = false ↔ (y <= x)%Q.
Proof.
  unfold Sentiment.Qlt_bool. rewrite negb_false_iff. apply Qle_bool_iff.
Qed.

(** C4.  The scorer is a function of the text alone: a missing text is
    Neutral; a text is Positive when its polarity is above 0.1, Negative
    when it is below -0.1 and Neutral otherwise, so that polarity 0.1 and
    polarity -0.1 are Neutral; equal texts get equal labels, and every text
    gets one of the three labels. *)
Theorem sentiment_thresholds (polarity : string → Q) :
  let score := Sentiment.get_sentiment polarity in
  score None = "Neutral"%string
  ∧ (∀ t : string,
       ((0.1 < polarity t)%Q → score (Some t) = "Positive"%string)
       ∧ ((polarity t < -0.1)%Q → score (Some t) = "Negative"%string)
       ∧ ((-0.1 <= polarity t)%Q → (polarity t <= 0.1)%Q →
          score (Some t) = "Neutral"%string)
       ∧ ((polarity t == 0.1)%Q → score (Some t) = "Neutral"%string)
       ∧ ((polarity t == -0.1)%Q → score (Some t) = "Neutral"%string))
  ∧ (∀ t1 t2 : option string, t1 = t2 → score t1 = score t2)
  ∧ (∀ t : option string,
       In (score t) ["Positive"; "Negative"; "Neutral"]%string).
Proof.
  intros score. subst score. split; [done|].
  assert (∀ t, (-0.1 <= polarity t)%Q → (polarity t <= 0.1)%Q →
               Sentiment.get_sentiment polarity (Some t) = "Neutral"%string)
    as Hmid.
  { intros t Hlo Hhi. simpl.
    apply Qlt_bool_false in Hhi. apply Qlt_bool_false in Hlo.
    by rewrite Hhi, Hlo. }
  split; [|split].
  - intros t. repeat split.
    + intros H. simpl. apply Qlt_bool_true in H. by rewrite H.
    + intros H. simpl.
      assert (polarity t <= 0.1)%Q as Hhi.
      { apply Qlt_le_weak. eapply Qlt_trans; [exact H|]. reflexivity. }
      apply Qlt_bool_false in Hhi. apply Qlt_bool_true in H. by rewrite Hhi, H.
    + apply Hmid.
    + intros H. apply Hmid; rewrite H; by apply Qle_bool_iff.
    + intros H. apply Hmid; rewrite H; by apply Qle_bool_iff.
  - by intros t1 t2 ->.
  - intros [t|]; simpl; [|auto].
    destruct (Sentiment.Qlt_bool _ _); [auto|].
    destruct (Sentiment.Qlt_bool _ _); auto.
Qed.

Lemma sentiment_thresholds_witness :
  Sentiment.get_sentiment sample_polarity (Some "fine"%string) = "Neutral"%string
  ∧ Sentiment.get_sentiment sample_polarity (Some "poor"%string) = "Neutral"%string
  ∧ Sentiment.get_sentiment sample_polarity (Some "great"%string) = "Positive"%string
  ∧ Sentiment.get_sentiment sample_polarity (Some "awful"%string) = "Negative"%string.
Proof.
  destruct (sentiment_thresholds sample_polarity) as (_ & H & _).
  split; [|split; [|split]].
  - destruct (H "fine"%string) as (_ & _ & _ & Hfine & _). by apply Hfine.
  - destruct (H "poor"%string) as (_ & _ & _ & _ & Hpoor). by apply Hpoor.
  - destruct (H "great"%string) as (Hgreat & _). by apply Hgreat.
  - destruct (H "awful"%string) as (_ & Hawful & _). by apply Hawful.
Defined.

(** ** marketbasket.py: the association miner *)

Section Miner.

Import MarketBasket.

Lemma In_sublists (s l : list string) : In s (sublists l) ↔ s `sublist_of` l.
Proof.
  revert s. induction l as [|x l IH]; intros s; simpl.
  - split.
    + intros [<- | []]. constructor.
    + intros H. apply sublist_nil_r in H. by left.
  - rewrite in_app_iff, in_map_iff. split.
    + intros [(s' & <- & Hs') | Hs].
      * apply sublist_skip. by apply IH.
      * apply sublist_cons. by apply IH.
    + intros H. apply sublist_cons_r in H as [H | (s' & -> & H)].
      * right. by apply IH.
      * left. exists s'. split; [done|]. by apply IH.
Qed.

Lemma In_itemsets (X cols : list string) :
  In X (itemsets cols) ↔ X `sublist_of` cols ∧ nonempty X = true.
Proof. unfold itemsets. by rewrite filter_In, In_sublists. Qed.

Lemma sublist_In (s l : list string) (x : string) :
  s `sublist_of` l → In x s → In x l.
Proof.
  intros Hs Hx. apply list_elem_of_In. apply list_elem_of_In in Hx.
  by eapply sublist_subseteq.
Qed.



Lemma splits_sublist (k A C : list string) :
  In (A, C) (splits k) → A `sublist_of` k ∧ C `sublist_of` k.
Proof.
  revert A C. induction k as [|x k IH]; intros A C; simpl.
  - intros [[= <- <-] | []]. split; constructor.
  - rewrite in_flat_map. intros ([A' C'] & Hin & Hac).
    destruct (IH _ _ Hin) as [HA HC]. simpl in Hac.
    destruct Hac as [[= <- <-] | [[= <- <-] | []]]; split;
      (by apply sublist_skip) || (by apply sublist_cons).
Qed.

Lemma splits_nil_l (k C : list string) : In ([], C) (splits k) → k = C.
Proof.
  revert C. induction k as [|x k IH]; intros C; simpl.
  - by intros [[= <-] | []].
  - rewrite in_flat_map. intros ([A' C'] & Hin & Hac). simpl in Hac.
    destruct Hac as [[=] | [[= -> <-] | []]]. f_equal. by apply IH.
Qed.

Lemma splits_nil_r (k A : list string) : In (A, []) (splits k) → k = A.
Proof.
  revert A. induction k as [|x k IH]; intros A; simpl.
  - by intros [[= <-] | []].
  - rewrite in_flat_map. intros ([A' C'] & Hin & Hac). simpl in Hac.
    destruct Hac as [[= <- ->] | [[=] | []]]. f_equal. by apply IH.
Qed.

Lemma splits_singletons (k : list string) (a c : string) :
  In ([a], [c]) (splits k) ↔ k = [a; c] ∨ k = [c; a].
Proof.
  split.
  - destruct k as [|x k]; simpl; [by intros [[=] | []]|].
    rewrite in_flat_map. intros ([A' C'] & Hin & Hac). simpl in Hac.
    destruct Hac as [[= -> -> ->] | [[= -> -> ->] | []]].
    + left. f_equal. by apply splits_nil_l.
    + right. f_equal. by apply splits_nil_r.
  - intros [-> | ->]; simpl; auto.
Qed.

Lemma contains_mono (cols X Y : list string) (row : list bool) :
  (∀ x, In x X → In x Y) →
  contains cols Y row = true → contains cols X row = true.
Proof.
  unfold contains. rewrite !forallb_forall. intros Hsub HY x Hx.
  apply HY. by apply Hsub.
Qed.

Lemma filter_length_mono {A} (p q : A → bool) (l : list A) :
  (∀ x, p x = true → q x = true) →
  (length (List.filter p l) ≤ length (List.filter q l))%nat.
Proof.
  intros Hpq. induction l as [|x l IH]; simpl; [done|].
  destruct (p x) eqn:Ep.
  - rewrite (Hpq x Ep). simpl. lia.
  - destruct (q x); simpl; lia.
Qed.

Lemma support_count_mono (b : basket) (X Y : list string) :
  (∀ x, In x X → In x Y) → (support_count b Y ≤ support_count b X)%nat.
Proof.
  intros Hsub. unfold support_count. apply filter_length_mono.
  intros row. by apply contains_mono.
Qed.

Lemma support_mono (b : basket) (X Y : list string) :
  (∀ x, In x X → In x Y) → (support b Y <= support b X)%Q.
Proof.
  intros Hsub. unfold support.
  pose proof (support_count_mono b X Y Hsub) as Hle.
  unfold Qle, Qdiv, Qmult, Qinv, inject_Z. simpl.
  destruct (Z.of_nat (length (matrix b))) as [|n|n] eqn:En; simpl; nia.
Qed.

Lemma support_swap (b : basket) (a c : string) :
  support b [c; a] = support b [a; c].
Proof.
  unfold support, support_count.
  rewrite (filter_ext (contains (items b) [c; a]) (contains (items b) [a; c]));
    [done|].
  intros row. unfold contains. simpl. rewrite !andb_true_r. apply andb_comm.
Qed.

Lemma lookup_itemset_map (f : list string → Q) (l : list (list string))
  (X : list string) :
  In X l → lookup_itemset X (map (fun Y => (Y, f Y)) l) = Some (f X).
Proof.
  induction l as [|Y l IH]; simpl; [done|].
  intros Hin. case_bool_decide as E; [by subst|].
  destruct Hin as [-> | Hin]; [done | by apply IH].
Qed.

Lemma In_apriori (b : basket) (ms : Q) (X : list string) (s : Q) :
  In (X, s) (apriori b ms) ↔
  s = support b X ∧ X `sublist_of` items b ∧ nonempty X = true
  ∧ (ms <= support b X)%Q.
Proof.
  unfold apriori. rewrite in_map_iff. split.
  - intros (Y & [= -> <-] & HY).
    apply filter_In in HY as [HY Hs]. apply In_itemsets in HY as [HY Hne].
    apply Qle_bool_iff in Hs. done.
  - intros (-> & HX & Hne & Hs). exists X. split; [done|].
    apply filter_In. split; [by apply In_itemsets|]. by apply Qle_bool_iff.
Qed.

Lemma lookup_apriori (b : basket) (ms : Q) (X : list string) :
  X `sublist_of` items b → nonempty X = true → (ms <= support b X)%Q →
  lookup_itemset X (apriori b ms) = Some (support b X).
Proof.
  intros HX Hne Hs. unfold apriori. apply lookup_itemset_map.
  apply filter_In. split; [by apply In_itemsets|]. by apply Qle_bool_iff.
Qed.

Lemma rmapM_total {A B} (f : A → result B) (g : A → B) (l : list A) :
  (∀ a, In a l → f a = Ok (g a)) → rmapM f l = Ok (map g l).
Proof.
  induction l as [|a l IH]; intros Hf; simpl; [done|].
  rewrite (Hf a) by (by left). simpl.
  rewrite IH by (intros a' Ha'; apply Hf; by right). done.
Qed.

Lemma rules_of_apriori (b : basket) (ms : Q) (k : list string) (s : Q) :
  In (k, s) (apriori b ms) →
  rules_of (apriori b ms) (k, s) = Ok (candidates b k).
Proof.
  intros Hk. apply In_apriori in Hk as (-> & Hk & _ & Hs).
  unfold rules_of, candidates. apply rmapM_total.
  intros [A C] Hac. simpl.
  apply filter_In in Hac as [Hac Hne]. simpl in Hne.
  apply andb_true_iff in Hne as [HA HC].
  apply splits_sublist in Hac as [HAk HCk].
  rewrite !lookup_apriori; try done.
  - by transitivity k.
  - eapply Qle_trans; [exact Hs|]. apply support_mono.
    intros x. by apply sublist_In.
  - by transitivity k.
  - eapply Qle_trans; [exact Hs|]. apply support_mono.
    intros x. by apply sublist_In.
Qed.

Lemma association_rules_apriori (b : basket) (ms t : Q) :
  association_rules (apriori b ms) t
  = match apriori b ms with
    | [] => Raise "The input DataFrame `df` containing the frequent itemsets is empty."
    | _ :: _ =>
        Ok (List.filter (fun r => Qle_bool t (confidence r))
              (concat (map (fun ks => candidates b (fst ks)) (apriori b ms))))
    end.
Proof.
  unfold association_rules.
  destruct (apriori b ms) as [|ks freq] eqn:E; [done|]. rewrite <- E.
  rewrite (rmapM_total _ (fun ks => candidates b (fst ks))); [done|].
  intros [k s] Hin. by apply rules_of_apriori.
Qed.

Lemma len1_singleton (X : list string) : len1 X = true → ∃ x, X = [x].
Proof.
  destruct X as [|x [|y X]]; simpl; try done. intros _. by exists x.
Qed.

Lemma In_candidates (b : basket) (k : list string) (r : rule) :
  In r (candidates b k) ↔
  ∃ A C, In (A, C) (splits k) ∧ nonempty A = true ∧ nonempty C = true
         ∧ r = make_rule A C (support b k) (support b A) (support b C).
Proof.
  unfold candidates, proper_splits. rewrite in_map_iff. split.
  - intros ([A C] & <- & Hin). apply filter_In in Hin as [Hin Hne].
    apply andb_true_iff in Hne as [HA HC]. exists A, C. done.
  - intros (A & C & Hin & HA & HC & ->). exists (A, C). split; [done|].
    apply filter_In. split; [done|]. simpl. by rewrite HA, HC.
Qed.

Lemma keep_true (r : rule) :
  keep r = true ↔
  len1 (antecedents r) = true ∧ len1 (consequents r) = true
  ∧ (0.02 <= rule_support r)%Q ∧ (0.4 <= confidence r)%Q
  ∧ (1.0 <= lift r)%Q.
Proof.
  unfold keep. rewrite !andb_true_iff, !Qle_bool_iff. tauto.
Qed.

End Miner.

(** ** marketbasket.py: the association miner in binary64 *)

Section Miner64.

Import PrimFloat.
#[local] Set Warnings "-inexact-float".



Lemma In_apriori64 (b : MarketBasket.basket) (ms : float) (X : list string)
  (s : float) :
  In (X, s) (Binary64.apriori b ms) ↔
  s = Binary64.support b X
  ∧ In X (MarketBasket.itemsets (MarketBasket.items b))
  ∧ PrimFloat.leb ms (Binary64.support b X) = true.
Proof.
  unfold Binary64.apriori. rewrite in_map_iff. split.
  - intros (Y & [= -> <-] & HY). apply filter_In in HY as [HY Hs]. done.
  - intros (-> & HX & Hs). exists X. split; [done|]. by apply filter_In.
Qed.

Lemma lookup_itemset64_In (X : list string) (freq : list (list string * float))
  (s : float) :
  Binary64.lookup_itemset X freq = Some s → In (X, s) freq.
Proof.
  induction freq as [|[Y s'] freq IH]; simpl; [done|].
  case_bool_decide as E.
  - intros [= ->]. subst. by left.
  - intros H. right. by apply IH.
Qed.


(** What the rule generation makes of one frequent item set. *)
Lemma rules_of64_Ok (b : MarketBasket.basket) (ms : float) (k : list string)
  (s : float) (rs : list Binary64.rule) :
  Binary64.rules_of (Binary64.apriori b ms) (k, s) = Ok rs →
  Forall2 (fun ac r =>
             r = Binary64.make_rule (fst ac) (snd ac) s
                   (Binary64.support b (fst ac)) (Binary64.support b (snd ac))
             ∧ PrimFloat.leb ms (Binary64.support b (fst ac)) = true
             ∧ PrimFloat.leb ms (Binary64.support b (snd ac)) = true)
          (MarketBasket.proper_splits k) rs.
Proof.
  unfold Binary64.rules_of. cbn [fst snd]. intros H. apply rmapM_Ok in H.
  eapply Forall2_impl; [exact H|]. intros [A C] r. cbn [fst snd].
  destruct (Binary64.lookup_itemset A _) as [sA|] eqn:EA; [|done].
  destruct (Binary64.lookup_itemset C _) as [sC|] eqn:EC; [|done].
  intros [= <-].
  apply lookup_itemset64_In, In_apriori64 in EA as (-> & _ & HA).
  apply lookup_itemset64_In, In_apriori64 in EC as (-> & _ & HC).
  done.
Qed.


Lemma keep64_true (r : Binary64.rule) :
  Binary64.keep r = true ↔
  MarketBasket.len1 (Binary64.antecedents r) = true
  ∧ MarketBasket.len1 (Binary64.consequents r) = true
  ∧ PrimFloat.leb 0.02 (Binary64.rule_support r) = true
  ∧ PrimFloat.leb 0.4 (Binary64.confidence r) = true
  ∧ PrimFloat.leb 1.0 (Binary64.lift r) = true.
Proof. unfold Binary64.keep. rewrite !andb_true_iff. tauto. Qed.




End Miner64.


(** * Further properties *)

(** ** main.py: the credential store through sign-up, reset, login and delete *)

Lemma check_password_true (users : gmap string string) (u p : string) :
  Auth.check_password users u p = true ↔ users !! u = Some p.
Proof.
  unfold Auth.check_password. destruct (users !! u) as [q|]; [|done].
  rewrite String.eqb_eq. split; congruence.
Qed.

Lemma login_accepts (w : Auth.world) (u p : string) :
  Auth.blank u = false → Auth.blank p = false →
  Auth.load_users (Auth.user_file w) !! u = Some p →
  Auth.login u p w
  = ({| Auth.user_file := Auth.user_file w;
        Auth.sess := {| Auth.authenticated := true; Auth.username := u;
                        Auth.selected_app := Auth.selected_app (Auth.sess w);
                        Auth.auth_mode := Auth.auth_mode (Auth.sess w) |} |},
     Auth.Rerun).
Proof.
  intros Hu Hp Hs. unfold Auth.login. rewrite Hu, Hp. simpl.
  apply check_password_true in Hs. by rewrite Hs.
Qed.

Lemma login_rejects (w : Auth.world) (u p : string) :
  Auth.load_users (Auth.user_file w) !! u ≠ Some p →
  fst (Auth.login u p w) = w ∧ Auth.failed (snd (Auth.login u p w)) = true.
Proof.
  intros Hs. unfold Auth.login. destruct (_ || _); [done|].
  destruct (Auth.check_password _ u p) eqn:E; [|done].
  by apply check_password_true in E.
Qed.

(** X1.  Sign-up and login compose: after a successful sign-up the new
    user is not logged in yet, a login with the chosen password
    authenticates the session under that name, and a login with any other
    password is turned down. *)
Theorem sign_up_then_login (w : Auth.world) (u p q : string) :
  Auth.blank u = false → Auth.blank p = false →
  Auth.load_users (Auth.user_file w) !! u = None →
  let w1 := fst (Auth.sign_up u p w) in
  Auth.sess w1 = Auth.sess w
  ∧ Auth.authenticated (Auth.sess (fst (Auth.login u p w1))) = true
  ∧ Auth.username (Auth.sess (fst (Auth.login u p w1))) = u
  ∧ Auth.user_file (fst (Auth.login u p w1)) = Auth.user_file w1
  ∧ (q ≠ p → fst (Auth.login u q w1) = w1
             ∧ Auth.failed (snd (Auth.login u q w1)) = true).
Proof.
  intros Hu Hp Hfree w1. subst w1. rewrite (sign_up_fresh w u p) by done.
  split; [done|].
  rewrite login_accepts; [|done|done|simpl; by rewrite lookup_insert_eq].
  do 3 (split; [done|]). intros Hne. apply login_rejects. simpl.
  rewrite lookup_insert_eq. congruence.
Qed.

Lemma sign_up_then_login_witness :
  let w1 := fst (Auth.sign_up "alice" "wonderland" fresh_world) in
  Auth.authenticated (Auth.sess (fst (Auth.login "alice" "wonderland" w1))) = true
  ∧ Auth.failed (snd (Auth.login "alice" "Wonderland" w1)) = true.
Proof.
  destruct (sign_up_then_login fresh_world "alice" "wonderland" "Wonderland")
    as (_ & Hin & _ & _ & Hout); [reflexivity..|].
  split; [exact Hin|]. by apply Hout.
Defined.

(** X2.  Reset and login compose: after a successful reset the new
    password logs the user in, every other password (the old one too, when
    it differs) is turned down, and the entries of the other users are
    what they were.  The reset does not ask for the old password. *)
Theorem reset_then_login (w : Auth.world) (u old new q : string) :
  Auth.blank u = false → Auth.blank new = false →
  is_Some (Auth.load_users (Auth.user_file w) !! u) →
  let w1 := fst (Auth.reset_password u old new w) in
  Auth.failed (snd (Auth.reset_password u old new w)) = false
  ∧ Auth.authenticated (Auth.sess (fst (Auth.login u new w1))) = true
  ∧ (q ≠ new → Auth.failed (snd (Auth.login u q w1)) = true)
  ∧ (∀ v, v ≠ u →
          Auth.load_users (Auth.user_file w1) !! v
          = Auth.load_users (Auth.user_file w) !! v).
Proof.
  intros Hu Hn Hs w1. subst w1. unfold Auth.reset_password.
  rewrite Hu, Hn. simpl. apply mem_true in Hs. rewrite Hs. simpl.
  split; [done|]. split; [|split].
  - rewrite login_accepts; [done..|]. simpl. by rewrite lookup_insert_eq.
  - intros Hne. apply login_rejects. simpl. rewrite lookup_insert_eq. congruence.
  - intros v Hv. by rewrite lookup_insert_ne.
Qed.

Lemma reset_then_login_witness :
  let w1 := fst (Auth.reset_password "bob" "" "mason" admin_world) in
  Auth.authenticated (Auth.sess (fst (Auth.login "bob" "mason" w1))) = true
  ∧ Auth.failed (snd (Auth.login "bob" "builder" w1)) = true.
Proof.
  destruct (reset_then_login admin_world "bob" "" "mason" "builder")
    as (_ & Hin & Hout & _);
    [reflexivity | reflexivity | eexists; vm_compute; reflexivity |].
  split; [exact Hin|]. by apply Hout.
Defined.

Lemma auth_ui_keeps_users (a : Auth.auth_action) (w : Auth.world) (v : string) :
  is_Some (Auth.load_users (Auth.user_file w) !! v) →
  is_Some (Auth.load_users (Auth.user_file (fst (Auth.auth_ui a w))) !! v).
Proof.
  intros Hv. unfold Auth.auth_ui.
  destruct (Auth.authenticated (Auth.sess w)); [done|].
  destruct a as [u p | u p | u p new_p]; simpl.
  - unfold Auth.login. destruct (_ || _); [done|].
    by destruct (Auth.check_password _ u p).
  - unfold Auth.sign_up. destruct (_ || _); [done|].
    destruct (Auth.mem _ u); [done|]. simpl.
    destruct (decide (u = v)) as [->|Hne].
    + rewrite lookup_insert_eq. eauto.
    + by rewrite lookup_insert_ne.
  - unfold Auth.reset_password. destruct (_ || _); [done|].
    destruct (Auth.mem _ u); [|done]. simpl.
    destruct (decide (u = v)) as [->|Hne].
    + rewrite lookup_insert_eq. eauto.
    + by rewrite lookup_insert_ne.
Qed.

Lemma auth_ui_authenticated (a : Auth.auth_action) (w : Auth.world) :
  Auth.authenticated (Auth.sess w) = true → fst (Auth.auth_ui a w) = w.
Proof. intros H. unfold Auth.auth_ui. by rewrite H. Qed.

(** X3.  Whatever is pressed on the authentication screen, in any order,
    no user is ever removed from the credential store; and once the session
    is authenticated the screen is not rendered, so the presses change
    neither the store nor the session. *)
Theorem auth_screen_never_removes (actions : list Auth.auth_action)
  (w : Auth.world) (v : string) :
  (is_Some (Auth.load_users (Auth.user_file w) !! v) →
   is_Some (Auth.load_users (Auth.user_file (Session.run_auth actions w)) !! v))
  ∧ (Auth.authenticated (Auth.sess w) = true → Session.run_auth actions w = w).
Proof.
  unfold Session.run_auth. split.
  - revert w. induction actions as [|a actions IH]; intros w Hv; simpl; [done|].
    apply IH. by apply auth_ui_keeps_users.
  - revert w. induction actions as [|a actions IH]; intros w Hw; simpl; [done|].
    rewrite auth_ui_authenticated by done. by apply IH.
Qed.

Lemma auth_screen_never_removes_witness :
  let w := Session.run_auth
             [Auth.SignUp "alice" "wonderland"; Auth.ResetPassword "alice" "" "mirror";
              Auth.SignUp "alice" "other"; Auth.Login "alice" "mirror";
              Auth.ResetPassword "alice" "" "late"]
             fresh_world in
  Auth.load_users (Auth.user_file w) !! "alice"%string = Some "mirror"%string
  ∧ Auth.username (Auth.sess w) = "alice"%string.
Proof.
  pose proof (auth_screen_never_removes
                [Auth.ResetPassword "alice" "" "late"]
                (Session.run_auth
                   [Auth.SignUp "alice" "wonderland";
                    Auth.ResetPassword "alice" "" "mirror";
                    Auth.SignUp "alice" "other"; Auth.Login "alice" "mirror"]
                   fresh_world) "alice") as [_ H].
  specialize (H eq_refl).
  change (Session.run_auth
            [Auth.SignUp "alice" "wonderland"; Auth.ResetPassword "alice" "" "mirror";
             Auth.SignUp "alice" "other"; Auth.Login "alice" "mirror";
             Auth.ResetPassword "alice" "" "late"] fresh_world)
    with (Session.run_auth [Auth.ResetPassword "alice" "" "late"]
            (Session.run_auth
               [Auth.SignUp "alice" "wonderland";
                Auth.ResetPassword "alice" "" "mirror";
                Auth.SignUp "alice" "other"; Auth.Login "alice" "mirror"]
               fresh_world)).
  intros w. subst w. rewrite H. by vm_compute.
Defined.

Lemma filter_Permutation {A} (f : A → bool) (l l' : list A) :
  l ≡ₚ l' → List.filter f l ≡ₚ List.filter f l'.
Proof.
  induction 1 as [|x l l' _ IH|x y l|l1 l2 l3 _ IH1 _ IH2]; simpl.
  - done.
  - destruct (f x); [by constructor | done].
  - destruct (f x), (f y); try done. apply perm_swap.
  - by etrans.
Qed.

Lemma deletable_users_delete (users : gmap string string) (u : string) :
  u ≠ "admin"%string → is_Some (users !! u) →
  S (length (Auth.deletable_users (delete u users)))
  = length (Auth.deletable_users users).
Proof.
  intros Hne [p Hp]. unfold Auth.deletable_users.
  pose proof (map_to_list_delete users u p Hp) as Hperm.
  apply (Permutation_map fst) in Hperm.
  apply (filter_Permutation (fun u => negb (String.eqb u "admin"))) in Hperm.
  apply Permutation_length in Hperm. rewrite <- Hperm. simpl.
  apply String.eqb_neq in Hne. by rewrite Hne.
Qed.

Lemma admin_delete_session (i : nat) (w : Auth.world) :
  Auth.sess (Auth.admin_delete i w) = Auth.sess w.
Proof.
  destruct (admin_delete_cases i w) as [-> | (u & _ & _ & ->)]; done.
Qed.

Lemma admin_delete_step (i : nat) (w : Auth.world) :
  Session.is_admin w = true →
  Auth.deletable_users (Auth.load_users (Auth.user_file w)) ≠ [] →
  ∃ u, u ≠ "admin"%string
       ∧ is_Some (Auth.load_users (Auth.user_file w) !! u)
       ∧ Auth.admin_delete i w
         = Auth.save_users (delete u (Auth.load_users (Auth.user_file w))) w.
Proof.
  intros Hadm Hne. unfold Session.is_admin in Hadm. unfold Auth.admin_delete.
  rewrite Hadm.
  destruct (Auth.deletable_users _) as [|x opts] eqn:E; [done|].
  exists (Auth.selectbox (x :: opts) i).
  assert (In (Auth.selectbox (x :: opts) i)
             (Auth.deletable_users (Auth.load_users (Auth.user_file w)))) as Hin
    by (rewrite E; by apply selectbox_In).
  apply deletable_users_spec in Hin as [Hs Hu]. done.
Qed.

(** X4.  Outside an authenticated session named "admin" a press of "Delete
    User" does nothing.  In such a session, when a user other than "admin"
    is stored, one press removes exactly one stored user other than
    "admin": the store is one entry smaller, the session is as it was, and
    no password logs the removed user in any more. *)
Theorem admin_delete_removes_one (i : nat) (w : Auth.world) :
  (Session.is_admin w = false → Auth.admin_delete i w = w)
  ∧ (Session.is_admin w = true →
     (∃ v, v ≠ "admin"%string ∧ is_Some (Auth.load_users (Auth.user_file w) !! v)) →
     let w' := Auth.admin_delete i w in
     ∃ u, u ≠ "admin"%string
          ∧ is_Some (Auth.load_users (Auth.user_file w) !! u)
          ∧ Auth.load_users (Auth.user_file w')
            = delete u (Auth.load_users (Auth.user_file w))
          ∧ S (size (Auth.load_users (Auth.user_file w')))
            = size (Auth.load_users (Auth.user_file w))
          ∧ Auth.sess w' = Auth.sess w
          ∧ ∀ p, Auth.failed (snd (Auth.login u p w')) = true).
Proof.
  split.
  - unfold Session.is_admin, Auth.admin_delete. by intros ->.
  - intros Hadm (v & Hv & Hsv) w'. subst w'.
    destruct (admin_delete_step i w Hadm) as (u & Hu & Hsu & ->).
    { intros E. assert (In v (Auth.deletable_users
                                 (Auth.load_users (Auth.user_file w)))) as Hin
        by (by apply deletable_users_spec).
      by rewrite E in Hin. }
    exists u. simpl. repeat split; try done.
    + rewrite map_size_delete_Some by done.
      destruct Hsu as [p Hp].
      assert (size (Auth.load_users (Auth.user_file w)) ≠ 0%nat); [|lia].
      intros Hz. apply map_size_empty_iff in Hz. rewrite Hz in Hp. done.
    + intros p. apply login_rejects. simpl. by rewrite lookup_delete_eq.
Qed.

Lemma admin_delete_removes_one_witness :
  ∃ u, u ≠ "admin"%string
       ∧ size (Auth.load_users (Auth.user_file (Auth.admin_delete 1 admin_world))) = 2%nat
       ∧ Auth.load_users (Auth.user_file (Auth.admin_delete 1 admin_world)) !! u = None.
Proof.
  destruct (admin_delete_removes_one 1 admin_world) as [_ H].
  destruct H as (u & Hu & _ & Hdel & Hsize & _).
  - reflexivity.
  - exists "bob"%string. split; [done|]. eexists. by vm_compute.
  - exists u. split; [done|]. split.
    + change (size (Auth.load_users (Auth.user_file admin_world))) with 3%nat in Hsize.
      lia.
    + rewrite Hdel. apply lookup_delete_eq.
Defined.

(** X5.  In an administrator session, once "Delete User" has been pressed
    at least as many times as there are users other than "admin", whatever
    was selected each time, nobody but "admin" is left in the store. *)
Theorem admin_deletes_leave_admin_only (choices : list nat) (w : Auth.world) :
  Session.is_admin w = true →
  (length (Auth.deletable_users (Auth.load_users (Auth.user_file w)))
   ≤ length choices)%nat →
  ∀ v, is_Some (Auth.load_users (Auth.user_file (Auth.admin_deletes choices w)) !! v) →
       v = "admin"%string.
Proof.
  unfold Auth.admin_deletes. revert w.
  induction choices as [|i choices IH]; intros w Hadm Hlen v Hv; simpl in *.
  - destruct (decide (v = "admin"%string)) as [|Hne]; [done|].
    assert (In v (Auth.deletable_users (Auth.load_users (Auth.user_file w))))
      as Hin by (by apply deletable_users_spec).
    destruct (Auth.deletable_users _); [done | simpl in Hlen; lia].
  - apply (IH (Auth.admin_delete i w)); [| |done].
    + unfold Session.is_admin in *. by rewrite admin_delete_session.
    + destruct (Auth.deletable_users (Auth.load_users (Auth.user_file w)))
        as [|x opts] eqn:E.
      * unfold Auth.admin_delete. unfold Session.is_admin in Hadm.
        rewrite Hadm, E. rewrite E. simpl. lia.
      * destruct (admin_delete_step i w Hadm) as (u & Hu & Hsu & ->);
          [by rewrite E|].
        simpl. pose proof (deletable_users_delete _ u Hu Hsu) as Hd.
        rewrite E in Hd. simpl in Hd, Hlen. lia.
Qed.

Lemma admin_deletes_leave_admin_only_witness :
  Auth.load_users (Auth.user_file (Auth.admin_deletes [5%nat; 0%nat] admin_world)) !! "bob"%string
  = None.
Proof.
  pose proof (admin_deletes_leave_admin_only [5%nat; 0%nat] admin_world eq_refl) as H.
  destruct (Auth.load_users (Auth.user_file (Auth.admin_deletes [5%nat; 0%nat] admin_world))
              !! "bob"%string) as [p|] eqn:E; [|done].
  exfalso. assert ("bob"%string = "admin"%string) as Habs; [|discriminate].
  apply H; [by vm_compute | rewrite E; eauto].
Defined.

(** ** customer.py: training data and prediction inputs *)

Lemma select_row_missing (names : list string) (input_df : list (string * Q))
  (c : string) :
  In c names → Customer.assoc c input_df = None →
  ∃ m, Predict.select_row names input_df = Raise m.
Proof.
  unfold Predict.select_row.
  induction names as [|c' names IH]; simpl; [done|].
  intros [-> | Hin] Hc.
  - rewrite Hc. simpl. eauto.
  - destruct (Customer.assoc c' input_df); simpl; [|eauto].
    destruct (IH Hin Hc) as [m ->]. simpl. eauto.
Qed.

(** X6.  Training and the form fit together: whenever the page has trained
    (retrain pressed, or an artifact file missing, and neither the
    selection of the feature columns nor the fit raised), the feature list
    it returns selects 16 values from the one-row table of the form, for
    every form, without a KeyError.  A loaded feature list that names a
    column the form does not produce makes the selection raise.  The page
    stops at the model step only when it trains. *)
Theorem trained_features_select_from_form {Model : Type}
  (fit : Customer.XGBRegressor → list (list (option Q)) → list (option Q)
         → result Model)
  (retrain : bool) (cols : list string) (df : list Frame.derived_row)
  (fs : Customer.disk Model) (f : Customer.form) :
  match snd (Customer.load_or_train fit retrain cols df fs) with
  | Ok (_, feats, msg) =>
      (msg ≠ None →
       ∃ xs, Predict.select_row feats (Customer.user_input f) = Ok xs
             ∧ length xs = 16%nat)
      ∧ (∀ c, In c feats → Customer.assoc c (Customer.user_input f) = None →
              ∃ m, Predict.select_row feats (Customer.user_input f) = Raise m)
  | Raise _ =>
      retrain = true ∨ Customer.xgb_model_pkl fs = None
      ∨ Customer.features_pkl fs = None
  end.
Proof.
  assert (∀ msg : string,
            match
              snd (let '(fs', trained) := Customer.train_model fit cols df fs in
                   (fs', mf ←ᵣ trained; Ok (mf, Some msg)))
            with
            | Ok (_, feats, msg) =>
                (msg ≠ None →
                 ∃ xs, Predict.select_row feats (Customer.user_input f) = Ok xs
                       ∧ length xs = 16%nat)
                ∧ (∀ c, In c feats → Customer.assoc c (Customer.user_input f) = None →
                        ∃ m, Predict.select_row feats (Customer.user_input f) = Raise m)
            | Raise _ => True
            end) as Htrain.
  { intros msg.
    destruct (train_model_cases fit cols df fs)
      as [[(c & _ & _ & ->) _] | (_ & _ & ->)]; [done|].
    destruct (fit _ _ _) as [m|e]; [|done].
    cbn -[In Predict.select_row Customer.user_input Customer.features].
    split; [|intros c; apply select_row_missing].
    intros _. eexists. split; reflexivity. }
  unfold Customer.load_or_train.
  destruct retrain.
  - specialize (Htrain "Model retrained and saved!"%string).
    destruct (snd _) as [[[m feats] msg]|e]; [done | by left].
  - destruct (Customer.xgb_model_pkl fs) as [m0|] eqn:Em;
      [destruct (Customer.features_pkl fs) as [f0|] eqn:Ef|].
    + cbn -[In Predict.select_row Customer.user_input]. split; [done|].
      intros c. apply select_row_missing.
    + specialize (Htrain "Model trained and saved!"%string).
      destruct (snd _) as [[[m feats] msg]|e]; [done | by right; right].
    + specialize (Htrain "Model trained and saved!"%string).
      destruct (snd _) as [[[m feats] msg]|e]; [done | by right; left].
Qed.

Lemma trained_features_select_from_form_witness :
  ∃ d,
    Customer.run_clv_df 2015 sample_now empty_date_table = Ok [d]
    ∧ (∃ model xs,
         snd (Customer.load_or_train sample_fit true sample_columns [d] old_artifacts)
         = Ok (model, Customer.features, Some "Model retrained and saved!"%string)
         ∧ Predict.select_row Customer.features (Customer.user_input sample_form)
           = Ok xs
         ∧ length xs = 16%nat)
    ∧ (∃ model,
         snd (Customer.load_or_train sample_fit false sample_columns [d] old_artifacts)
         = Ok (model, ["Age"; "Education"]%string, None))
    ∧ ∃ m, Predict.select_row ["Age"; "Education"]%string
             (Customer.user_input sample_form) = Raise m.
Proof.
  destruct (Customer.run_clv_df 2015 sample_now empty_date_table) as [df|m] eqn:E;
    vm_compute in E; [|discriminate E].
  injection E as <-. eexists. split; [reflexivity|].
  match goal with |- (∃ model xs, snd (_ _ _ _ [?d] _) = _ ∧ _) ∧ _ => set (d0 := d) end.
  split; [|split].
  - pose proof (trained_features_select_from_form sample_fit true sample_columns
                  [d0] old_artifacts sample_form) as H.
    destruct (snd (Customer.load_or_train sample_fit true sample_columns [d0]
                     old_artifacts)) as [[[model feats] msg]|e] eqn:El;
      vm_compute in El; [|discriminate El].
    injection El as <- <- <-.
    destruct H as [H _]. destruct H as (xs & Hxs & Hlen); [done|].
    eexists _, xs. split; [reflexivity|]. split; [exact Hxs | exact Hlen].
  - eexists. reflexivity.
  - pose proof (trained_features_select_from_form sample_fit false sample_columns
                  [d0] old_artifacts sample_form) as H.
    destruct (snd (Customer.load_or_train sample_fit false sample_columns [d0]
                     old_artifacts)) as [[[model feats] msg]|e] eqn:El;
      vm_compute in El; [|discriminate El].
    injection El as <- <- <-.
    destruct H as [_ H].
    apply (H "Education"%string); [right; by left | reflexivity].
Defined.

Lemma run_clv_df_rows (year now : Z) (t : Frame.table) (df : list Frame.derived_row)
  (d : Frame.derived_row) :
  Customer.run_clv_df year now t = Ok df → In d df →
  forallb (Frame.has_column (Frame.columns t)) Customer.indexed_columns = true
  ∧ Customer.has_null (Frame.columns t) d = false
  ∧ ∃ r, In r (Frame.rows t)
         ∧ Customer.feature_engineering year now
             (Frame.dtypes_of (Frame.rows t)) r = Ok d.
Proof.
  unfold Customer.run_clv_df. destruct (forallb _ _) eqn:Ecols; [|done].
  destruct (rmapM _ _) as [ds|m] eqn:Emap; simpl; [|done].
  intros [= <-] Hin. apply filter_In in Hin as [Hin Hnull].
  apply negb_true_iff in Hnull. do 2 (split; [done|]).
  apply rmapM_Ok in Emap. by apply (Forall2_In_r _ _ _ _ Emap).
Qed.

Lemma has_column_app (cols cols' : list string) (c : string) :
  Frame.has_column cols c = true → Frame.has_column (cols ++ cols') c = true.
Proof.
  unfold Frame.has_column. rewrite !existsb_exists.
  intros (x & Hx & Hc). exists x. split; [|done]. apply in_or_app. by left.
Qed.

(** X7.  The training data are free of nulls: when the feature engineering
    of the prediction page completes on a file that has the seven raw
    feature columns it does not index itself, selecting the feature columns
    does not raise, every cell of the feature matrix and every target value
    handed to the regressor is present, and training succeeds or fails with
    the fit of the regressor on these data. *)
Theorem training_data_has_no_nulls {Model : Type}
  (fit : Customer.XGBRegressor → list (list (option Q)) → list (option Q)
         → result Model)
  (year now : Z) (t : Frame.table)
  (df : list Frame.derived_row) (fs : Customer.disk Model) :
  Customer.run_clv_df year now t = Ok df →
  Forall (fun c => Frame.has_column (Frame.columns t) c = true)
    ["Income"; "Kidhome"; "Teenhome"; "Recency"; "AcceptedCmp1";
     "AcceptedCmp5"; "Response"]%string →
  ∃ X y,
    Customer.select (Frame.columns t) Customer.features df = Ok X
    ∧ y = map Frame.CLV df
    ∧ Forall (Forall is_Some) X
    ∧ Forall is_Some y
    ∧ Forall (fun x => length x = 16%nat) X
    ∧ length X = length y
    ∧ Customer.train_model fit (Frame.columns t) df fs
      = match fit {| Customer.n_estimators := 100; Customer.max_depth := 5;
                     Customer.learning_rate := 0.1; Customer.random_state := 42 |}
                  X y with
        | Ok model =>
            ({| Customer.xgb_model_pkl := Some model;
                Customer.features_pkl := Some Customer.features |},
             Ok (model, Customer.features))
        | Raise e => (fs, Raise e)
        end.
Proof.
  intros Hrun Hcols.
  repeat match goal with
         | H : Forall _ (_ :: _) |- _ => apply Forall_cons_1 in H as [? H]
         end.
  assert (∀ c, In c Customer.indexed_columns →
               Frame.has_column (Frame.columns t) c = true) as Hidx'.
  { intros c Hc. revert Hrun. unfold Customer.run_clv_df.
    destruct (forallb _ _) eqn:Hidx; [|done]. intros _.
    rewrite forallb_forall in Hidx. by apply Hidx. }
  assert (∀ d, In d df →
               Forall is_Some (map (Customer.cell d) Customer.features)
               ∧ is_Some (Customer.cell d "CLV")) as Hrow.
  { intros d Hd.
    destruct (run_clv_df_rows _ _ _ _ _ Hrun Hd) as (Hidx & Hnull & _).
    apply has_null_false in Hnull
      as (Hclv & Hty & Hten & Hage & _ & Hint & _ & _).
    assert (∀ c get, In (c, get) Frame.int_columns →
                     Frame.has_column (Frame.columns t) c = true →
                     is_Some (inject_Z <$> get (Frame.raw d))) as Hint'.
    { intros c get Hin Hc. destruct (Hint c get Hin Hc) as [x ->]. by eexists. }
    split; [|done].
    change (map (Customer.cell d) Customer.features)
      with [ inject_Z <$> Frame.Age d;
             inject_Z <$> Frame.Income (Frame.raw d);
             inject_Z <$> Frame.Kidhome (Frame.raw d);
             inject_Z <$> Frame.Teenhome (Frame.raw d);
             inject_Z <$> Frame.Recency (Frame.raw d);
             inject_Z <$> Frame.MntGoldProds (Frame.raw d);
             inject_Z <$> Frame.NumDealsPurchases (Frame.raw d);
             inject_Z <$> Frame.AcceptedCmp1 (Frame.raw d);
             inject_Z <$> Frame.AcceptedCmp5 (Frame.raw d);
             inject_Z <$> Frame.Response (Frame.raw d);
             inject_Z <$> Frame.NumCatalogPurchases (Frame.raw d);
             inject_Z <$> Frame.Customer_Tenure d;
             Frame.Tenure_Years d;
             Some (inject_Z (Frame.Total_Spending d));
             Some (inject_Z (Frame.Purchase_Frequency d));
             Some (Frame.Profit_Margin d) ].
    destruct Hage as [a ->]. destruct Hten as [te ->].
    repeat (apply Forall_cons; split); try apply Forall_nil; try exact Hty;
      try by eexists.
    - apply (Hint' "Income"%string Frame.Income); [simpl; tauto | done].
    - apply (Hint' "Kidhome"%string Frame.Kidhome); [simpl; tauto | done].
    - apply (Hint' "Teenhome"%string Frame.Teenhome); [simpl; tauto | done].
    - apply (Hint' "Recency"%string Frame.Recency); [simpl; tauto | done].
    - apply (Hint' "MntGoldProds"%string Frame.MntGoldProds); [simpl; tauto|].
      apply Hidx'. simpl. tauto.
    - apply (Hint' "NumDealsPurchases"%string Frame.NumDealsPurchases);
        [simpl; tauto|].
      apply Hidx'. simpl. tauto.
    - apply (Hint' "AcceptedCmp1"%string Frame.AcceptedCmp1); [simpl; tauto | done].
    - apply (Hint' "AcceptedCmp5"%string Frame.AcceptedCmp5); [simpl; tauto | done].
    - apply (Hint' "Response"%string Frame.Response); [simpl; tauto | done].
    - apply (Hint' "NumCatalogPurchases"%string Frame.NumCatalogPurchases);
        [simpl; tauto|].
      apply Hidx'. simpl. tauto. }
  assert (∀ c, In c Customer.features →
               Frame.has_column (Frame.columns t ++ Customer.derived_columns) c
               = true) as Hfeat.
  { intros c Hc.
    assert (Frame.has_column (Frame.columns t) c = true
            ∨ Frame.has_column Customer.derived_columns c = true) as [Hin | Hin].
    { repeat (destruct Hc as [<- | Hc];
              [first [left; done | left; apply Hidx'; simpl; tauto
                     | right; reflexivity]|]).
      done. }
    - by apply has_column_app.
    - unfold Frame.has_column in *. rewrite existsb_app, Hin.
      apply orb_true_r. }
  destruct (train_model_cases fit (Frame.columns t) df fs)
    as [[(c & Hin & Hc & _) _] | (_ & Hsel & Htrain)].
  { rewrite Hfeat in Hc by done. done. }
  eexists _, _. split; [exact Hsel|]. split; [reflexivity|].
  rewrite !length_map. repeat split; try done.
  - apply List.Forall_forall. intros x Hx. apply in_map_iff in Hx as (d & <- & Hd).
    by apply Hrow.
  - apply List.Forall_forall. intros x Hx. apply in_map_iff in Hx as (d & <- & Hd).
    by apply Hrow.
  - apply List.Forall_forall. intros x Hx. apply in_map_iff in Hx as (d & <- & Hd).
    done.
Qed.

Lemma training_data_has_no_nulls_witness :
  ∃ df X y model,
    Customer.run_clv_df 2015 sample_now empty_date_table = Ok df
    ∧ Customer.select sample_columns Customer.features df = Ok X
    ∧ Forall (Forall is_Some) X
    ∧ y = [Some 3000%Q]
    ∧ sample_fit {| Customer.n_estimators := 100; Customer.max_depth := 5;
                    Customer.learning_rate := 0.1; Customer.random_state := 42 |}
        X y = Ok model
    ∧ Customer.train_model sample_fit sample_columns df no_artifacts
      = ({| Customer.xgb_model_pkl := Some model;
            Customer.features_pkl := Some Customer.features |},
         Ok (model, Customer.features)).
Proof.
  destruct (Customer.run_clv_df 2015 sample_now empty_date_table) as [df|m] eqn:E;
    [|by vm_compute in E].
  destruct (training_data_has_no_nulls sample_fit 2015 sample_now empty_date_table
              df no_artifacts E)
    as (X & y & Hsel & Hy & HX & _ & _ & _ & Htrain).
  { repeat constructor. }
  assert (y = [Some 3000%Q]) as Hy'.
  { rewrite Hy. vm_compute in E. by injection E as <-. }
  destruct (sample_fit _ X y) as [model|e] eqn:Ef.
  - exists df, X, y, model. done.
  - exfalso. vm_compute in E. injection E as <-.
    vm_compute in Hsel. injection Hsel as <-. rewrite Hy' in Ef.
    vm_compute in Ef. discriminate Ef.
Defined.

(** ** customer.py and clv.py: the size and sign of the CLV *)

Lemma customer_row_clv (year now : Z) (ty : Frame.dtypes) (r : Frame.raw_row)
  (d : Frame.derived_row) :
  Customer.feature_engineering year now ty r = Ok d →
  Frame.CLV d
  = (fun years =>
       round2 (Frame.Profit_Margin d * inject_Z (Frame.Purchase_Frequency d) * years)%Q)
      <$> Frame.Tenure_Years d.
Proof.
  unfold Customer.feature_engineering.
  destruct (Customer.to_datetime _) as [dt|m]; simpl; [|done].
  intros [= <-]. simpl. by destruct dt.
Qed.

Lemma dashboard_row_clv (year now : Z) (cols : list string) (ty : Frame.dtypes)
  (r : Frame.raw_row) :
  let d := Dashboard.clv_row year now cols ty r in
  Frame.CLV d
  = (fun years =>
       round2 (Frame.Profit_Margin d * inject_Z (Frame.Purchase_Frequency d) * years)%Q)
      <$> Frame.Tenure_Years d.
Proof. simpl. by destruct (Dashboard.to_datetime _). Qed.

(** X8.  In both pages a CLV that is not null is a whole number of
    hundredths and lies within 0.005 of the unrounded product profit margin
    x purchase frequency x tenure in years of its row. *)
Theorem clv_within_half_a_hundredth (year now : Z) (cols : list string)
  (ty : Frame.dtypes) (r : Frame.raw_row) (d : Frame.derived_row) (clv : Q) :
  Customer.feature_engineering year now ty r = Ok d
  ∨ d = Dashboard.clv_row year now cols ty r →
  Frame.CLV d = Some clv →
  ∃ years product,
    Frame.Tenure_Years d = Some years
    ∧ product = (Frame.Profit_Margin d * inject_Z (Frame.Purchase_Frequency d) * years)%Q
    ∧ (clv - product <= 1 # 200)%Q ∧ (product - clv <= 1 # 200)%Q
    ∧ ∃ n : Z, (clv == inject_Z n / 100)%Q.
Proof.
  intros Hd Hclv.
  assert (Frame.CLV d
          = (fun years => round2 (Frame.Profit_Margin d
                                  * inject_Z (Frame.Purchase_Frequency d) * years)%Q)
              <$> Frame.Tenure_Years d) as Heq.
  { destruct Hd as [Hd | ->];
      [by eapply customer_row_clv | apply dashboard_row_clv]. }
  rewrite Hclv in Heq. destruct (Frame.Tenure_Years d) as [ty'|]; [|done].
  simpl in Heq. injection Heq as ->.
  eexists _, _. split; [done|]. split; [done|].
  split; [apply round2_close|]. split; [apply round2_close|].
  eexists. apply round2_rint.
Qed.

Lemma clv_within_half_a_hundredth_witness :
  ∃ d product,
    Customer.feature_engineering 2015 (sample_now + 1)
      (Frame.dtypes_of [sample_row]) sample_row = Ok d
    ∧ Frame.CLV d = Some 3000%Q ∧ (3000 - product <= 1 # 200)%Q.
Proof.
  destruct (Customer.feature_engineering 2015 (sample_now + 1)
              (Frame.dtypes_of [sample_row]) sample_row)
    as [d|m] eqn:E; [|by vm_compute in E].
  assert (Frame.CLV d = Some 3000%Q) as Hclv.
  { vm_compute in E. injection E as <-. reflexivity. }
  destruct (clv_within_half_a_hundredth 2015 (sample_now + 1) []
              (Frame.dtypes_of [sample_row]) sample_row d 3000
              (or_introl E) Hclv) as (ty & product & _ & _ & Hle & _).
  exists d, product. done.
Defined.

Lemma sum_skipna_nonneg (cells : list (option Z)) :
  Forall (fun c => 0 ≤ default 0 c) cells → 0 ≤ sum_skipna cells.
Proof.
  induction 1 as [|c cells Hc _ IH]; [done|].
  unfold sum_skipna. simpl. rewrite sum_skipna_acc. lia.
Qed.

Lemma sum_skipna_default (cells : list (option Z)) :
  sum_skipna cells = total (map (default 0) cells).
Proof.
  induction cells as [|c cells IH]; [done|].
  unfold sum_skipna. simpl. rewrite sum_skipna_acc, IH. done.
Qed.

Lemma fill_default (cols : list string) (c : string) (v : option Z) :
  default 0 (Dashboard.fill cols c v)
  = if Frame.has_column cols c then default 0 v else 0.
Proof. unfold Dashboard.fill. by destruct (Frame.has_column cols c). Qed.

Lemma product_sign (S F days : Z) :
  0 ≤ S → 0 ≤ F →
  let product := (inject_Z S * 0.3 * inject_Z F * (inject_Z days / 365))%Q in
  (0 ≤ days → (0 <= product)%Q) ∧ (days ≤ 0 → (product <= 0)%Q).
Proof.
  intros HS HF. unfold Qle, Qmult, Qdiv, Qinv, inject_Z. simpl.
  split; intros Hd; nia.
Qed.

Lemma days_between_sign (now t : Z) :
  (t ≤ now → 0 ≤ Frame.days_between now t)
  ∧ (now < t → Frame.days_between now t < 0).
Proof.
  unfold Frame.days_between, Frame.ns_per_day.
  change (86400 * 1000000000) with 86400000000000.
  split; intros H.
  - apply Z.div_pos; lia.
  - apply Z.div_lt_upper_bound; lia.
Qed.

Lemma fill_missing_nonneg (cols : list string) (r : Frame.raw_row) :
  Forall (fun cg => 0 ≤ default 0 (snd cg r))
    (Frame.spend_cols ++ Frame.purchase_cols) →
  Forall (fun cg => 0 ≤ default 0 (snd cg (Dashboard.fill_missing cols r)))
    (Frame.spend_cols ++ Frame.purchase_cols).
Proof.
  unfold Frame.spend_cols, Frame.purchase_cols. cbn [app]. intros H.
  repeat match goal with
         | H : Forall _ (_ :: _) |- _ => apply Forall_cons_1 in H as [? H]
         end.
  cbn [snd] in *.
  repeat (apply Forall_cons; split); try apply List.Forall_nil;
    cbn [snd Dashboard.fill_missing Frame.MntWines Frame.MntFruits
         Frame.MntMeatProducts Frame.MntFishProducts Frame.MntSweetProducts
         Frame.MntGoldProds Frame.NumDealsPurchases Frame.NumWebPurchases
         Frame.NumCatalogPurchases Frame.NumStorePurchases];
    unfold Dashboard.fill; by destruct (Frame.has_column cols _).
Qed.

Lemma filled_amount (b : bool) (x : Z) :
  0 ≤ x → 0 ≤ (if b then x else 0) ≤ x.
Proof. destruct b; lia. Qed.

(** A column that the file lacks can only lower the sums of a row whose
    amounts and counts are not negative. *)
Lemma fill_missing_sum_le (cols : list string) (r : Frame.raw_row) :
  Forall (fun cg => 0 ≤ default 0 (snd cg r))
    (Frame.spend_cols ++ Frame.purchase_cols) →
  sum_skipna (map (fun cg => snd cg (Dashboard.fill_missing cols r)) Frame.spend_cols)
  ≤ sum_skipna (map (fun cg => snd cg r) Frame.spend_cols)
  ∧ sum_skipna (map (fun cg => snd cg (Dashboard.fill_missing cols r))
                  Frame.purchase_cols)
    ≤ sum_skipna (map (fun cg => snd cg r) Frame.purchase_cols).
Proof.
  unfold Frame.spend_cols, Frame.purchase_cols. cbn [app]. intros H.
  repeat match goal with
         | H : Forall _ (_ :: _) |- _ => apply Forall_cons_1 in H as [? H]
         end.
  cbn [snd] in *. rewrite !sum_skipna_default.
  cbn [map snd Dashboard.fill_missing Frame.MntWines Frame.MntFruits
       Frame.MntMeatProducts Frame.MntFishProducts Frame.MntSweetProducts
       Frame.MntGoldProds Frame.NumDealsPurchases Frame.NumWebPurchases
       Frame.NumCatalogPurchases Frame.NumStorePurchases].
  rewrite !fill_default. unfold total. cbn [fold_right].
  repeat match goal with
         | |- context [if Frame.has_column cols ?c then ?x else 0] =>
             let Hb := fresh "Hb" in
             pose proof (filled_amount (Frame.has_column cols c) x ltac:(done)) as Hb;
             generalize dependent (if Frame.has_column cols c then x else 0);
             intros
         end.
  lia.
Qed.

(** X9.  Nothing guards against an enrollment date in the future.  For a
    row whose spend amounts and purchase counts are not negative and add
    up to less than 2^63 each, in both pages: an enrollment date up to the
    reference time gives a tenure in days and a CLV that are not negative;
    an enrollment date after it gives a negative tenure in days and a CLV
    that is not positive. *)
Theorem clv_sign_follows_tenure (year now t : Z) (cols : list string)
  (ty : Frame.dtypes) (r : Frame.raw_row) (d : Frame.derived_row) :
  Frame.Dt_Customer r = Frame.DateValid t →
  Forall (fun cg => 0 ≤ default 0 (snd cg r))
    (Frame.spend_cols ++ Frame.purchase_cols) →
  sum_skipna (map (fun cg => snd cg r) Frame.spend_cols) < 2 ^ 63 →
  sum_skipna (map (fun cg => snd cg r) Frame.purchase_cols) < 2 ^ 63 →
  Customer.feature_engineering year now ty r = Ok d
  ∨ d = Dashboard.clv_row year now cols ty r →
  ∃ days clv,
    Frame.Customer_Tenure d = Some days ∧ Frame.CLV d = Some clv
    ∧ (t ≤ now → 0 ≤ days ∧ (0 <= clv)%Q)
    ∧ (now < t → days < 0 ∧ (clv <= 0)%Q).
Proof.
  intros Hdt Hnn HSlt HFlt Hd.
  assert (∃ r', Forall (fun cg => 0 ≤ default 0 (snd cg r'))
                  (Frame.spend_cols ++ Frame.purchase_cols)
                ∧ sum_skipna (map (fun cg => snd cg r') Frame.spend_cols) < 2 ^ 63
                ∧ sum_skipna (map (fun cg => snd cg r') Frame.purchase_cols) < 2 ^ 63
                ∧ Frame.Customer_Tenure d = Some (Frame.days_between now t)
                ∧ Frame.CLV d
                  = Some (round2
                            (inject_Z (Frame.row_sum (Frame.spend_int64 ty)
                                         (map (fun cg => snd cg r') Frame.spend_cols))
                             * 0.3
                             * inject_Z (Frame.row_sum (Frame.purchase_int64 ty)
                                           (map (fun cg => snd cg r') Frame.purchase_cols))
                             * (inject_Z (Frame.days_between now t) / 365))%Q))
    as (r' & Hnn' & HSlt' & HFlt' & Hten & Hclv).
  { destruct Hd as [Hd | ->].
    - exists r. do 3 (split; [done|]). unfold Customer.feature_engineering in Hd.
      rewrite Hdt in Hd. simpl in Hd. by injection Hd as <-.
    - exists (Dashboard.fill_missing cols r).
      destruct (fill_missing_sum_le cols r Hnn) as [Hs Hp].
      split; [by apply fill_missing_nonneg|].
      split; [lia|]. split; [lia|].
      unfold Dashboard.clv_row. rewrite Hdt. done. }
  apply Forall_app in Hnn' as [Hs Hp].
  assert (0 ≤ sum_skipna (map (fun cg => snd cg r') Frame.spend_cols)) as HS.
  { apply sum_skipna_nonneg. by apply Forall_fmap. }
  assert (0 ≤ sum_skipna (map (fun cg => snd cg r') Frame.purchase_cols)) as HF.
  { apply sum_skipna_nonneg. by apply Forall_fmap. }
  unfold Frame.row_sum in Hclv.
  rewrite !as_dtype_in_int64 in Hclv by (unfold in_int64; lia).
  destruct (product_sign _ _ (Frame.days_between now t) HS HF) as [Hpos Hneg].
  destruct (days_between_sign now t) as [Hd1 Hd2].
  eexists _, _. split; [exact Hten|]. split; [exact Hclv|]. split; intros Hcmp.
  - split; [by apply Hd1|]. apply round2_sign, Hpos. by apply Hd1.
  - split; [by apply Hd2|]. apply round2_sign, Hneg.
    specialize (Hd2 Hcmp). lia.
Qed.

Lemma clv_sign_follows_tenure_witness :
  ∃ d days clv,
    Customer.feature_engineering 2015 (day0 - 1) (Frame.dtypes_of [sample_row])
      sample_row = Ok d
    ∧ Frame.Customer_Tenure d = Some days ∧ days < 0
    ∧ Frame.CLV d = Some clv ∧ (clv <= 0)%Q.
Proof.
  destruct (Customer.feature_engineering 2015 (day0 - 1)
              (Frame.dtypes_of [sample_row]) sample_row)
    as [d|m] eqn:E; [|by vm_compute in E].
  destruct (clv_sign_follows_tenure 2015 (day0 - 1) day0 []
              (Frame.dtypes_of [sample_row]) sample_row d)
    as (days & clv & Hten & Hclv & _ & Hneg).
  - reflexivity.
  - repeat constructor; by vm_compute.
  - by vm_compute.
  - by vm_compute.
  - by left.
  - exists d, days, clv. destruct Hneg as [Hd Hc]; [by vm_compute|]. done.
Defined.

(** X10.  The "1-Year CLV Estimate" of the form divides the profit margin
    times the purchase frequency by the tenure in years, where the manual
    CLV multiplies by it: for a tenure other than 0 the manual CLV is the
    estimate times the square of the tenure in years, the two agree at 365
    days, and at tenure 0 the manual CLV is 0 and the estimate is not a
    finite number. *)
Theorem annualized_clv_of_form (f : Customer.form) :
  let input_df := Customer.user_input f in
  let TY := (inject_Z (Customer.Customer_Tenure f) / 365)%Q in
  (Customer.Customer_Tenure f = 0 →
   Predict.annualized_clv input_df = Some None
   ∧ ∃ m, Customer.manual_clv input_df = Some m ∧ (m == 0)%Q)
  ∧ (Customer.Customer_Tenure f ≠ 0 →
     ∃ a m, Predict.annualized_clv input_df = Some (Some a)
            ∧ Customer.manual_clv input_df = Some m
            ∧ (m == a * TY * TY)%Q
            ∧ (Customer.Customer_Tenure f = 365 → (a == m)%Q)).
Proof.
  intros input_df TY. subst input_df TY. split.
  - intros H0. unfold Predict.annualized_clv, Customer.manual_clv. simpl.
    rewrite H0. split; [done|]. eexists. split; [done|].
    unfold Qeq. simpl. lia.
  - intros Hne. unfold Predict.annualized_clv, Customer.manual_clv. simpl.
    destruct (Customer.Customer_Tenure f) as [|T|T] eqn:ET; [done|..].
    + eexists _, _. split; [reflexivity|]. split; [reflexivity|]. split.
      * unfold Qeq, Qmult, Qdiv, Qinv, inject_Z. simpl. nia.
      * intros [= ->]. unfold Qeq, Qmult, Qdiv, Qinv, inject_Z. simpl. lia.
    + eexists _, _. split; [reflexivity|]. split; [reflexivity|]. split.
      * unfold Qeq, Qmult, Qdiv, Qinv, inject_Z. simpl. nia.
      * intros [=].
Qed.

Lemma annualized_clv_of_form_witness :
  Predict.annualized_clv (Customer.user_input sample_form) = Some None
  ∧ ∃ a, Predict.annualized_clv (Customer.user_input sample_form_730) = Some (Some a)
         ∧ (a == 30)%Q.
Proof.
  split.
  - by apply (annualized_clv_of_form sample_form).
  - destruct (annualized_clv_of_form sample_form_730) as [_ H].
    destruct H as (a & m & Ha & Hm & Heq & _); [done|].
    exists a. split; [exact Ha|]. vm_compute in Ha. injection Ha as <-. reflexivity.
Defined.

Lemma map_filter_sublist {A B} (g : A → B) (f : A → bool) (l : list A) :
  map g (List.filter f l) `sublist_of` map g l.
Proof.
  induction l as [|x l IH]; simpl; [constructor|].
  destruct (f x); simpl; [by apply sublist_skip | by apply sublist_cons].
Qed.

Lemma feature_engineering_raw (year now : Z) (ty : Frame.dtypes)
  (r : Frame.raw_row) (d : Frame.derived_row) :
  Customer.feature_engineering year now ty r = Ok d → Frame.raw d = r.
Proof.
  unfold Customer.feature_engineering.
  destruct (Customer.to_datetime _); simpl; [|done]. by intros [= <-].
Qed.

(** X11.  The table the prediction page works on keeps the lines of the
    file: the raw cells of its rows are, in the same order and without
    repetition of a line, a selection of the lines of the file, unchanged;
    in particular it has no more rows than the file. *)
Theorem run_clv_df_keeps_lines (year now : Z) (t : Frame.table)
  (df : list Frame.derived_row) :
  Customer.run_clv_df year now t = Ok df →
  map Frame.raw df `sublist_of` Frame.rows t
  ∧ (length df ≤ length (Frame.rows t))%nat.
Proof.
  unfold Customer.run_clv_df. destruct (forallb _ _); [|done].
  destruct (rmapM _ _) as [ds|m] eqn:Emap; simpl; [|done].
  intros [= <-]. apply rmapM_Ok in Emap.
  assert (map Frame.raw ds = Frame.rows t) as Hraw.
  { induction Emap as [|r d rs ds Hrd _ IH]; simpl; [done|].
    f_equal; [by eapply feature_engineering_raw | done]. }
  assert (map Frame.raw (Customer.dropna (Frame.columns t) ds)
            `sublist_of` Frame.rows t) as Hsub.
  { rewrite <- Hraw. apply map_filter_sublist. }
  split; [done|]. apply sublist_length in Hsub. by rewrite length_map in Hsub.
Qed.

Lemma run_clv_df_keeps_lines_witness :
  ∃ df, Customer.run_clv_df 2015 sample_now empty_date_table = Ok df
        ∧ map Frame.raw df `sublist_of` Frame.rows empty_date_table.
Proof.
  destruct (Customer.run_clv_df 2015 sample_now empty_date_table) as [df|m] eqn:E;
    [|by vm_compute in E].
  exists df. split; [done|].
  by apply (run_clv_df_keeps_lines 2015 sample_now empty_date_table df).
Defined.

(** ** clv.py: nulls, filters and age groups of the dashboard *)

(** X12.  In the dashboard a missing amount or count never makes a CLV
    null: a spend or purchase cell that is null, or whose column the file
    lacks, counts as 0 in the total spend and the purchase frequency (the
    row sums, which an int64 block adds modulo 2^64 and which are the plain
    sums whenever these fit in a signed 64-bit integer), and the CLV of a
    row is null exactly when its enrollment date is empty or not a date. *)
Theorem dashboard_null_cells_count_as_zero (year now : Z) (cols : list string)
  (ty : Frame.dtypes) (r : Frame.raw_row) :
  let d := Dashboard.clv_row year now cols ty r in
  let amount (cg : string * (Frame.raw_row → option Z)) :=
    if Frame.has_column cols (fst cg) then default 0 (snd cg r) else 0 in
  let spend := total (map amount Frame.spend_cols) in
  let purchases := total (map amount Frame.purchase_cols) in
  Frame.Total_Spending d = Frame.as_dtype (Frame.spend_int64 ty) spend
  ∧ Frame.Purchase_Frequency d = Frame.as_dtype (Frame.purchase_int64 ty) purchases
  ∧ (- 2 ^ 63 ≤ spend < 2 ^ 63 → Frame.Total_Spending d = spend)
  ∧ (- 2 ^ 63 ≤ purchases < 2 ^ 63 → Frame.Purchase_Frequency d = purchases)
  ∧ (Frame.CLV d = None ↔ ∀ t, Frame.Dt_Customer r ≠ Frame.DateValid t)
  ∧ (Frame.Tenure_Years d = None ↔ Frame.CLV d = None).
Proof.
  intros d amount spend purchases.
  assert (Frame.Total_Spending d = Frame.as_dtype (Frame.spend_int64 ty) spend
          ∧ Frame.Purchase_Frequency d
            = Frame.as_dtype (Frame.purchase_int64 ty) purchases) as [HS HF].
  { subst d amount spend purchases. unfold Dashboard.clv_row, Frame.row_sum.
    cbn [Frame.Total_Spending Frame.Purchase_Frequency].
    rewrite !sum_skipna_default. split.
    - unfold Frame.spend_cols.
      cbn [map fst snd Dashboard.fill_missing Frame.MntWines Frame.MntFruits
           Frame.MntMeatProducts Frame.MntFishProducts Frame.MntSweetProducts
           Frame.MntGoldProds].
      by rewrite !fill_default.
    - unfold Frame.purchase_cols.
      cbn [map fst snd Dashboard.fill_missing Frame.NumDealsPurchases
           Frame.NumWebPurchases Frame.NumCatalogPurchases Frame.NumStorePurchases].
      by rewrite !fill_default. }
  do 2 (split; [done|]).
  split; [intros H; rewrite HS; by apply as_dtype_in_int64|].
  split; [intros H; rewrite HF; by apply as_dtype_in_int64|].
  subst d. unfold Dashboard.clv_row.
  cbn [Frame.CLV Frame.Tenure_Years].
  destruct (Frame.Dt_Customer r) as [|text|t]; simpl; split; split;
    try done; try (intros H; by destruct (H t)).
Qed.

Lemma isin_options (get : Frame.raw_row → option string)
  (df : list Frame.derived_row) (d : Frame.derived_row) :
  In d df →
  Dashboard.isin (Dashboard.options get df) (get (Frame.raw d)) = true
  ↔ is_Some (get (Frame.raw d)).
Proof.
  intros Hd. unfold Dashboard.isin, Dashboard.options.
  destruct (get (Frame.raw d)) as [v|] eqn:E.
  - split; [eauto|]. intros _. apply existsb_exists. exists v.
    split; [|apply String.eqb_refl].
    apply nodup_In, list_elem_of_In, list_elem_of_omap.
    exists d. split; [by apply list_elem_of_In | done].
  - split; [done | by intros [? ?]].
Qed.

Lemma apply_filter_default (cols : list string) (c : string)
  (get : Frame.raw_row → option string) (df0 df : list Frame.derived_row)
  (d : Frame.derived_row) :
  incl df df0 →
  In d (Dashboard.apply_filter cols c get (Dashboard.options get df0) df)
  ↔ In d df ∧ (Frame.has_column cols c = true → is_Some (get (Frame.raw d))).
Proof.
  intros Hincl. unfold Dashboard.apply_filter.
  destruct (Frame.has_column cols c).
  - rewrite filter_In. split.
    + intros [Hd Hin]. split; [done|]. intros _.
      by apply (isin_options get df0 d (Hincl d Hd)).
    + intros [Hd Hs]. split; [done|].
      apply (isin_options get df0 d (Hincl d Hd)). by apply Hs.
  - split; [by intros Hd | by intros [Hd _]].
Qed.

Lemma apply_filter_incl (cols : list string) (c : string)
  (get : Frame.raw_row → option string) (sel : list string)
  (df : list Frame.derived_row) :
  incl (Dashboard.apply_filter cols c get sel df) df.
Proof.
  unfold Dashboard.apply_filter.
  destruct (Frame.has_column cols c); [|by intros d Hd].
  intros d Hd. by apply filter_In in Hd as [Hd _].
Qed.

(** X13.  With the three multiselects left as they start (every option
    selected) the dashboard still drops rows: its table holds exactly the
    rows that have a value in each of the Gender, Marital_Status and
    Education columns the file has; a row with a null there is filtered
    out. *)
Theorem default_filters_drop_null_categories (year now : Z) (t : Frame.table) :
  Frame.has_column (Frame.columns t) "Dt_Customer" = true →
  ∃ df, Dashboard.run_clv_dashboard year now
          (Dashboard.default_filters year now t) t = Ok df
        ∧ ∀ d, In d df ↔
               ∃ r, In r (Frame.rows t)
                    ∧ d = Dashboard.clv_row year now (Frame.columns t)
                            (Dashboard.dtypes (Frame.columns t) (Frame.rows t)) r
                    ∧ (Frame.has_column (Frame.columns t) "Gender" = true →
                       is_Some (Frame.Gender r))
                    ∧ (Frame.has_column (Frame.columns t) "Marital_Status" = true →
                       is_Some (Frame.Marital_Status r))
                    ∧ (Frame.has_column (Frame.columns t) "Education" = true →
                       is_Some (Frame.Education r)).
Proof.
  intros Hdt. unfold Dashboard.run_clv_dashboard. rewrite Hdt.
  eexists. split; [done|]. intros d.
  unfold Dashboard.default_filters.
  cbn [Dashboard.gender_filter Dashboard.marital_filter Dashboard.edu_filter].
  set (df0 := map (Dashboard.clv_row year now (Frame.columns t)
                     (Dashboard.dtypes (Frame.columns t) (Frame.rows t)))
                (Frame.rows t)).
  rewrite apply_filter_default, apply_filter_default, apply_filter_default.
  - unfold df0. rewrite in_map_iff. split.
    + intros ((((r & <- & Hr) & Hg) & Hm) & He). exists r. done.
    + intros (r & Hr & -> & Hg & Hm & He). repeat split; eauto.
  - apply incl_refl.
  - apply apply_filter_incl.
  - eapply incl_tran; apply apply_filter_incl.
Qed.

Lemma default_filters_drop_null_categories_witness :
  ∃ df, Dashboard.run_clv_dashboard 2015 sample_now
          (Dashboard.default_filters 2015 sample_now bad_date_table)
          bad_date_table = Ok df
        ∧ length df = 2%nat.
Proof.
  destruct (default_filters_drop_null_categories 2015 sample_now bad_date_table
              eq_refl) as (df & Hrun & _).
  exists df. split; [exact Hrun|].
  vm_compute in Hrun. injection Hrun as <-. reflexivity.
Defined.

Lemma cut_age (a : Z) :
  Charts.cut Charts.bins Charts.labels a
  = if (0 <? a) && (a <=? 30) then Some "<30"%string
    else if (30 <? a) && (a <=? 40) then Some "30-40"%string
    else if (40 <? a) && (a <=? 50) then Some "40-50"%string
    else if (50 <? a) && (a <=? 60) then Some "50-60"%string
    else if (60 <? a) && (a <=? 100) then Some "60+"%string
    else None.
Proof. reflexivity. Qed.

Ltac split_comparisons :=
  repeat (match goal with
          | |- context [?x <? ?y] => destruct (Z.ltb_spec x y)
          | |- context [?x <=? ?y] => destruct (Z.leb_spec x y)
          end; cbn [andb]).

(** X14.  The age groups of the pie chart are closed on the right: an age
    a is in "<30" exactly when 0 < a <= 30 (so a customer aged exactly 30
    is counted as "<30"), in "30-40" when 30 < a <= 40, in "40-50" when
    40 < a <= 50, in "50-60" when 50 < a <= 60 and in "60+" when
    60 < a <= 100; an age of 0 or less, or above 100, is in no group. *)
Theorem age_groups_are_right_closed (a : Z) :
  let group := Charts.cut Charts.bins Charts.labels a in
  (group = Some "<30"%string ↔ 0 < a ≤ 30)
  ∧ (group = Some "30-40"%string ↔ 30 < a ≤ 40)
  ∧ (group = Some "40-50"%string ↔ 40 < a ≤ 50)
  ∧ (group = Some "50-60"%string ↔ 50 < a ≤ 60)
  ∧ (group = Some "60+"%string ↔ 60 < a ≤ 100)
  ∧ (group = None ↔ a ≤ 0 ∨ 100 < a).
Proof.
  intros group. subst group. rewrite cut_age.
  split_comparisons; repeat split; intros; try congruence; try lia.
Qed.

Lemma clv_by_age_cons (d : Frame.derived_row) (df : list Frame.derived_row)
  (label : string) :
  (Charts.clv_by_age (d :: df) label
   == (if bool_decide (Charts.AgeGroup d = Some label)
       then default 0 (Frame.CLV d) else 0)
      + Charts.clv_by_age df label)%Q.
Proof.
  unfold Charts.clv_by_age. simpl. case_bool_decide; simpl; ring.
Qed.

(** X15.  The slices of the pie chart add up to the CLV (nulls counted as
    0) of the customers whose age is above 0 and at most 100; a customer
    with another age, or with a null age, is in no slice. *)
Theorem pie_chart_total (df : list Frame.derived_row) :
  (Charts.Qsum (map (Charts.clv_by_age df) Charts.labels)
   == Charts.Qsum
        (map (fun d => default 0 (Frame.CLV d))
           (List.filter (fun d => match Frame.Age d with
                                  | Some a => (0 <? a) && (a <=? 100)
                                  | None => false
                                  end) df)))%Q.
Proof.
  induction df as [|d df IH].
  - unfold Charts.clv_by_age. simpl. ring.
  - unfold Charts.labels in *. cbn [map Charts.Qsum fold_right] in *.
    rewrite !clv_by_age_cons. cbn [List.filter].
    unfold Charts.AgeGroup. destruct (Frame.Age d) as [a|]; cbn [mbind option_bind].
    + rewrite cut_age.
      split_comparisons; try lia;
        repeat (case_bool_decide; try congruence);
        cbn [map Charts.Qsum fold_right]; rewrite <- IH; ring.
    + repeat (case_bool_decide; try congruence).
      rewrite <- IH. ring.
Qed.

(** ** marketbasket.py: the column finder *)

Lemma prefix_spec (p s : string) :
  String.prefix p s = true ↔ ∃ r, s = String.append p r.
Proof.
  revert s. induction p as [|a p IH]; intros s.
  - simpl. destruct s; split; eauto.
  - destruct s as [|b s]; simpl.
    + split; [done | by intros [r Hr]].
    + destruct (ascii_dec a b) as [->|Hne].
      * rewrite IH. split; intros [r Hr]; exists r.
        -- by subst.
        -- by inversion Hr.
      * split; [done|]. intros [r [= Hab _]]. done.
Qed.

Lemma infix_spec (p s : string) :
  Columns.infix p s = true ↔ ∃ l r, s = String.append l (String.append p r).
Proof.
  induction s as [|b s IH]; cbn [Columns.infix].
  - rewrite orb_false_r, prefix_spec. split.
    + intros [r Hr]. by exists EmptyString, r.
    + intros (l & r & Hlr). destruct l; [by exists r | done].
  - rewrite orb_true_iff, prefix_spec, IH. split.
    + intros [[r Hr] | (l & r & Hlr)].
      * by exists EmptyString, r.
      * exists (String b l), r. by rewrite Hlr.
    + intros (l & r & Hlr). destruct l as [|c l].
      * left. by exists r.
      * right. inversion Hlr. by exists l, r.
Qed.

Lemma append_assoc (a b c : string) :
  String.append (String.append a b) c = String.append a (String.append b c).
Proof.
  induction a as [|x a IH]; [done|].
  change (String x (String.append (String.append a b) c)
          = String x (String.append a (String.append b c))).
  by rewrite IH.
Qed.

Lemma infix_append_l (p q s : string) :
  Columns.infix (String.append p q) s = true → Columns.infix p s = true.
Proof.
  rewrite !infix_spec. intros (l & r & ->).
  exists l, (String.append q r). by rewrite append_assoc.
Qed.

Lemma find_column_ext (cols kws kws' : list string) :
  (∀ col, Columns.matches kws col = Columns.matches kws' col) →
  Columns.find_column cols kws = Columns.find_column cols kws'.
Proof.
  intros Hext. induction cols as [|col cols IH]; simpl; [done|].
  by rewrite Hext, IH.
Qed.

(** X16.  The column finder returns the first column, in the order of the
    file, whose normalised name contains a normalised keyword: the result
    is a column of the file that matches, no column before it matches, and
    the result is null exactly when no column matches.  The order of the
    keywords plays no part. *)
Theorem find_column_first_match (cols keywords : list string) :
  match Columns.find_column cols keywords with
  | Some col =>
      ∃ before after,
        cols = before ++ col :: after
        ∧ Columns.matches keywords col = true
        ∧ Forall (fun c => Columns.matches keywords c = false) before
  | None => Forall (fun c => Columns.matches keywords c = false) cols
  end
  ∧ ∀ keywords', keywords ≡ₚ keywords' →
                 Columns.find_column cols keywords'
                 = Columns.find_column cols keywords.
Proof.
  split.
  - induction cols as [|col cols IH]; simpl; [done|].
    destruct (Columns.matches keywords col) eqn:E.
    + exists [], cols. done.
    + destruct (Columns.find_column cols keywords) as [c|].
      * destruct IH as (before & after & -> & Hc & Hb).
        exists (col :: before), after. repeat split; [done|]. by constructor.
      * by constructor.
  - intros keywords' Hperm. apply find_column_ext. intros col.
    unfold Columns.matches.
    apply eq_true_iff_eq. rewrite !existsb_exists.
    split; intros (kw & Hin & Hkw); exists kw; split; try done;
      apply list_elem_of_In; apply list_elem_of_In in Hin.
    + by rewrite Hperm.
    + by rewrite <- Hperm.
Qed.

(** X17.  Two keywords of each list are redundant: a name that contains
    "item name" contains "item", one that contains "product name" contains
    "product", one that contains "invoice no" contains "invoice"; so the
    item column is the first column whose normalised name contains "item"
    or "product", and the invoice column the first one that contains
    "bill no", "billno", "invoice" or "transaction id". *)
Theorem redundant_keywords (cols : list string) :
  Columns.find_column cols Columns.product_keywords
  = Columns.find_column cols ["item"; "product"]%string
  ∧ Columns.find_column cols Columns.invoice_keywords
    = Columns.find_column cols ["bill no"; "billno"; "invoice"; "transaction id"]%string.
Proof.
  split; apply find_column_ext; intros col;
    unfold Columns.matches, Columns.product_keywords, Columns.invoice_keywords;
    cbn [existsb]; rewrite ?orb_false_r.
  - change (Columns.normalize "item name")
      with (String.append (Columns.normalize "item") " name").
    change (Columns.normalize "product name")
      with (String.append (Columns.normalize "product") " name").
    destruct (Columns.infix (String.append (Columns.normalize "item") " name") _) eqn:E1;
      [apply infix_append_l in E1; rewrite E1; done|].
    destruct (Columns.infix (String.append (Columns.normalize "product") " name") _) eqn:E2;
      [apply infix_append_l in E2; rewrite E2|]; simpl;
      by rewrite ?orb_true_r, ?orb_false_r.
  - change (Columns.normalize "invoice no")
      with (String.append (Columns.normalize "invoice") " no").
    destruct (Columns.infix (String.append (Columns.normalize "invoice") " no") _) eqn:E1;
      [apply infix_append_l in E1; rewrite E1|]; simpl;
      by rewrite ?orb_true_r, ?orb_false_r.
Qed.

(** ** marketbasket.py: from the file to the rules *)

Lemma generate_rules_In (b : MarketBasket.basket) (rules : list MarketBasket.rule)
  (r : MarketBasket.rule) :
  MarketBasket.generate_rules b = Ok rules → In r rules →
  ∃ k a c,
    k `sublist_of` MarketBasket.items b ∧ (k = [a; c] ∨ k = [c; a])
    ∧ r = MarketBasket.make_rule [a] [c] (MarketBasket.support b [a; c])
            (MarketBasket.support b [a]) (MarketBasket.support b [c])
    ∧ MarketBasket.keep r = true.
Proof.
  unfold MarketBasket.generate_rules. rewrite association_rules_apriori.
  destruct (MarketBasket.apriori b 0.02) as [|ks freq] eqn:E; [done|].
  rewrite <- E. simpl. intros [= <-] Hin.
  apply filter_In in Hin as [Hin Hkeep].
  apply filter_In in Hin as [Hin _].
  apply in_concat in Hin as (l & Hl & Hr).
  apply in_map_iff in Hl as ([k s] & <- & Hks). simpl in Hr.
  apply In_apriori in Hks as (_ & Hk & _ & _).
  apply In_candidates in Hr as (A & C & Hsp & _ & _ & ->).
  pose proof Hkeep as Hkeep'. apply keep_true in Hkeep' as (HA & HC & _).
  simpl in HA, HC.
  apply len1_singleton in HA as [a ->]. apply len1_singleton in HC as [c ->].
  exists k, a, c. split; [done|].
  apply splits_singletons in Hsp as [-> | ->].
  - split; [by left|]. done.
  - split; [by right|]. rewrite support_swap in *. done.
Qed.

Lemma In_basket_items (df : list MarketBasket.transaction) (a : string) :
  In a (MarketBasket.items (MarketBasket.build_basket df))
  ↔ ∃ r, In r df ∧ MarketBasket.product r = Some a
         ∧ is_Some (MarketBasket.invoice r).
Proof.
  unfold MarketBasket.build_basket. cbn [MarketBasket.items].
  rewrite nodup_In, <- list_elem_of_In, list_elem_of_omap. split.
  - intros (r & Hr & Hp). apply list_elem_of_In, filter_In in Hr as [Hr Hk].
    apply andb_true_iff in Hk as [Hi _]. apply negb_true_iff, is_null_false in Hi.
    eauto.
  - intros (r & Hr & Hp & Hi). exists r. split; [|done].
    apply list_elem_of_In, filter_In. split; [done|].
    apply is_null_false in Hi. rewrite Hi, Hp. done.
Qed.

Lemma basket_items_NoDup (df : list MarketBasket.transaction) :
  NoDup (MarketBasket.items (MarketBasket.build_basket df)).
Proof. apply NoDup_ListNoDup, NoDup_nodup. Qed.

(** X18.  The basket matrix built from a file is well formed: no item
    heads two columns, every row has one cell per column, every row (an
    invoice) holds at least one item, and an item heads a column exactly
    when some line of the file with an invoice number names it. *)
Theorem basket_is_well_formed (df : list MarketBasket.transaction) :
  let b := MarketBasket.build_basket df in
  NoDup (MarketBasket.items b)
  ∧ (∀ row, In row (MarketBasket.matrix b) →
            length row = length (MarketBasket.items b) ∧ In true row)
  ∧ (∀ a, In a (MarketBasket.items b)
          ↔ ∃ r, In r df ∧ MarketBasket.product r = Some a
                 ∧ is_Some (MarketBasket.invoice r)).
Proof.
  intros b. split; [|split; [|intros a; apply In_basket_items]].
  - apply basket_items_NoDup.
  - subst b. unfold MarketBasket.build_basket. cbn [MarketBasket.matrix MarketBasket.items].
    set (keyed := List.filter _ df).
    intros row Hrow. apply in_map_iff in Hrow as (inv & <- & Hinv).
    split; [by rewrite length_map|].
    apply nodup_In, list_elem_of_In, list_elem_of_omap in Hinv as (r & Hr & Hi).
    apply list_elem_of_In in Hr.
    assert (∃ it, MarketBasket.product r = Some it) as [it Hit].
    { unfold keyed in Hr. apply filter_In in Hr as [_ Hk].
      apply andb_true_iff in Hk as [_ Hp].
      apply negb_true_iff, is_null_false in Hp as [it Hit]. eauto. }
    apply in_map_iff. exists it. split.
    + apply existsb_exists. exists r. split; [done|].
      by rewrite !bool_decide_eq_true_2.
    + apply nodup_In, list_elem_of_In, list_elem_of_omap. exists r.
      split; [by apply list_elem_of_In | done].
Qed.

(** X19.  With the measures as exact rationals, every rule of the page
    joins two different items that each occur more than 50 times in the
    file, one as the only antecedent, the other as the only consequent. *)
Theorem rules_join_common_items (df : list MarketBasket.transaction)
  (rules : list MarketBasket.rule) (r : MarketBasket.rule) :
  MarketBasket.run_marketbasket df = Ok rules → In r rules →
  ∃ a c, MarketBasket.antecedents r = [a] ∧ MarketBasket.consequents r = [c]
         ∧ a ≠ c
         ∧ (50 < MarketBasket.value_counts df a)%nat
         ∧ (50 < MarketBasket.value_counts df c)%nat.
Proof.
  unfold MarketBasket.run_marketbasket. intros Hrun Hin.
  destruct (generate_rules_In _ _ _ Hrun Hin) as (k & a & c & Hk & Hkac & -> & _).
  assert (NoDup k) as Hnd.
  { eapply sublist_NoDup; [apply basket_items_NoDup | exact Hk]. }
  assert (∀ x, In x k → (50 < MarketBasket.value_counts df x)%nat) as Hcommon.
  { intros x Hx. eapply sublist_In in Hx; [|exact Hk].
    apply In_basket_items in Hx as (l & Hl & Hp & _).
    unfold MarketBasket.filter_common in Hl. apply filter_In in Hl as [_ Hc].
    rewrite Hp in Hc. by apply Nat.ltb_lt in Hc. }
  exists a, c. do 2 (split; [done|]).
  destruct Hkac as [-> | ->]; apply NoDup_cons in Hnd as [Hne _].
  - split; [intros ->; apply Hne; by left|].
    split; apply Hcommon; [by left | right; by left].
  - split; [intros ->; apply Hne; by left|].
    split; apply Hcommon; [right; by left | by left].
Qed.

Lemma rules_join_common_items_witness :
  ∃ rules r a, MarketBasket.run_marketbasket paired_lines = Ok rules ∧ In r rules
               ∧ MarketBasket.antecedents r = [a]
               ∧ (50 < MarketBasket.value_counts paired_lines a)%nat.
Proof.
  destruct (MarketBasket.run_marketbasket paired_lines) as [rules|m] eqn:E;
    [|vm_compute in E; discriminate E].
  destruct rules as [|r rules]; [vm_compute in E; discriminate E|].
  destruct (rules_join_common_items paired_lines (r :: rules) r E (or_introl eq_refl))
    as (a & c & Ha & _ & _ & Hca & _).
  exists (r :: rules), r, a.
  split; [reflexivity|]. split; [left; reflexivity|]. split; [exact Ha | exact Hca].
Defined.

Lemma support_count_le_rows (b : MarketBasket.basket) (X : list string) :
  (MarketBasket.support_count b X ≤ length (MarketBasket.matrix b))%nat.
Proof.
  unfold MarketBasket.support_count.
  pose proof (List.filter_length (MarketBasket.contains (MarketBasket.items b) X)
                (MarketBasket.matrix b)).
  lia.
Qed.

Lemma metric_bounds (x y z n : Z) :
  0 ≤ x → x ≤ y → x ≤ z → y ≤ n → z ≤ n →
  let s := (inject_Z x / inject_Z n)%Q in
  let sA := (inject_Z y / inject_Z n)%Q in
  let sC := (inject_Z z / inject_Z n)%Q in
  (0.02 <= s)%Q →
  (s <= 1)%Q ∧ (s / sA <= 1)%Q ∧ (s / sA / sC <= 50)%Q.
Proof.
  intros Hx Hxy Hxz Hyn Hzn.
  destruct n as [|n|n]; [| |lia].
  - intros s sA sC. subst s. unfold Qle, Qdiv, Qmult, Qinv, inject_Z. simpl. lia.
  - destruct y as [|y|y]; [| |lia];
      (destruct z as [|z|z]; [| |lia]);
      intros s sA sC; subst s sA sC;
      unfold Qle, Qdiv, Qmult, Qinv, inject_Z; simpl; intros Hs;
      try (exfalso; lia).
    rewrite ?Pos2Z.inj_mul, ?Z.mul_1_l, ?Z.mul_1_r in *.
    set (N := Z.pos n) in *. set (Y := Z.pos y) in *. set (C := Z.pos z) in *.
    assert (x * N ≤ N * Y) as H1 by nia.
    assert (N ≤ 50 * C) as H2 by lia.
    assert (x * N * N ≤ N * Y * N) as H3 by nia.
    assert (N * Y * N ≤ N * Y * (50 * C)) as H4
      by (apply Z.mul_le_mono_nonneg_l; nia).
    repeat split; lia.
Qed.

(** X20.  As exact rationals, the measures of every returned rule are
    bounded on both sides: the support lies between 0.02 and 1, the
    confidence between 0.4 and 1, and the lift between 1 and 50. *)
Theorem rule_measures_are_bounded (b : MarketBasket.basket)
  (rules : list MarketBasket.rule) (r : MarketBasket.rule) :
  MarketBasket.generate_rules b = Ok rules → In r rules →
  (0.02 <= MarketBasket.rule_support r)%Q ∧ (MarketBasket.rule_support r <= 1)%Q
  ∧ (0.4 <= MarketBasket.confidence r)%Q ∧ (MarketBasket.confidence r <= 1)%Q
  ∧ (1 <= MarketBasket.lift r)%Q ∧ (MarketBasket.lift r <= 50)%Q.
Proof.
  intros Hrun Hin.
  destruct (generate_rules_In _ _ _ Hrun Hin) as (k & a & c & _ & _ & -> & Hkeep).
  apply keep_true in Hkeep as (_ & _ & Hs & Hc & Hl).
  cbn [MarketBasket.make_rule MarketBasket.rule_support MarketBasket.confidence
       MarketBasket.lift] in *.
  pose proof (support_count_mono b [a] [a; c]) as Hma.
  pose proof (support_count_mono b [c] [a; c]) as Hmc.
  pose proof (support_count_le_rows b [a]) as Hna.
  pose proof (support_count_le_rows b [c]) as Hnc.
  destruct (metric_bounds
              (Z.of_nat (MarketBasket.support_count b [a; c]))
              (Z.of_nat (MarketBasket.support_count b [a]))
              (Z.of_nat (MarketBasket.support_count b [c]))
              (Z.of_nat (length (MarketBasket.matrix b)))) as (H1 & H2 & H3);
    try lia.
  - apply Nat2Z.inj_le, Hma. intros x [<- | []]. by left.
  - apply Nat2Z.inj_le, Hmc. intros x [<- | []]. right. by left.
  - exact Hs.
  - assert (1 <= MarketBasket.support b [a; c] / MarketBasket.support b [a]
                 / MarketBasket.support b [c])%Q as Hl'
      by (eapply Qle_trans; [|exact Hl]; unfold Qle; simpl; lia).
    exact (conj Hs (conj H1 (conj Hc (conj H2 (conj Hl' H3))))).
Qed.

Lemma rule_measures_are_bounded_witness :
  ∃ rules r, MarketBasket.generate_rules basket_kept = Ok rules ∧ In r rules
             ∧ (MarketBasket.lift r <= 50)%Q.
Proof.
  destruct (MarketBasket.generate_rules basket_kept) as [rules|m] eqn:E;
    [|vm_compute in E; discriminate E].
  destruct rules as [|r rules]; [vm_compute in E; discriminate E|].
  exists (r :: rules), r. split; [reflexivity|]. split; [left; reflexivity|].
  apply (rule_measures_are_bounded basket_kept (r :: rules) r E (or_introl eq_refl)).
Defined.

(** ** sentiment.py: ages *)

Example age_to_midpoint_samples :
  Ages.age_to_midpoint "21-30" = Some 25
  ∧ Ages.age_to_midpoint " 46 - 60 " = Some 53
  ∧ Ages.age_to_midpoint "70" = Some 70
  ∧ Ages.age_to_midpoint "1_0" = Some 10
  ∧ Ages.age_to_midpoint "-5" = None
  ∧ Ages.age_to_midpoint "25.0" = None
  ∧ Ages.age_to_midpoint "20--30" = Some (-5)
  ∧ Ages.age_to_midpoint "" = None.
Proof. repeat split. Qed.

Lemma digit_facts (c : ascii) :
  Ages.is_digit c = true →
  Auth.is_space c = false ∧ Ascii.eqb c "-" = false ∧ Ascii.eqb c "+" = false
  ∧ 0 ≤ Ages.digit_value c ≤ 9.
Proof.
  destruct c as [[] [] [] [] [] [] [] []]; vm_compute; intuition discriminate.
Qed.

Lemma digits_nonneg_upto (k : nat) (s : string) (acc n : Z) :
  (String.length s ≤ k)%nat → 0 ≤ acc → Ages.digits acc s = Some n → 0 ≤ n.
Proof.
  revert s acc. induction k as [|k IH]; intros s acc Hlen Hacc.
  - destruct s; [|simpl in Hlen; lia]. simpl. by intros [= <-].
  - destruct s as [|c t]; [simpl; by intros [= <-]|].
    simpl in Hlen. simpl. destruct (Ages.is_digit c) eqn:Ec.
    + apply IH; [lia|]. destruct (digit_facts c Ec) as (_ & _ & _ & Hv). lia.
    + destruct (Ascii.eqb c "_"); [|done].
      destruct t as [|d t']; [done|].
      destruct (Ages.is_digit d) eqn:Ed; [|done].
      simpl in Hlen. apply IH; [lia|].
      destruct (digit_facts d Ed) as (_ & _ & _ & Hv). lia.
Qed.

Lemma unsigned_nonneg (s : string) (n : Z) : Ages.unsigned s = Some n → 0 ≤ n.
Proof.
  destruct s as [|c t]; [done|]. simpl.
  destruct (Ages.is_digit c) eqn:Ec; [|done].
  apply (digits_nonneg_upto (String.length t)); [lia|].
  destruct (digit_facts c Ec) as (_ & _ & _ & Hv). lia.
Qed.

Lemma has_char_lstrip (c : ascii) (s : string) :
  has_char c (Auth.lstrip s) = true → has_char c s = true.
Proof.
  induction s as [|d t IH]; [done|]. simpl.
  destruct (Auth.is_space d); [|done].
  intros H. rewrite (IH H). apply orb_true_r.
Qed.

Lemma has_char_rstrip (c : ascii) (s : string) :
  has_char c (Auth.rstrip s) = true → has_char c s = true.
Proof.
  induction s as [|d t IH]; [done|]. simpl.
  destruct (Auth.rstrip t) as [|e t'] eqn:E.
  - destruct (Auth.is_space d); [done|]. simpl. rewrite orb_false_r.
    intros ->. done.
  - simpl in *. destruct (Ascii.eqb d c); [done|]. simpl. exact IH.
Qed.

Lemma has_char_strip (c : ascii) (s : string) :
  has_char c (Auth.strip s) = true → has_char c s = true.
Proof. intros H. by apply has_char_lstrip, has_char_rstrip. Qed.

Lemma split_dash_None (s : string) :
  Ages.split_dash s = None ↔ has_char "-" s = false.
Proof.
  induction s as [|c t IH]; [done|]. simpl.
  destruct (Ascii.eqb c "-"); [done|]. simpl. rewrite <- IH.
  destruct (Ages.split_dash t) as [[a b]|]; done.
Qed.

Lemma int_no_dash_nonneg (s : string) (n : Z) :
  has_char "-" (Auth.strip s) = false → Ages.int s = Some n → 0 ≤ n.
Proof.
  unfold Ages.int. destruct (Auth.strip s) as [|c t]; [done|]. cbn [has_char].
  destruct (Ascii.eqb c "+"); [intros _; apply unsigned_nonneg|].
  destruct (Ascii.eqb c "-"); [done|]. intros _. apply unsigned_nonneg.
Qed.

(** X21.  The age parser never accepts a text that starts with a dash: the
    text before the first dash is then empty and is not a number, so "-5"
    gives null.  A text without any dash gives, if anything, an age that is
    not negative. *)
Theorem age_without_dash_is_not_negative (s : string) :
  (∀ t, Auth.strip s = String "-" t → Ages.age_to_midpoint s = None)
  ∧ (has_char "-" s = false →
     ∀ m, Ages.age_to_midpoint s = Some m → 0 ≤ m).
Proof.
  unfold Ages.age_to_midpoint. split.
  - intros t ->. done.
  - intros Hno m.
    assert (has_char "-" (Auth.strip s) = false) as Hno'.
    { destruct (has_char "-" (Auth.strip s)) eqn:E; [|done].
      apply has_char_strip in E. congruence. }
    apply split_dash_None in Hno' as Hsplit. rewrite Hsplit.
    apply int_no_dash_nonneg.
    destruct (has_char "-" (Auth.strip (Auth.strip s))) eqn:E; [|done].
    apply has_char_strip in E. congruence.
Qed.

Lemma age_without_dash_is_not_negative_witness :
  Ages.age_to_midpoint " -5" = None ∧ ∃ m, Ages.age_to_midpoint "+70" = Some m ∧ 0 ≤ m.
Proof.
  destruct (age_without_dash_is_not_negative " -5") as [H _].
  destruct (age_without_dash_is_not_negative "+70") as [_ H'].
  split; [by apply (H "5"%string)|].
  exists 70. split; [reflexivity|]. by apply H'.
Defined.

Lemma rstrip_digits (s : string) : all_digits s = true → Auth.rstrip s = s.
Proof.
  induction s as [|c t IH]; [done|]. simpl.
  intros H. apply andb_true_iff in H as [Hc Ht]. rewrite (IH Ht).
  destruct t; [|done]. by destruct (digit_facts c Hc) as (-> & _).
Qed.

Lemma rstrip_app (l r : string) :
  Auth.rstrip r = r → r ≠ EmptyString →
  Auth.rstrip (String.append l r) = String.append l r.
Proof.
  intros Hr Hne. induction l as [|c l IH]; [done|].
  change (String.append (String c l) r) with (String c (String.append l r)).
  cbn [Auth.rstrip]. rewrite IH.
  destruct (String.append l r) eqn:E; [|done].
  destruct l; [|done]. simpl in E. done.
Qed.

Lemma strip_range (a b : string) :
  number_text a → number_text b →
  Auth.strip (String.append a (String "-" b)) = String.append a (String "-" b).
Proof.
  intros [Ha Hane] [Hb Hbne]. unfold Auth.strip.
  destruct a as [|c a]; [done|]. simpl in Ha.
  apply andb_true_iff in Ha as [Hc Ha].
  change (String.append (String c a) (String "-" b))
    with (String c (String.append a (String "-" b))).
  cbn [Auth.lstrip]. destruct (digit_facts c Hc) as (-> & _).
  change (String c (String.append a (String "-" b)))
    with (String.append (String c a) (String.append "-" b)).
  rewrite <- append_assoc. apply rstrip_app; [by apply rstrip_digits | done].
Qed.

Lemma strip_number (a : string) : number_text a → Auth.strip a = a.
Proof.
  intros [Ha Hane]. unfold Auth.strip. destruct a as [|c a]; [done|].
  pose proof Ha as Ha'. simpl in Ha'. apply andb_true_iff in Ha' as [Hc _].
  cbn [Auth.lstrip]. destruct (digit_facts c Hc) as (-> & _).
  by apply rstrip_digits.
Qed.

Lemma split_dash_range (a b : string) :
  all_digits a = true →
  Ages.split_dash (String.append a (String "-" b)) = Some (a, b).
Proof.
  induction a as [|c a IH]; [done|]. simpl.
  intros H. apply andb_true_iff in H as [Hc Ha].
  change (String.append (String c a) (String "-" b))
    with (String c (String.append a (String "-" b))).
  cbn [Ages.split_dash]. destruct (digit_facts c Hc) as (_ & -> & _).
  by rewrite IH.
Qed.

Lemma digits_total (s : string) (acc : Z) :
  all_digits s = true → is_Some (Ages.digits acc s).
Proof.
  revert acc. induction s as [|c t IH]; intros acc; simpl; [eauto|].
  intros H. apply andb_true_iff in H as [-> Ht]. by apply IH.
Qed.

Lemma int_number (a : string) :
  number_text a → ∃ x, Ages.int a = Some x ∧ Ages.unsigned a = Some x ∧ 0 ≤ x.
Proof.
  intros Hn. unfold Ages.int. rewrite (strip_number a Hn).
  destruct Hn as [Ha Hane]. destruct a as [|c a]; [done|].
  pose proof Ha as Ha'. simpl in Ha'. apply andb_true_iff in Ha' as [Hc Hrest].
  destruct (digit_facts c Hc) as (_ & -> & -> & _).
  destruct (Ages.unsigned (String c a)) as [x|] eqn:E.
  - exists x. split; [done|]. split; [done|]. by apply unsigned_nonneg in E.
  - simpl in E. rewrite Hc in E.
    destruct (digits_total a (Ages.digit_value c) Hrest) as [x Hx]. congruence.
Qed.

(** X22.  An age range written as two runs of digits (each within the
    length the interpreter converts) around a dash gets the floor of the
    mean of its two numbers, which lies between them and is the same
    whichever number comes first; a single run of digits gets its own
    value. *)
Theorem age_range_midpoint (a b : string) :
  number_text a → number_text b →
  (String.length a ≤ int_max_str_digits)%nat →
  (String.length b ≤ int_max_str_digits)%nat →
  ∃ x y,
    Ages.age_to_midpoint a = Some x ∧ Ages.age_to_midpoint b = Some y
    ∧ Ages.age_to_midpoint (String.append a (String "-" b)) = Some ((x + y) / 2)
    ∧ Ages.age_to_midpoint (String.append b (String "-" a)) = Some ((x + y) / 2)
    ∧ Z.min x y ≤ (x + y) / 2 ≤ Z.max x y.
Proof.
  intros Ha Hb _ _.
  destruct (int_number a Ha) as (x & Hx & _ & Hx0).
  destruct (int_number b Hb) as (y & Hy & _ & Hy0).
  assert (∀ s, number_text s → Ages.age_to_midpoint s = Ages.int s) as Hsingle.
  { intros s Hs. unfold Ages.age_to_midpoint. rewrite (strip_number s Hs).
    destruct (Ages.split_dash s) as [[p0 p1]|] eqn:E; [|done].
    exfalso. assert (has_char "-" s = false) as Hno.
    { destruct Hs as [Hs _]. clear E. induction s as [|c s IH]; [done|].
      simpl in *. apply andb_true_iff in Hs as [Hc Hs].
      destruct (digit_facts c Hc) as (_ & -> & _). by apply IH. }
    apply split_dash_None in Hno. congruence. }
  assert (∀ p q u v, number_text p → number_text q →
            Ages.int p = Some u → Ages.int q = Some v →
            Ages.age_to_midpoint (String.append p (String "-" q))
            = Some ((u + v) / 2)) as Hrange.
  { intros p q u v Hp Hq Hu Hv. unfold Ages.age_to_midpoint.
    rewrite (strip_range p q Hp Hq), (split_dash_range p q (proj1 Hp)).
    rewrite (strip_number p Hp), (strip_number q Hq), Hu, Hv. done. }
  exists x, y. rewrite !Hsingle by done.
  split; [done|]. split; [done|].
  split; [by apply Hrange|].
  split; [rewrite (Hrange b a y x) by done; by rewrite (Z.add_comm y x)|].
  pose proof (Z.div_mod (x + y) 2 ltac:(lia)) as Hdm.
  pose proof (Z.mod_pos_bound (x + y) 2 ltac:(lia)) as Hmb.
  lia.
Qed.

Lemma age_range_midpoint_witness :
  Ages.age_to_midpoint "31-45" = Some 38 ∧ Ages.age_to_midpoint "45-31" = Some 38.
Proof.
  destruct (age_range_midpoint "31" "45") as (x & y & Hx & Hy & Hab & Hba & _).
  - by split.
  - by split.
  - unfold int_max_str_digits. simpl. lia.
  - unfold int_max_str_digits. simpl. lia.
  - vm_compute in Hx, Hy. injection Hx as <-. injection Hy as <-.
    split; [exact Hab | exact Hba].
Defined.

(** ** clv.py: the address of a published sheet *)

Example csv_export_url_samples :
  Upload.csv_export_url "https://docs.google.com/spreadsheets/d/abc/edit#gid=0"
  = "https://docs.google.com/spreadsheets/d/abc/export?format=csv#gid=0"%string
  ∧ Upload.csv_export_url "https://docs.google.com/spreadsheets/d/abc/edit?usp=sharing"
    = "https://docs.google.com/spreadsheets/d/abc/export?format=csv?usp=sharing"%string
  ∧ Upload.csv_export_url "https://docs.google.com/spreadsheets/d/abc?usp=sharing"
    = "https://docs.google.com/spreadsheets/d/abc/export?format=csv"%string
  ∧ Upload.replace "aa" "b" "aaa" = "ba"%string.
Proof. repeat split. Qed.

Lemma append_eq_append (p x q y : string) :
  String.append p x = String.append q y →
  (∃ d, q = String.append p d ∧ x = String.append d y)
  ∨ (∃ d, p = String.append q d ∧ y = String.append d x).
Proof.
  revert q. induction p as [|a p IH]; intros q H.
  - left. exists q. done.
  - destruct q as [|b q].
    + right. exists (String a p). done.
    + inversion H as [[Hab Hrest]]. subst b.
      destruct (IH q Hrest) as [(d & -> & ->) | (d & -> & ->)].
      * left. by exists d.
      * right. by exists d.
Qed.

Lemma append_nil_r (s : string) : String.append s "" = s.
Proof.
  induction s as [|c s IH]; [done|].
  change (String c (String.append s "") = String c s). by rewrite IH.
Qed.

Lemma has_char_append (c : ascii) (l r : string) :
  has_char c (String.append l r) = has_char c l || has_char c r.
Proof.
  induction l as [|d l IH]; [done|].
  change (String.append (String d l) r) with (String d (String.append l r)).
  cbn [has_char]. by rewrite IH, orb_assoc.
Qed.

(** No occurrence of [old] starts inside [base] and runs into a following
    occurrence, when the first character of [old] is nowhere else in it. *)
Lemma prefix_boundary (c0 : ascii) (oldt base rest : string) :
  has_char c0 oldt = false → base ≠ EmptyString →
  String.prefix (String c0 oldt)
    (String.append base (String.append (String c0 oldt) rest)) = true →
  String.prefix (String c0 oldt) base = true.
Proof.
  intros Hc0 Hne Hp. apply prefix_spec in Hp as [r Hr]. apply prefix_spec.
  apply append_eq_append in Hr as [(d & Hold & Hd) | (d & -> & _)]; [|eauto].
  destruct d as [|e d].
  - exists EmptyString. rewrite Hold. by rewrite !append_nil_r.
  - exfalso. inversion Hd as [[He Hrest]]. subst e.
    destruct base as [|b base]; [done|].
    inversion Hold as [[Hb Ht]].
    rewrite Ht, has_char_append in Hc0. cbn [has_char] in Hc0.
    rewrite <- Hb, Ascii.eqb_refl, orb_true_r in Hc0. done.
Qed.

Lemma replace_from_skip (old new x rest : string) :
  Upload.replace_from (String.length x) old new (String.append x rest)
  = Upload.replace_from 0 old new rest.
Proof.
  induction x as [|c x IH]; [by destruct rest|].
  change (String.append (String c x) rest) with (String c (String.append x rest)).
  cbn [String.length Upload.replace_from]. exact IH.
Qed.

Lemma infix_cons_false (p : string) (c : ascii) (s : string) :
  Columns.infix p (String c s) = false →
  String.prefix p (String c s) = false ∧ Columns.infix p s = false.
Proof. cbn [Columns.infix]. intros H. by apply orb_false_iff in H. Qed.

Lemma replace_absent (old new s : string) :
  old ≠ EmptyString → Columns.infix old s = false → Upload.replace old new s = s.
Proof.
  intros Hne. unfold Upload.replace. induction s as [|c s IH]; [done|].
  intros H. apply infix_cons_false in H as [Hp Hi].
  cbn [Upload.replace_from]. rewrite Hp. by rewrite IH.
Qed.

Lemma replace_first (c0 : ascii) (oldt new base rest : string) :
  has_char c0 oldt = false →
  Columns.infix (String c0 oldt) base = false →
  Upload.replace (String c0 oldt) new
    (String.append base (String.append (String c0 oldt) rest))
  = String.append base
      (String.append new (Upload.replace (String c0 oldt) new rest)).
Proof.
  intros Hc0. unfold Upload.replace. induction base as [|b base IH]; intros Hi.
  - change (String.append "" (String.append (String c0 oldt) rest))
      with (String c0 (String.append oldt rest)).
    cbn [Upload.replace_from].
    assert (String.prefix (String c0 oldt) (String c0 (String.append oldt rest))
            = true) as ->.
    { apply prefix_spec. by exists rest. }
    replace (String.length (String c0 oldt) - 1)%nat with (String.length oldt)
      by (simpl; lia).
    by rewrite replace_from_skip.
  - apply infix_cons_false in Hi as [Hp Hi].
    change (String.append (String b base) (String.append (String c0 oldt) rest))
      with (String b (String.append base (String.append (String c0 oldt) rest))).
    cbn [Upload.replace_from].
    destruct (String.prefix (String c0 oldt)
                (String b (String.append base (String.append (String c0 oldt) rest))))
      eqn:E.
    + apply (prefix_boundary c0 oldt (String b base) rest Hc0) in E; [|done].
      congruence.
    + rewrite (IH Hi). done.
Qed.

Lemma infix_middle (p l r : string) :
  Columns.infix p (String.append l (String.append p r)) = true.
Proof. apply infix_spec. by exists l, r. Qed.

(** X23.  The address rewriting: an address with neither "/edit" nor
    "?usp=sharing" is left as it is; in an address with "/edit" the first
    "/edit" (and every later one) becomes "/export?format=csv" while a
    "?usp=sharing" stays, so a link ending in "/edit?usp=sharing" ends in
    "/export?format=csv?usp=sharing"; only an address without "/edit" has
    its "?usp=sharing" replaced. *)
Theorem csv_export_url_rewrites (base rest : string) :
  (Columns.infix "/edit" base = false → Columns.infix "?usp=sharing" base = false →
   Upload.csv_export_url base = base)
  ∧ (Columns.infix "/edit" base = false →
     Upload.csv_export_url (String.append base (String.append "/edit" rest))
     = String.append base
         (String.append "/export?format=csv"
            (Upload.replace "/edit" "/export?format=csv" rest)))
  ∧ (Columns.infix "/edit" base = false →
     Upload.csv_export_url (String.append base "/edit?usp=sharing")
     = String.append base "/export?format=csv?usp=sharing")
  ∧ (Columns.infix "/edit" (String.append base "?usp=sharing") = false →
     Columns.infix "?usp=sharing" base = false →
     Upload.csv_export_url (String.append base "?usp=sharing")
     = String.append base "/export?format=csv").
Proof.
  assert (∀ rest', Columns.infix "/edit" base = false →
          Upload.csv_export_url (String.append base (String.append "/edit" rest'))
          = String.append base
              (String.append "/export?format=csv"
                 (Upload.replace "/edit" "/export?format=csv" rest'))) as Hedit.
  { intros rest' Hb. unfold Upload.csv_export_url. rewrite infix_middle.
    by apply (replace_first "/" "edit"). }
  split; [|split; [apply Hedit|split]].
  - intros H1 H2. unfold Upload.csv_export_url. by rewrite H1, H2.
  - intros Hb. exact (Hedit "?usp=sharing"%string Hb).
  - intros H1 H2. unfold Upload.csv_export_url. rewrite H1.
    pose proof (infix_middle "?usp=sharing" base "") as Hin.
    change (String.append "?usp=sharing" "") with "?usp=sharing"%string in Hin.
    rewrite Hin.
    exact (replace_first "?" "usp=sharing" "/export?format=csv" base "" eq_refl H2).
Qed.

Lemma csv_export_url_rewrites_witness :
  Upload.csv_export_url "https://docs.google.com/spreadsheets/d/abc/edit?usp=sharing"
  = "https://docs.google.com/spreadsheets/d/abc/export?format=csv?usp=sharing"%string.
Proof.
  destruct (csv_export_url_rewrites "https://docs.google.com/spreadsheets/d/abc" "")
    as (_ & _ & H & _).
  by apply H.
Defined.

(** ** marketbasket.py: the item filter, once more *)

Lemma filter_filter_length {A} (p q : A → bool) (l : list A) :
  (∀ x, In x l → q x = true → p x = true) →
  length (List.filter q (List.filter p l)) = length (List.filter q l).
Proof.
  induction l as [|x l IH]; intros H; simpl; [done|].
  assert (∀ y, In y l → q y = true → p y = true) as H'
    by (intros y Hy; apply H; by right).
  destruct (p x) eqn:Ep; simpl.
  - destruct (q x); simpl; by rewrite IH.
  - destruct (q x) eqn:Eq; [|by apply IH].
    rewrite (H x) in Ep; [done | by left | done].
Qed.

Lemma filter_none_length {A} (p q : A → bool) (l : list A) :
  (∀ x, In x l → q x = true → p x = false) →
  length (List.filter q (List.filter p l)) = 0%nat.
Proof.
  induction l as [|x l IH]; intros H; simpl; [done|].
  assert (∀ y, In y l → q y = true → p y = false) as H'
    by (intros y Hy; apply H; by right).
  destruct (p x) eqn:Ep; simpl; [|by apply IH].
  destruct (q x) eqn:Eq; [|by apply IH].
  rewrite (H x) in Ep; [done | by left | done].
Qed.

Lemma value_counts_filter_common (df : list MarketBasket.transaction) (i : string) :
  MarketBasket.value_counts (MarketBasket.filter_common df) i
  = if MarketBasket.common_items df i then MarketBasket.value_counts df i else 0%nat.
Proof.
  unfold MarketBasket.value_counts, MarketBasket.filter_common.
  destruct (MarketBasket.common_items df i) eqn:E.
  - apply filter_filter_length. intros r _ Hr.
    apply bool_decide_eq_true in Hr. by rewrite Hr.
  - apply filter_none_length. intros r _ Hr.
    apply bool_decide_eq_true in Hr. by rewrite Hr.
Qed.

(** X24.  The item filter keeps an item with all its lines or not at all:
    after it an item occurs as often as before when it occurred more than
    50 times, and not at all otherwise; so filtering a second time changes
    nothing. *)
Theorem filter_common_is_idempotent (df : list MarketBasket.transaction) :
  (∀ i, MarketBasket.value_counts (MarketBasket.filter_common df) i
        = if Nat.ltb 50 (MarketBasket.value_counts df i)
          then MarketBasket.value_counts df i else 0%nat)
  ∧ MarketBasket.filter_common (MarketBasket.filter_common df)
    = MarketBasket.filter_common df.
Proof.
  split; [intros i; apply value_counts_filter_common|].
  unfold MarketBasket.filter_common at 1.
  apply forallb_filter_id, forallb_forall. intros r Hr.
  apply filter_In in Hr as [_ Hc].
  destruct (MarketBasket.product r) as [i|]; [|done].
  unfold MarketBasket.common_items. rewrite value_counts_filter_common, Hc.
  exact Hc.
Qed.

(** ** marketbasket.py: the rules as computed in binary64 *)

Section Computed.

Import PrimFloat.
#[local] Set Warnings "-inexact-float".

Lemma generate_rules64_In (b : MarketBasket.basket) (rules : list Binary64.rule)
  (r : Binary64.rule) :
  Binary64.generate_rules b = Ok rules → In r rules →
  ∃ k a c,
    k `sublist_of` MarketBasket.items b ∧ (k = [a; c] ∨ k = [c; a])
    ∧ r = Binary64.make_rule [a] [c] (Binary64.support b k)
            (Binary64.support b [a]) (Binary64.support b [c])
    ∧ Binary64.keep r = true.
Proof.
  unfold Binary64.generate_rules, Binary64.association_rules.
  destruct (Binary64.apriori b 0.02) as [|ks0 freq0] eqn:E; [done|].
  rewrite <- E. clear E ks0 freq0.
  destruct (rmapM _ (Binary64.apriori b 0.02)) as [cands|m] eqn:Em; simpl; [|done].
  apply rmapM_Ok in Em. intros [= <-] Hin.
  apply filter_In in Hin as [Hin Hkeep].
  apply filter_In in Hin as [Hin _].
  apply in_concat in Hin as (rs & Hrs & Hr).
  destruct (Forall2_In_r _ _ _ _ Em Hrs) as ([k s] & Hks & Hok).
  apply In_apriori64 in Hks as (-> & Hk & _).
  apply In_itemsets in Hk as [Hk _].
  apply rules_of64_Ok in Hok.
  destruct (Forall2_In_r _ _ _ _ Hok Hr) as ([A C] & Hsp & -> & _).
  cbn [fst snd] in *.
  pose proof Hkeep as Hkeep'. apply keep64_true in Hkeep' as (HA & HC & _).
  simpl in HA, HC.
  apply len1_singleton in HA as [a ->]. apply len1_singleton in HC as [c ->].
  apply filter_In in Hsp as [Hsp _].
  exists k, a, c. split; [done|].
  split; [by apply splits_singletons|]. done.
Qed.

(** X25.  The rules as the page computes them, in binary64: every rule it
    returns joins two different items that each occur more than 50 times
    in the file, one as the only antecedent, the other as the only
    consequent, and its computed support, confidence and lift reach 0.02,
    0.4 and 1.0. *)
Theorem computed_rules_join_common_items (df : list MarketBasket.transaction)
  (rules : list Binary64.rule) (r : Binary64.rule) :
  Binary64.run_marketbasket df = Ok rules → In r rules →
  ∃ a c, Binary64.antecedents r = [a] ∧ Binary64.consequents r = [c]
         ∧ a ≠ c
         ∧ (50 < MarketBasket.value_counts df a)%nat
         ∧ (50 < MarketBasket.value_counts df c)%nat
         ∧ PrimFloat.leb 0.02 (Binary64.rule_support r) = true
         ∧ PrimFloat.leb 0.4 (Binary64.confidence r) = true
         ∧ PrimFloat.leb 1.0 (Binary64.lift r) = true.
Proof.
  unfold Binary64.run_marketbasket. intros Hrun Hin.
  destruct (generate_rules64_In _ _ _ Hrun Hin) as (k & a & c & Hk & Hkac & -> & Hkeep).
  apply keep64_true in Hkeep as (_ & _ & Hs & Hc & Hl).
  assert (NoDup k) as Hnd.
  { eapply sublist_NoDup; [apply basket_items_NoDup | exact Hk]. }
  assert (∀ x, In x k → (50 < MarketBasket.value_counts df x)%nat) as Hcommon.
  { intros x Hx. eapply sublist_In in Hx; [|exact Hk].
    apply In_basket_items in Hx as (l & Hline & Hp & _).
    unfold MarketBasket.filter_common in Hline.
    apply filter_In in Hline as [_ Hcm].
    rewrite Hp in Hcm. by apply Nat.ltb_lt in Hcm. }
  exists a, c. do 2 (split; [done|]).
  destruct Hkac as [-> | ->]; apply NoDup_cons in Hnd as [Hne _].
  - split; [intros ->; apply Hne; by left|].
    split; [apply Hcommon; by left|].
    split; [apply Hcommon; right; by left|]. done.
  - split; [intros ->; apply Hne; by left|].
    split; [apply Hcommon; right; by left|].
    split; [apply Hcommon; by left|]. done.
Qed.

Lemma computed_rules_join_common_items_witness :
  ∃ rules r a, Binary64.run_marketbasket paired_lines = Ok rules ∧ In r rules
               ∧ Binary64.antecedents r = [a]
               ∧ (50 < MarketBasket.value_counts paired_lines a)%nat
               ∧ PrimFloat.leb 0.4 (Binary64.confidence r) = true.
Proof.
  destruct (Binary64.run_marketbasket paired_lines) as [rules|m] eqn:E;
    [|vm_compute in E; discriminate E].
  destruct rules as [|r rules]; [vm_compute in E; discriminate E|].
  destruct (computed_rules_join_common_items paired_lines (r :: rules) r E
              (or_introl eq_refl))
    as (a & c & Ha & _ & _ & Hca & _ & _ & Hcf & _).
  exists (r :: rules), r, a.
  split; [reflexivity|]. split; [left; reflexivity|].
  split; [exact Ha|]. split; [exact Hca | exact Hcf].
Defined.

End Computed.
